(** * Hotel management back office: the ledger layer of [interface.py]

    A shallow embedding of the data-access classes of [src/interface.py]
    ([OrderRepo], [CustomerRepo], [BookingRepo], [TicketRepo], [MenuRepo],
    [RoomRepo], [TicketCategoryRepo]), of [init_db] and the menu utilities,
    of [resolve_image_path], of the handlers of the four forms ([POSFrame],
    [BookingFrame], [SupportFrame], [ReportsFrame]) and of the two console
    scripts [menu.py] and [bookings.py], together with the part of SQLite
    and of the Python standard library that these functions rely on.

    Conventions.
    - Python [int] and SQLite [INTEGER] are [Z]; the 64-bit range of the
      store is not modelled.
    - Python [str] and SQLite [TEXT] are [string]; a nullable column is an
      [option].
    - A table is the list of its rows in rowid order plus the counter that
      SQLite keeps in [sqlite_sequence] for an [AUTOINCREMENT] key.
    - A connection sees the database file and, once it has written, its own
      uncommitted copy; [commit] publishes the copy and [close] drops it.
    - [dt.datetime.now()] is an input ([now]) of the operations that read
      the clock. *)

From Stdlib Require Import ZArith List String Ascii Bool Lia.
From Stdlib Require Import Permutation Sorted DecimalString.
Import ListNotations.

Open Scope string_scope.
Open Scope Z_scope.

(** ** Exceptions and results *)

Inductive exn : Type :=
| ValueError (msg : string)
| IntegrityError (msg : string)
| OperationalError (msg : string).

Inductive result (A : Type) : Type :=
| Ok (a : A)
| Raise (e : exn).

Arguments Ok {A} a.
Arguments Raise {A} e.

(** [str(e)] of an exception: its message. *)
Definition exn_message (e : exn) : string :=
  match e with
  | ValueError m => m
  | IntegrityError m => m
  | OperationalError m => m
  end.

(** [str(n)] of a Python integer. *)
Definition str_of_int (n : Z) : string :=
  NilZero.string_of_int (Z.to_int n).

(** ** Rows of the schema ([CREATE_TABLES_SQL]) *)

Record MenuItemRow : Type := mkMenuItem {
  mi_id : Z;
  mi_name : string;
  mi_category : string;
  mi_price : Z;
  mi_image_path : option string;
  mi_is_active : Z
}.

Record OrderRow : Type := mkOrder {
  o_id : Z;
  o_customer_name : option string;
  o_phone : option string;
  o_total : Z;
  o_created_at : string
}.

Record OrderItemRow : Type := mkOrderItem {
  oi_id : Z;
  oi_order_id : Z;
  oi_item_id : Z;
  oi_qty : Z;
  oi_line_total : Z
}.

Record CustomerRow : Type := mkCustomer {
  c_id : Z;
  c_name : string;
  c_phone : option string;
  c_email : option string
}.

Record RoomRow : Type := mkRoom {
  r_id : Z;
  r_room_no : string;
  r_room_type : string;
  r_price_per_night : Z;
  r_is_active : Z
}.

Record BookingRow : Type := mkBooking {
  b_id : Z;
  b_customer_id : Z;
  b_room_id : Z;
  b_check_in : string;
  b_check_out : string;
  b_nights : Z;
  b_total : Z;
  b_created_at : string;
  b_status : string
}.

Record TicketRow : Type := mkTicket {
  t_id : Z;
  t_customer_id : option Z;
  t_category : option string;
  t_subject : string;
  t_message : option string;
  t_status : string;
  t_created_at : string
}.

(** A table: its rows in rowid order and its [sqlite_sequence] counter. *)
Record Table (A : Type) : Type := mkTable {
  rows : list A;
  seq : Z
}.

Arguments mkTable {A} rows seq.
Arguments rows {A} t.
Arguments seq {A} t.

Definition empty_table {A : Type} : Table A := mkTable [] 0.

Record Database : Type := mkDatabase {
  menu_items : Table MenuItemRow;
  orders : Table OrderRow;
  order_items : Table OrderItemRow;
  customers : Table CustomerRow;
  rooms : Table RoomRow;
  bookings : Table BookingRow;
  tickets : Table TicketRow
}.

Definition empty_db : Database :=
  mkDatabase empty_table empty_table empty_table empty_table
             empty_table empty_table empty_table.

(** The rowid that [INTEGER PRIMARY KEY AUTOINCREMENT] gives to the next
    row: one more than the largest rowid the table ever held. *)
Definition max_id {A : Type} (id : A -> Z) (l : list A) : Z :=
  fold_right Z.max 0 (map id l).

Definition next_rowid {A : Type} (id : A -> Z) (t : Table A) : Z :=
  Z.max (max_id id (rows t)) (seq t) + 1.

Definition append_row {A : Type} (t : Table A) (new_id : Z) (r : A) : Table A :=
  mkTable (rows t ++ [r]) new_id.

Definition has_id {A : Type} (id : A -> Z) (t : Table A) (k : Z) : bool :=
  existsb (fun r => id r =? k) (rows t).

(** ** Connections and transactions *)

Record Connection : Type := mkConn {
  file : Database;
  txn : option Database
}.

Definition get_conn (db : Database) : Connection := mkConn db None.

(** What the connection reads: its open transaction, else the file. *)
Definition view (c : Connection) : Database :=
  match txn c with
  | Some w => w
  | None => file c
  end.

(** [conn.close()]: an open transaction is rolled back. *)
Definition close (c : Connection) : Database := file c.

(** Code that runs on an open connection and may raise. *)
Definition SQL (A : Type) : Type := Connection -> result A * Connection.

Definition ret {A : Type} (a : A) : SQL A := fun c => (Ok a, c).

Definition raise {A : Type} (e : exn) : SQL A := fun c => (Raise e, c).

Definition bind {A B : Type} (m : SQL A) (k : A -> SQL B) : SQL B :=
  fun c =>
    match m c with
    | (Ok a, c') => k a c'
    | (Raise e, c') => (Raise e, c')
    end.

Notation "x <- m ;; k" := (bind m (fun x => k))
  (at level 61, m at next level, right associativity).
Notation "m ;;; k" := (bind m (fun _ => k))
  (at level 61, right associativity).

(** A [SELECT]: reads the connection's view. *)
Definition query {A : Type} (q : Database -> A) : SQL A :=
  fun c => (Ok (q (view c)), c).

(** An [INSERT]: opens a transaction if none is open (the implicit [BEGIN]
    of the [sqlite3] module), then changes the uncommitted copy; a
    statement that raises leaves the copy as it was. *)
Definition execute {A : Type} (stmt : Database -> result (A * Database)) : SQL A :=
  fun c =>
    match stmt (view c) with
    | Ok (a, w) => (Ok a, mkConn (file c) (Some w))
    | Raise e => (Raise e, mkConn (file c) (Some (view c)))
    end.

(** [conn.commit()] *)
Definition commit : SQL unit :=
  fun c => (Ok tt, mkConn (view c) None).

(** [conn = get_conn(); try: ... finally: conn.close()] *)
Definition with_conn {A : Type} (db : Database) (body : SQL A) : result A * Database :=
  let '(r, c) := body (get_conn db) in (r, close c).

(** A call, made while this connection is open, of an operation that opens
    a connection of its own on the same file. *)
Definition call {A : Type} (op : Database -> result A * Database) : SQL A :=
  fun c => let '(r, db') := op (file c) in (r, mkConn db' (txn c)).

(** ** SQLite expressions used by the queries *)

(** [IFNULL(x, '')] *)
Definition ifnull (x : option string) : string :=
  match x with
  | Some s => s
  | None => ""
  end.

(** Case folding of [LIKE]: SQLite folds the ASCII letters only. *)
Definition sqlite_lower (c : ascii) : ascii :=
  let n := N_of_ascii c in
  if ((65 <=? n) && (n <=? 90))%N then ascii_of_N (n + 32) else c.

Definition eq_nocase (c d : ascii) : bool :=
  Ascii.eqb (sqlite_lower c) (sqlite_lower d).

(** [s LIKE p] without [ESCAPE]: [%] matches any run of characters, [_]
    any one character, and any other character matches itself up to ASCII
    case (no [PRAGMA case_sensitive_like] is issued by [get_conn]). *)
Fixpoint like (p : string) : string -> bool :=
  match p with
  | EmptyString =>
      fun s => match s with EmptyString => true | String _ _ => false end
  | String c p' =>
      if Ascii.eqb c "%" then
        fix star (s : string) : bool :=
          like p' s ||
          match s with
          | EmptyString => false
          | String _ s' => star s'
          end
      else
        fun s =>
          match s with
          | EmptyString => false
          | String d s' =>
              (Ascii.eqb c "_" || eq_nocase c d) && like p' s'
          end
  end.

(** [x LIKE p] on a nullable column: [NULL LIKE p] is not true. *)
Definition like_nullable (x : option string) (p : string) : bool :=
  match x with
  | Some s => like p s
  | None => false
  end.

(** The parameter [f"%{s}%"]. *)
Definition wrap_wildcards (s : string) : string := "%" ++ s ++ "%".

(** Truth value of a Python string in [if s:]. *)
Definition nonempty (s : string) : bool :=
  match s with
  | EmptyString => false
  | String _ _ => true
  end.

(** [ORDER BY]: the rows sorted by a total preorder [le]. *)
Fixpoint insert_sorted {A : Type} (le : A -> A -> bool) (x : A) (l : list A) : list A :=
  match l with
  | [] => [x]
  | y :: l' => if le x y then x :: y :: l' else y :: insert_sorted le x l'
  end.

Fixpoint order_by {A : Type} (le : A -> A -> bool) (l : list A) : list A :=
  match l with
  | [] => []
  | x :: l' => insert_sorted le x (order_by le l')
  end.

(** Setters for the tables that the operations write. *)
Definition set_orders (db : Database) (t : Table OrderRow) : Database :=
  mkDatabase (menu_items db) t (order_items db) (customers db)
             (rooms db) (bookings db) (tickets db).

Definition set_order_items (db : Database) (t : Table OrderItemRow) : Database :=
  mkDatabase (menu_items db) (orders db) t (customers db)
             (rooms db) (bookings db) (tickets db).

Definition set_customers (db : Database) (t : Table CustomerRow) : Database :=
  mkDatabase (menu_items db) (orders db) (order_items db) t
             (rooms db) (bookings db) (tickets db).

Definition set_bookings (db : Database) (t : Table BookingRow) : Database :=
  mkDatabase (menu_items db) (orders db) (order_items db) (customers db)
             (rooms db) t (tickets db).

Definition set_tickets (db : Database) (t : Table TicketRow) : Database :=
  mkDatabase (menu_items db) (orders db) (order_items db) (customers db)
             (rooms db) (bookings db) t.

(** ** MenuRepo *)

Module MenuRepo.

(** The [MenuItem] dataclass. *)
Record MenuItem : Type := mkItem {
  id : Z;
  name : string;
  category : string;
  price : Z;
  image_path : option string
}.

Definition of_row (m : MenuItemRow) : MenuItem :=
  mkItem (mi_id m) (mi_name m) (mi_category m) (mi_price m) (mi_image_path m).

(** The [WHERE] clause that [list_items] assembles. *)
Definition selected (category : option string) (search : string) (m : MenuItemRow) : bool :=
  (mi_is_active m =? 1)
  && match category with
     | Some cat =>
         if nonempty cat && negb (String.eqb cat "All")
         then String.eqb (mi_category m) cat
         else true
     | None => true
     end
  && (if nonempty search then like (wrap_wildcards search) (mi_name m) else true).

(** [ORDER BY category, name] *)
Definition by_category_name (a b : MenuItemRow) : bool :=
  match String.compare (mi_category a) (mi_category b) with
  | Lt => true
  | Eq => String.leb (mi_name a) (mi_name b)
  | Gt => false
  end.

Definition list_items (db : Database) (category : option string) (search : string)
  : list MenuItem :=
  map of_row
      (order_by by_category_name
                (filter (selected category search) (rows (menu_items db)))).

(** [SELECT DISTINCT category FROM menu_items WHERE is_active = 1
    ORDER BY category], with ["All"] put in front. *)
Definition categories (db : Database) : list string :=
  "All"
  :: order_by String.leb
       (nodup string_dec
          (map mi_category
               (filter (fun m => mi_is_active m =? 1) (rows (menu_items db))))).

End MenuRepo.

(** ** OrderRepo *)

Module OrderRepo.

(** [SELECT price FROM menu_items WHERE id = ?] followed by [fetchone()] *)
Definition select_price (item_id : Z) (db : Database) : option Z :=
  option_map mi_price
             (find (fun m => mi_id m =? item_id) (rows (menu_items db))).

(** [INSERT INTO orders(customer_name, phone, total, created_at)];
    the value is [cur.lastrowid]. *)
Definition insert_order (customer_name phone : string) (total : Z) (created_at : string)
  (db : Database) : result (Z * Database) :=
  let new_id := next_rowid o_id (orders db) in
  Ok (new_id,
      set_orders db
        (append_row (orders db) new_id
           (mkOrder new_id (Some customer_name) (Some phone) total created_at))).

(** [INSERT INTO order_items(order_id, item_id, qty, line_total)] under
    [CHECK(qty >= 1)] and the two foreign keys ([PRAGMA foreign_keys = ON]). *)
Definition insert_order_item (order_id item_id qty line_total : Z)
  (db : Database) : result (Z * Database) :=
  if negb (1 <=? qty) then
    Raise (IntegrityError "CHECK constraint failed: qty >= 1")
  else if negb (has_id o_id (orders db) order_id
                && has_id mi_id (menu_items db) item_id) then
    Raise (IntegrityError "FOREIGN KEY constraint failed")
  else
    let new_id := next_rowid oi_id (order_items db) in
    Ok (new_id,
        set_order_items db
          (append_row (order_items db) new_id
             (mkOrderItem new_id order_id item_id qty line_total))).

(** The first loop of [create_order], over [cart.items()]: prices every
    entry, accumulating [total] and [items]. *)
Fixpoint price_cart (cart : list (Z * Z)) (total : Z) (items : list (Z * Z * Z))
  : SQL (Z * list (Z * Z * Z)) :=
  match cart with
  | [] => ret (total, items)
  | (item_id, qty) :: cart' =>
      row <- query (select_price item_id) ;;
      match row with
      | None =>
          raise (ValueError ("Menu item id " ++ str_of_int item_id ++ " not found"))
      | Some price =>
          let line_total := price * qty in
          price_cart cart' (total + line_total)
                     (items ++ [(item_id, qty, line_total)])%list
      end
  end.

(** The second loop of [create_order], over [items]. *)
Fixpoint insert_lines (order_id : Z) (items : list (Z * Z * Z)) : SQL unit :=
  match items with
  | [] => ret tt
  | (item_id, qty, line_total) :: items' =>
      execute (insert_order_item order_id item_id qty line_total) ;;;
      insert_lines order_id items'
  end.

(** [cart] is [cart.items()], the entries of the dictionary in iteration
    order. *)
Definition create_order (db : Database) (customer_name phone : string)
  (cart : list (Z * Z)) (now : string) : result Z * Database :=
  with_conn db (
    priced <- price_cart cart 0 [] ;;
    order_id <- execute (insert_order customer_name phone (fst priced) now) ;;
    insert_lines order_id (snd priced) ;;;
    commit ;;;
    ret order_id).

(** The [WHERE] clause that [list_orders] assembles. *)
Definition selected (name phone : option string) (o : OrderRow) : bool :=
  match name with
  | Some n =>
      if nonempty n then like_nullable (o_customer_name o) (wrap_wildcards n)
      else true
  | None => true
  end
  && match phone with
     | Some p =>
         if nonempty p then like (wrap_wildcards p) (ifnull (o_phone o))
         else true
     | None => true
     end.

(** [ORDER BY id DESC] *)
Definition by_id_desc (a b : OrderRow) : bool := o_id b <=? o_id a.

(** [(id, created_at, IFNULL(customer_name,''), IFNULL(phone,''), total)] *)
Definition report_row (o : OrderRow) : Z * string * string * string * Z :=
  (o_id o, o_created_at o, ifnull (o_customer_name o), ifnull (o_phone o), o_total o).

Definition list_orders (db : Database) (name phone : option string)
  : list (Z * string * string * string * Z) :=
  map report_row
      (order_by by_id_desc (filter (selected name phone) (rows (orders db)))).

End OrderRepo.

(** ** CustomerRepo *)

Module CustomerRepo.

(** [WHERE name = ? AND IFNULL(phone,'') = ?] *)
Definition matches (name phone : string) (c : CustomerRow) : bool :=
  String.eqb (c_name c) name && String.eqb (ifnull (c_phone c)) phone.

(** [SELECT id FROM customers WHERE ...] followed by [fetchone()] *)
Definition select_id (name phone : string) (db : Database) : option Z :=
  option_map c_id (find (matches name phone) (rows (customers db))).

(** [UNIQUE(name, phone)]: a row with a [NULL] phone never conflicts. *)
Definition conflicts (name phone : string) (c : CustomerRow) : bool :=
  String.eqb (c_name c) name
  && match c_phone c with
     | Some p => String.eqb p phone
     | None => false
     end.

(** [INSERT INTO customers(name, phone, email)] *)
Definition insert_customer (name phone email : string)
  (db : Database) : result (Z * Database) :=
  if existsb (conflicts name phone) (rows (customers db)) then
    Raise (IntegrityError "UNIQUE constraint failed: customers.name, customers.phone")
  else
    let new_id := next_rowid c_id (customers db) in
    Ok (new_id,
        set_customers db
          (append_row (customers db) new_id
             (mkCustomer new_id name (Some phone) (Some email)))).

Definition ensure_customer (db : Database) (name phone email : string)
  : result Z * Database :=
  with_conn db (
    row <- query (select_id name phone) ;;
    match row with
    | Some found => ret found
    | None =>
        new_id <- execute (insert_customer name phone email) ;;
        commit ;;;
        ret new_id
    end).

End CustomerRepo.

(** ** RoomRepo *)

Module RoomRepo.

(** [ORDER BY room_no] *)
Definition by_room_no (a b : RoomRow) : bool :=
  String.leb (r_room_no a) (r_room_no b).

(** [SELECT id, room_no, room_type, price_per_night FROM rooms
    WHERE is_active = 1 ORDER BY room_no] *)
Definition list_active (db : Database) : list (Z * string * string * Z) :=
  map (fun r => (r_id r, r_room_no r, r_room_type r, r_price_per_night r))
      (order_by by_room_no
                (filter (fun r => r_is_active r =? 1) (rows (rooms db)))).

End RoomRepo.

(** ** Calendar dates ([datetime.date]) *)

Module date.

Record t : Type := mk {
  year : Z;
  month : Z;
  day : Z
}.

Definition is_leap (y : Z) : bool :=
  (y mod 4 =? 0) && (negb (y mod 100 =? 0) || (y mod 400 =? 0)).

Definition days_in_month (y m : Z) : Z :=
  if m =? 2 then (if is_leap y then 29 else 28)
  else if (m =? 4) || (m =? 6) || (m =? 9) || (m =? 11) then 30
  else 31.

Definition days_before_year (y : Z) : Z :=
  let p := y - 1 in p * 365 + p / 4 - p / 100 + p / 400.

Fixpoint days_in_first_months (y : Z) (n : nat) : Z :=
  match n with
  | O => 0
  | S n' => days_in_first_months y n' + days_in_month y (Z.of_nat n)
  end.

Definition days_before_month (y m : Z) : Z :=
  days_in_first_months y (Z.to_nat (m - 1)).

(** [d.toordinal()]: 1 for 0001-01-01. *)
Definition toordinal (d : t) : Z :=
  days_before_year (year d) + days_before_month (year d) (month d) + day d.

Definition digit (c : ascii) : option Z :=
  let n := N_of_ascii c in
  if ((48 <=? n) && (n <=? 57))%N then Some (Z.of_N n - 48) else None.

Definition digits2 (a b : ascii) : option Z :=
  match digit a, digit b with
  | Some x, Some y => Some (10 * x + y)
  | _, _ => None
  end.

Definition digits4 (a b c d : ascii) : option Z :=
  match digits2 a b, digits2 c d with
  | Some x, Some y => Some (100 * x + y)
  | _, _ => None
  end.

(** The fields of a string of the form [YYYY-MM-DD]. *)
Definition parse_fields (s : string) : option (Z * Z * Z) :=
  match s with
  | String y1 (String y2 (String y3 (String y4 (String h1
      (String m1 (String m2 (String h2 (String d1 (String d2 EmptyString))))))))) =>
      if Ascii.eqb h1 "-" && Ascii.eqb h2 "-" then
        match digits4 y1 y2 y3 y4, digits2 m1 m2, digits2 d1 d2 with
        | Some y, Some m, Some d => Some (y, m, d)
        | _, _, _ => None
        end
      else None
  | _ => None
  end.

(** [date.fromisoformat(s)] for the format [YYYY-MM-DD], which every
    supported Python version accepts (3.11 and later accept further ISO
    8601 forms, which are not modelled). *)
Definition fromisoformat (s : string) : result t :=
  match parse_fields s with
  | None => Raise (ValueError ("Invalid isoformat string: '" ++ s ++ "'"))
  | Some (y, m, d) =>
      if negb ((1 <=? y) && (y <=? 9999)) then
        Raise (ValueError ("year " ++ str_of_int y ++ " is out of range"))
      else if negb ((1 <=? m) && (m <=? 12)) then
        Raise (ValueError "month must be in 1..12")
      else if negb ((1 <=? d) && (d <=? days_in_month y m)) then
        Raise (ValueError "day is out of range for month")
      else Ok (mk y m d)
  end.

(** [(d2 - d1).days] *)
Definition days_between (d1 d2 : t) : Z := toordinal d2 - toordinal d1.

End date.

(** ** BookingRepo *)

Module BookingRepo.

(** [SELECT price_per_night FROM rooms WHERE id = ?] with [fetchone()] *)
Definition select_price_per_night (room_id : Z) (db : Database) : option Z :=
  option_map r_price_per_night
             (find (fun r => r_id r =? room_id) (rows (rooms db))).

(** [INSERT INTO bookings(...)] under its two foreign keys.
    [store_error] is the environment's part in the statement: [None] when
    the store executes it, [Some e] when the store raises [e] instead (an
    I/O failure, a lock timeout). *)
Definition insert_booking (store_error : option exn)
  (cust_id room_id : Z) (check_in check_out : string) (nights total : Z)
  (created_at status : string) (db : Database) : result (Z * Database) :=
  match store_error with
  | Some e => Raise e
  | None =>
      if negb (has_id c_id (customers db) cust_id
               && has_id r_id (rooms db) room_id) then
        Raise (IntegrityError "FOREIGN KEY constraint failed")
      else
        let new_id := next_rowid b_id (bookings db) in
        Ok (new_id,
            set_bookings db
              (append_row (bookings db) new_id
                 (mkBooking new_id cust_id room_id check_in check_out
                            nights total created_at status)))
  end.

Definition create_booking (store_error : option exn) (db : Database)
  (customer_name phone : string) (room_id : Z) (check_in check_out : string)
  (now : string) : result Z * Database :=
  match date.fromisoformat check_in with
  | Raise e => (Raise e, db)
  | Ok d1 =>
      match date.fromisoformat check_out with
      | Raise e => (Raise e, db)
      | Ok d2 =>
          let nights := date.days_between d1 d2 in
          if nights <=? 0 then
            (Raise (ValueError "Check-out must be after check-in"), db)
          else
            with_conn db (
              row <- query (select_price_per_night room_id) ;;
              match row with
              | None => raise (ValueError "Room not found")
              | Some price =>
                  let total := price * nights in
                  cust_id <- call (fun f =>
                    CustomerRepo.ensure_customer f customer_name phone "") ;;
                  new_id <- execute
                    (insert_booking store_error cust_id room_id check_in
                                    check_out nights total now "Booked") ;;
                  commit ;;;
                  ret new_id
              end)
      end
  end.

(** [FROM bookings b JOIN customers c ON c.id = b.customer_id
    JOIN rooms r ON r.id = b.room_id] *)
Definition joined (db : Database) : list (BookingRow * CustomerRow * RoomRow) :=
  flat_map
    (fun b =>
       flat_map
         (fun c =>
            map (fun r => (b, c, r))
                (filter (fun r => r_id r =? b_room_id b) (rows (rooms db))))
         (filter (fun c => c_id c =? b_customer_id b) (rows (customers db))))
    (rows (bookings db)).

(** [ORDER BY b.id DESC] *)
Definition by_id_desc (x y : BookingRow * CustomerRow * RoomRow) : bool :=
  b_id (fst (fst y)) <=? b_id (fst (fst x)).

(** [(b.id, c.name, c.phone, r.room_no, r.room_type, b.nights, b.total,
    b.status)] *)
Definition listed_row (x : BookingRow * CustomerRow * RoomRow)
  : Z * string * option string * string * string * Z * Z * string :=
  let '(b, c, r) := x in
  (b_id b, c_name c, c_phone c, r_room_no r, r_room_type r,
   b_nights b, b_total b, b_status b).

Definition list_bookings (db : Database)
  : list (Z * string * option string * string * string * Z * Z * string) :=
  map listed_row (order_by by_id_desc (joined db)).

(** The [WHERE] clause that [list_bookings_filtered] assembles. *)
Definition selected (name phone : option string)
  (x : BookingRow * CustomerRow * RoomRow) : bool :=
  let c := snd (fst x) in
  match name with
  | Some n => if nonempty n then like (wrap_wildcards n) (c_name c) else true
  | None => true
  end
  && match phone with
     | Some p =>
         if nonempty p then like (wrap_wildcards p) (ifnull (c_phone c))
         else true
     | None => true
     end.

(** [(b.id, b.created_at, c.name, c.phone, r.room_no, r.room_type,
    b.nights, b.total, b.status)] *)
Definition report_row (x : BookingRow * CustomerRow * RoomRow)
  : Z * string * string * option string * string * string * Z * Z * string :=
  let '(b, c, r) := x in
  (b_id b, b_created_at b, c_name c, c_phone c, r_room_no r, r_room_type r,
   b_nights b, b_total b, b_status b).

Definition list_bookings_filtered (db : Database) (name phone : option string)
  : list (Z * string * string * option string * string * string * Z * Z * string) :=
  map report_row
      (order_by by_id_desc (filter (selected name phone) (joined db))).

End BookingRepo.

(** ** TicketRepo *)

Module TicketRepo.

(** [INSERT INTO tickets(...)]; the customer reference is a foreign key. *)
Definition insert_ticket (cust_id : Z) (category subject message status : string)
  (created_at : string) (db : Database) : result (Z * Database) :=
  if negb (has_id c_id (customers db) cust_id) then
    Raise (IntegrityError "FOREIGN KEY constraint failed")
  else
    let new_id := next_rowid t_id (tickets db) in
    Ok (new_id,
        set_tickets db
          (append_row (tickets db) new_id
             (mkTicket new_id (Some cust_id) (Some category) subject
                       (Some message) status created_at))).

Definition create_ticket (db : Database)
  (name phone category subject message : string) (now : string)
  : result Z * Database :=
  match CustomerRepo.ensure_customer db name phone "" with
  | (Raise e, db1) => (Raise e, db1)
  | (Ok cust_id, db1) =>
      with_conn db1 (
        new_id <- execute
          (insert_ticket cust_id category subject message "Open" now) ;;
        commit ;;;
        ret new_id)
  end.

(** [FROM tickets t LEFT JOIN customers c ON c.id = t.customer_id]: a
    ticket without a matching customer is kept, with no customer. *)
Definition joined (db : Database) : list (TicketRow * option CustomerRow) :=
  flat_map
    (fun t =>
       match filter (fun c => match t_customer_id t with
                              | Some k => c_id c =? k
                              | None => false
                              end) (rows (customers db)) with
       | [] => [(t, None)]
       | cs => map (fun c => (t, Some c)) cs
       end)
    (rows (tickets db)).

(** [ORDER BY t.id DESC] *)
Definition by_id_desc (x y : TicketRow * option CustomerRow) : bool :=
  t_id (fst y) <=? t_id (fst x).

(** The columns [c.name] and [c.phone] of a joined row. *)
Definition joined_name (x : TicketRow * option CustomerRow) : option string :=
  option_map c_name (snd x).

Definition joined_phone (x : TicketRow * option CustomerRow) : option string :=
  match snd x with
  | Some c => c_phone c
  | None => None
  end.

(** [(t.id, c.name, c.phone, t.category, t.subject, t.status)] *)
Definition listed_row (x : TicketRow * option CustomerRow)
  : Z * option string * option string * option string * string * string :=
  (t_id (fst x), joined_name x, joined_phone x, t_category (fst x),
   t_subject (fst x), t_status (fst x)).

Definition list_tickets (db : Database)
  : list (Z * option string * option string * option string * string * string) :=
  map listed_row (order_by by_id_desc (joined db)).

(** The [WHERE] clause that [list_tickets_filtered] assembles. *)
Definition selected (name phone : option string)
  (x : TicketRow * option CustomerRow) : bool :=
  match name with
  | Some n =>
      if nonempty n then like_nullable (joined_name x) (wrap_wildcards n)
      else true
  | None => true
  end
  && match phone with
     | Some p =>
         if nonempty p then like (wrap_wildcards p) (ifnull (joined_phone x))
         else true
     | None => true
     end.

(** [(t.id, t.created_at, c.name, c.phone, t.category, t.subject,
    t.status)] *)
Definition report_row (x : TicketRow * option CustomerRow)
  : Z * string * option string * option string * option string * string * string :=
  (t_id (fst x), t_created_at (fst x), joined_name x, joined_phone x,
   t_category (fst x), t_subject (fst x), t_status (fst x)).

Definition list_tickets_filtered (db : Database) (name phone : option string)
  : list (Z * string * option string * option string * option string
          * string * string) :=
  map report_row
      (order_by by_id_desc (filter (selected name phone) (joined db))).

End TicketRepo.

(** ** TicketCategoryRepo *)

(** A row of [ticket_categories]. The table is kept beside [Database]: no
    statement of the program reads it together with another table. *)
Record CategoryRow : Type := mkCategory {
  tc_id : Z;
  tc_name : string;
  tc_is_active : Z
}.

(** [SUPPORT_CATEGORIES_DEFAULT] *)
Definition SUPPORT_CATEGORIES_DEFAULT : list string :=
  [ "Room Cleaning"; "Food Delivery"; "Taxi Service"; "Laundry";
    "Complaint"; "Other" ].

Module TicketCategoryRepo.

(** [ORDER BY id] *)
Definition by_id (a b : CategoryRow) : bool := tc_id a <=? tc_id b.

(** [SELECT name FROM ticket_categories WHERE is_active = 1 ORDER BY id] *)
Definition list_active (t : Table CategoryRow) : list string :=
  map tc_name
      (order_by by_id (filter (fun r => tc_is_active r =? 1) (rows t))).

(** [INSERT OR IGNORE INTO ticket_categories(name) VALUES (?)]: a name
    that is already in the table ([UNIQUE]) is skipped; a new row is
    active by default. *)
Definition add (name : string) (t : Table CategoryRow) : Table CategoryRow :=
  if existsb (fun r => String.eqb (tc_name r) name) (rows t) then t
  else
    let new_id := next_rowid tc_id t in
    append_row t new_id (mkCategory new_id name 1).

End TicketCategoryRepo.

(** ** The support form ([SupportFrame]) *)

(** Whitespace for [str.strip()], among the characters below 256. *)
Definition is_space (c : ascii) : bool :=
  let n := N_of_ascii c in
  (((9 <=? n) && (n <=? 13)) || ((28 <=? n) && (n <=? 32))
   || (n =? 133) || (n =? 160))%N.

Fixpoint lstrip (s : string) : string :=
  match s with
  | EmptyString => EmptyString
  | String c s' => if is_space c then lstrip s' else s
  end.

Fixpoint rstrip (s : string) : string :=
  match s with
  | EmptyString => EmptyString
  | String c s' =>
      match rstrip s' with
      | EmptyString => if is_space c then EmptyString else String c EmptyString
      | r => String c r
      end
  end.

(** [s.strip()] *)
Definition strip (s : string) : string := rstrip (lstrip s).

Module SupportFrame.

(** The values held by the widgets of the form when the button is
    pressed. *)
Record Form : Type := mkForm {
  t_name : string;
  t_phone : string;
  cat_var : string;
  t_subject : string;
  t_message : string
}.

(** The message box that the handler ends with. *)
Inductive dialog : Type :=
| showinfo (title message : string)
| showerror (title message : string).

(** [SupportFrame._create_ticket]: the body of the [try] and its
    [except Exception] handler. *)
Definition _create_ticket (db : Database) (form : Form) (now : string)
  : dialog * Database :=
  let name := strip (t_name form) in
  let phone := strip (t_phone form) in
  let subject := strip (t_subject form) in
  let category := strip (cat_var form) in
  let message := strip (t_message form) in
  if negb (nonempty subject) then
    (showerror "Ticket failed" (exn_message (ValueError "Subject is required")), db)
  else
    match TicketRepo.create_ticket db name phone category subject message now with
    | (Ok tid, db') =>
        (showinfo "Ticket Created" ("Ticket #" ++ str_of_int tid ++ " created"), db')
    | (Raise e, db') => (showerror "Ticket failed" (exn_message e), db')
    end.

(** The category drop-down: the values it offers and the text of the
    variable it edits ([cat_combo] and [cat_var]). *)
Record Combo : Type := mkCombo {
  combo_values : list string;
  combo_var : string
}.

(** [set(a) == set(b)] *)
Definition same_set (a b : list string) : bool :=
  forallb (fun x => existsb (String.eqb x) b) a
  && forallb (fun x => existsb (String.eqb x) a) b.

(** [SupportFrame._refresh_categories] *)
Definition _refresh_categories (t : Table CategoryRow) (combo : Combo)
  : Table CategoryRow * Combo :=
  let cats := TicketCategoryRepo.list_active t in
  let '(t1, cats1) :=
    match cats with
    | [] =>
        (fold_left (fun acc c => TicketCategoryRepo.add c acc)
                   SUPPORT_CATEGORIES_DEFAULT t,
         SUPPORT_CATEGORIES_DEFAULT)
    | _ :: _ => (t, cats)
    end in
  let cats2 :=
    if same_set cats1 SUPPORT_CATEGORIES_DEFAULT
    then SUPPORT_CATEGORIES_DEFAULT else cats1 in
  let current := strip (combo_var combo) in
  if existsb (String.eqb current) cats2 then (t1, mkCombo cats2 current)
  else
    match cats2 with
    | first :: _ => (t1, mkCombo cats2 first)
    | [] => (t1, mkCombo cats2 (combo_var combo))
    end.

(** [SupportFrame._add_category]; [answer] is what [askstring] returned. *)
Definition _add_category (t : Table CategoryRow) (combo : Combo)
  (answer : option string) : Table CategoryRow * Combo :=
  match answer with
  | None => (t, combo)
  | Some new =>
      if negb (nonempty new) then (t, combo)
      else
        let new' := strip new in
        if negb (nonempty new') then (t, combo)
        else _refresh_categories (TicketCategoryRepo.add new' t) combo
  end.

End SupportFrame.

(** ** Paths ([os.path] of a POSIX system) *)

Module os_path.

Definition startswith_sep (p : string) : bool :=
  match p with
  | String c _ => Ascii.eqb c "/"
  | EmptyString => false
  end.

Fixpoint endswith_sep (p : string) : bool :=
  match p with
  | EmptyString => false
  | String c EmptyString => Ascii.eqb c "/"
  | String _ p' => endswith_sep p'
  end.

Definition isabs (p : string) : bool := startswith_sep p.

(** [os.path.join(a, b)] *)
Definition join (a b : string) : string :=
  if startswith_sep b then b
  else if negb (nonempty a) || endswith_sep a then a ++ b
  else a ++ "/" ++ b.

(** [p.rfind(c)]: the last index of [c], or -1. *)
Fixpoint rfind_from (c : ascii) (p : string) (i last : Z) : Z :=
  match p with
  | EmptyString => last
  | String d p' => rfind_from c p' (i + 1) (if Ascii.eqb d c then i else last)
  end.

Definition rfind (c : ascii) (p : string) : Z := rfind_from c p 0 (-1).

(** [p[i:i+1] != '.'] *)
Definition not_dot_at (p : string) (i : Z) : bool :=
  match String.get (Z.to_nat i) p with
  | Some c => negb (Ascii.eqb c ".")
  | None => true
  end.

(** The [while] loop of [genericpath._splitext] that skips leading dots:
    whether some index in [filenameIndex, dotIndex) holds another
    character ([n] iterations are left). *)
Fixpoint skip_leading_dots (p : string) (filenameIndex : Z) (n : nat) : bool :=
  match n with
  | O => false
  | S n' =>
      if not_dot_at p filenameIndex then true
      else skip_leading_dots p (filenameIndex + 1) n'
  end.

(** [os.path.splitext(p)] *)
Definition splitext (p : string) : string * string :=
  let sepIndex := rfind "/" p in
  let dotIndex := rfind "." p in
  if (sepIndex <? dotIndex)
     && skip_leading_dots p (sepIndex + 1) (Z.to_nat (dotIndex - (sepIndex + 1)))
  then (String.substring 0 (Z.to_nat dotIndex) p,
        String.substring (Z.to_nat dotIndex)
                         (String.length p - Z.to_nat dotIndex) p)
  else (p, EmptyString).

End os_path.

(** ** The image path resolver *)

Section ImageResolver.

(** The directory of the application and the state of the file system. *)
Variable BASE_DIR : string.
Variable exists_ : string -> bool.

Definition ASSETS_DIR : string := os_path.join BASE_DIR "assets".

(** The list [variants] built from the hint. *)
Definition variants (path : string) : list string :=
  let base := fst (os_path.splitext path) in
  [ path; base ++ ".png"; base ++ ".jpg"; base ++ ".jpeg"; path ++ ".png" ].

(** The [for v in variants] loop. *)
Fixpoint first_existing (vs : list string) : option string :=
  match vs with
  | [] => None
  | v :: vs' =>
      let cand := os_path.join ASSETS_DIR v in
      if exists_ cand then Some cand else first_existing vs'
  end.

Definition resolve_image_path (path : option string) : option string :=
  match path with
  | None => None
  | Some p =>
      if negb (nonempty p) then None
      else if os_path.isabs p && exists_ p then Some p
      else
        let cand := os_path.join ASSETS_DIR p in
        if exists_ cand then Some cand
        else first_existing (variants p)
  end.

End ImageResolver.

(** ** Schema Manager: [init_db] and the menu utilities *)

Definition set_menu_items (db : Database) (t : Table MenuItemRow) : Database :=
  mkDatabase t (orders db) (order_items db) (customers db)
             (rooms db) (bookings db) (tickets db).

Definition set_rooms (db : Database) (t : Table RoomRow) : Database :=
  mkDatabase (menu_items db) (orders db) (order_items db) (customers db)
             t (bookings db) (tickets db).

(** [FORCE_CATEGORY_SET] *)
Definition FORCE_CATEGORY_SET : bool := true.

(** [MENU_SEED] *)
Definition MENU_SEED : list (string * string * Z * string) :=
  [ ("Pizza Margherita", "Main", 500, "pizza.png.png");
    ("Pasta Alfredo", "Main", 750, "pasta.png.png");
    ("Spring Rolls", "Starter", 525, "spring_rolls.png.png");
    ("Garlic Bread", "Starter", 350, "garlic_bread.png.png");
    ("Brownie Ice-cream", "Dessert", 450, "brownie.png.png");
    ("Soft Drink", "Beverage", 250, "soda.png.png");
    ("Mineral Water", "Beverage", 100, "water.png.png") ].

(** [ROOMS_SEED] *)
Definition ROOMS_SEED : list (string * string * Z) :=
  [ ("101", "Single", 3500); ("102", "Double", 5000);
    ("201", "Deluxe", 7500); ("301", "Suite", 12000) ].

(** [INSERT OR IGNORE INTO menu_items(name, category, price, image_path)]:
    the row is skipped when the name is taken ([UNIQUE]) or the price is
    negative ([CHECK]). *)
Definition insert_or_ignore_menu_item (name category : string) (price : Z)
  (image_path : option string) (t : Table MenuItemRow) : Table MenuItemRow :=
  if existsb (fun m => String.eqb (mi_name m) name) (rows t)
     || negb (0 <=? price)
  then t
  else
    let new_id := next_rowid mi_id t in
    append_row t new_id (mkMenuItem new_id name category price image_path 1).

(** [INSERT OR IGNORE INTO rooms(room_no, room_type, price_per_night)] *)
Definition insert_or_ignore_room (room_no room_type : string) (price : Z)
  (t : Table RoomRow) : Table RoomRow :=
  if existsb (fun r => String.eqb (r_room_no r) room_no) (rows t) then t
  else
    let new_id := next_rowid r_id t in
    append_row t new_id (mkRoom new_id room_no room_type price 1).

(** [DELETE FROM ticket_categories]: the rows go, the counter of
    [sqlite_sequence] stays. *)
Definition delete_all {A : Type} (t : Table A) : Table A := mkTable [] (seq t).

(** The bodies of the three seeding loops of [init_db]. *)
Definition seed_menu_item (t : Table MenuItemRow)
  (x : string * string * Z * string) : Table MenuItemRow :=
  let '(name, category, price, img) := x in
  insert_or_ignore_menu_item name category price (Some img) t.

Definition seed_room (t : Table RoomRow) (x : string * string * Z)
  : Table RoomRow :=
  let '(room_no, room_type, price) := x in
  insert_or_ignore_room room_no room_type price t.

Definition seed_category (t : Table CategoryRow) (c : string)
  : Table CategoryRow :=
  TicketCategoryRepo.add c t.

(** [init_db(seed)] on a file whose tables exist with their present
    columns (the [CREATE TABLE IF NOT EXISTS] statements and the two column
    migrations then change nothing); the whole runs in one transaction that
    is committed. *)
Definition init_db (seed : bool) (store : Database * Table CategoryRow)
  : Database * Table CategoryRow :=
  let '(db, cats) := store in
  if seed then
    let menu := fold_left seed_menu_item MENU_SEED (menu_items db) in
    let rms := fold_left seed_room ROOMS_SEED (rooms db) in
    let cats1 := if FORCE_CATEGORY_SET then delete_all cats else cats in
    let cats2 := fold_left seed_category SUPPORT_CATEGORIES_DEFAULT cats1 in
    (set_rooms (set_menu_items db menu) rms, cats2)
  else (db, cats).

(** [UPDATE menu_items SET image_path = ? WHERE name = ?] *)
Definition set_image_for (item_name path : string) (db : Database) : Database :=
  set_menu_items db
    (mkTable
       (map (fun m =>
               if String.eqb (mi_name m) item_name
               then mkMenuItem (mi_id m) (mi_name m) (mi_category m)
                               (mi_price m) (Some path) (mi_is_active m)
               else m)
            (rows (menu_items db)))
       (seq (menu_items db))).

(** [image_path IS NULL OR image_path = ''] *)
Definition image_missing (m : MenuItemRow) : bool :=
  match mi_image_path m with
  | None => true
  | Some p => negb (nonempty p)
  end.

(** What one [UPDATE ... WHERE name = ? AND (image_path IS NULL OR
    image_path = '')] of [ensure_menu_images] does to a row. *)
Definition backfill_row (entry : string * string) (m : MenuItemRow)
  : MenuItemRow :=
  if String.eqb (mi_name m) (fst entry) && image_missing m
  then mkMenuItem (mi_id m) (mi_name m) (mi_category m)
                  (mi_price m) (Some (snd entry)) (mi_is_active m)
  else m.

Definition backfill_image (t : Table MenuItemRow) (entry : string * string)
  : Table MenuItemRow :=
  mkTable (map (backfill_row entry) (rows t)) (seq t).

(** The [mapping] of [ensure_menu_images]. *)
Definition image_mapping : list (string * string) :=
  [ ("Pizza Margherita", "pizza.png.png");
    ("Pasta Alfredo", "pasta.png.png");
    ("Spring Rolls", "spring_rolls.png.png");
    ("Garlic Bread", "garlic_bread.png.png");
    ("Brownie Ice-cream", "brownie.png.png");
    ("Soft Drink", "soda.png.png");
    ("Mineral Water", "water.png.png") ].

Definition ensure_menu_images (db : Database) : Database :=
  set_menu_items db (fold_left backfill_image image_mapping (menu_items db)).

(** What [main] does to the store before it starts the interface:
    [init_db(seed=True)] and then [ensure_menu_images()]. *)
Definition main_store (store : Database * Table CategoryRow)
  : Database * Table CategoryRow :=
  let '(db, cats) := init_db true store in (ensure_menu_images db, cats).

(** ** Message boxes and dictionaries *)

Module messagebox.

Inductive t : Type :=
| showinfo (title message : string)
| showwarning (title message : string)
| showerror (title message : string).

End messagebox.

(** A Python [dict]: its items in insertion order, with distinct keys. *)
Module dict.

Section WithKeys.

Context {K V : Type} (eqb : K -> K -> bool).

(** [d.get(k)] *)
Fixpoint get (d : list (K * V)) (k : K) : option V :=
  match d with
  | [] => None
  | (k', v) :: d' => if eqb k' k then Some v else get d' k
  end.

(** [d[k] = v]: a key that is present keeps its place. *)
Fixpoint set (d : list (K * V)) (k : K) (v : V) : list (K * V) :=
  match d with
  | [] => [(k, v)]
  | (k', v') :: d' =>
      if eqb k' k then (k', v) :: d' else (k', v') :: set d' k v
  end.

(** [d.pop(k)] for a key that is present. *)
Fixpoint pop (d : list (K * V)) (k : K) : list (K * V) :=
  match d with
  | [] => []
  | (k', v') :: d' => if eqb k' k then d' else (k', v') :: pop d' k
  end.

End WithKeys.

End dict.

(** ** The point-of-sale tab ([POSFrame]) *)

Module POSFrame.

(** The cart, the rows of the cart table (item id, the four displayed
    values, and whether the row carries the tag [odd]) and the three text
    variables. *)
Record State : Type := mkState {
  cart : list (Z * Z);
  cart_tv : list (Z * (string * Z * Z * Z) * bool);
  total_var : string;
  name_var : string;
  phone_var : string
}.

(** [SELECT name, price FROM menu_items WHERE id = ?] with [fetchone()] *)
Definition select_name_price (item_id : Z) (db : Database) : option (string * Z) :=
  option_map (fun m => (mi_name m, mi_price m))
             (find (fun m => mi_id m =? item_id) (rows (menu_items db))).

(** The loop of [_refresh_cart]. *)
Fixpoint cart_rows (db : Database) (items : list (Z * Z)) (total : Z)
  (odd : bool) (tv : list (Z * (string * Z * Z * Z) * bool))
  : list (Z * (string * Z * Z * Z) * bool) * Z :=
  match items with
  | [] => (tv, total)
  | (item_id, qty) :: items' =>
      match select_name_price item_id db with
      | Some (name, price) =>
          let line := price * qty in
          cart_rows db items' (total + line) (negb odd)
                    (tv ++ [(item_id, (name, qty, price, line), odd)])%list
      | None => cart_rows db items' total odd tv
      end
  end.

Definition _refresh_cart (db : Database) (st : State) : State :=
  let '(tv, total) := cart_rows db (cart st) 0 false [] in
  mkState (cart st) tv (str_of_int total) (name_var st) (phone_var st).

Definition with_cart (st : State) (c : list (Z * Z)) : State :=
  mkState c (cart_tv st) (total_var st) (name_var st) (phone_var st).

(** [_add_selected]; [sel] is the selection of the menu table. *)
Definition _add_selected (db : Database) (st : State) (sel : list Z)
  : State * option messagebox.t :=
  match sel with
  | [] =>
      (st, Some (messagebox.showinfo "No selection"
                                     "Please select an item to add."))
  | item_id :: _ =>
      let qty :=
        match dict.get Z.eqb (cart st) item_id with
        | Some q => q
        | None => 0
        end in
      (_refresh_cart db (with_cart st (dict.set Z.eqb (cart st) item_id (qty + 1))),
       None)
  end.

(** [_remove_selected]; [sel] is the selection of the cart table. *)
Definition _remove_selected (db : Database) (st : State) (sel : list Z)
  : State * option messagebox.t :=
  match sel with
  | [] =>
      (st, Some (messagebox.showinfo "No selection"
                   "Please select an item in cart to remove."))
  | item_id :: _ =>
      let cart' :=
        match dict.get Z.eqb (cart st) item_id with
        | Some q =>
            if q - 1 <=? 0 then dict.pop Z.eqb (cart st) item_id
            else dict.set Z.eqb (cart st) item_id (q - 1)
        | None => cart st
        end in
      (_refresh_cart db (with_cart st cart'), None)
  end.

Definition _clear_cart (db : Database) (st : State) : State :=
  _refresh_cart db (with_cart st []).

(** [_checkout] *)
Definition _checkout (db : Database) (st : State) (now : string)
  : State * Database * messagebox.t :=
  match cart st with
  | [] =>
      (st, db, messagebox.showwarning "Empty cart" "Add items before checkout.")
  | _ :: _ =>
      let name := strip (name_var st) in
      let phone := strip (phone_var st) in
      match OrderRepo.create_order db name phone (cart st) now with
      | (Ok order_id, db') =>
          let total := total_var st in
          let st1 := _clear_cart db' st in
          (mkState (cart st1) (cart_tv st1) (total_var st1) "" "", db',
           messagebox.showinfo "Order Saved"
             ("Order #" ++ str_of_int order_id ++ " placed. Total: PKR " ++ total))
      | (Raise e, db') =>
          (st, db', messagebox.showerror "Checkout failed" (exn_message e))
      end
  end.

(** What [_show_menu_image] draws, up to the call of [Image.open]. *)
Inductive preview : Type :=
| no_item_selected
| no_image_available
| image_file_not_found (path : string)
| install_pillow
| open_image (full_path : string).

(** [SELECT image_path FROM menu_items WHERE id = ?] with [fetchone()] *)
Definition select_image_path (item_id : Z) (db : Database) : option string :=
  match find (fun m => mi_id m =? item_id) (rows (menu_items db)) with
  | Some m => mi_image_path m
  | None => None
  end.

(** [_show_menu_image]; [sel] is the selection of the menu table. *)
Definition _show_menu_image (BASE_DIR : string) (exists_ : string -> bool)
  (PIL_AVAILABLE : bool) (db : Database) (sel : list Z) : preview :=
  match sel with
  | [] => no_item_selected
  | item_id :: _ =>
      match select_image_path item_id db with
      | None => no_image_available
      | Some path =>
          if negb (nonempty path) then no_image_available
          else
            let full_path :=
              if negb (os_path.isabs path)
              then os_path.join (ASSETS_DIR BASE_DIR) path
              else path in
            if negb (exists_ full_path) then image_file_not_found path
            else if negb PIL_AVAILABLE then install_pillow
            else open_image full_path
      end
  end.

End POSFrame.

(** ** The bookings tab ([BookingFrame]) *)

Module BookingFrame.

Record State : Type := mkState {
  c_name : string;
  c_phone : string;
  room_var : string;
  in_var : string;
  out_var : string;
  room_map : list (string * Z);
  room_values : list string;
  book_tv :
    list (Z * string * option string * string * string * Z * Z * string)
}.

(** [f"{rno} | {rtype} | PKR {price}"] *)
Definition room_label (rno rtype : string) (price : Z) : string :=
  rno ++ " | " ++ rtype ++ " | PKR " ++ str_of_int price.

(** The loop of [_refresh_rooms]. *)
Fixpoint fill_rooms (rooms : list (Z * string * string * Z))
  (room_map : list (string * Z)) (values : list string)
  : list (string * Z) * list string :=
  match rooms with
  | [] => (room_map, values)
  | (rid, rno, rtype, price) :: rooms' =>
      let label := room_label rno rtype price in
      fill_rooms rooms' (dict.set String.eqb room_map label rid)
                 (values ++ [label])%list
  end.

Definition _refresh_rooms (db : Database) (st : State) : State :=
  let '(m, values) := fill_rooms (RoomRepo.list_active db) [] [] in
  mkState (c_name st) (c_phone st)
          (match values with
           | first :: _ => first
           | [] => room_var st
           end)
          (in_var st) (out_var st) m values (book_tv st).

Definition _refresh_bookings (db : Database) (st : State) : State :=
  mkState (c_name st) (c_phone st) (room_var st) (in_var st) (out_var st)
          (room_map st) (room_values st) (BookingRepo.list_bookings db).

(** [_create_booking]. [repr] is Python's [repr] of a string (the text of
    a [KeyError]); [store_error] is as in [BookingRepo.insert_booking]. *)
Definition _create_booking (repr : string -> string) (store_error : option exn)
  (db : Database) (st : State) (now : string)
  : State * Database * messagebox.t :=
  let name := strip (c_name st) in
  let phone := strip (c_phone st) in
  let label := room_var st in
  if negb (nonempty label) then
    (st, db, messagebox.showerror "Booking failed" "Please select a room")
  else
    match dict.get String.eqb (room_map st) label with
    | None => (st, db, messagebox.showerror "Booking failed" (repr label))
    | Some room_id =>
        let check_in := strip (in_var st) in
        let check_out := strip (out_var st) in
        match BookingRepo.create_booking store_error db name phone room_id
                                         check_in check_out now with
        | (Ok bid, db') =>
            (_refresh_bookings db'
               (mkState "" "" (room_var st) "" "" (room_map st)
                        (room_values st) (book_tv st)),
             db',
             messagebox.showinfo "Booking Saved"
               ("Booking #" ++ str_of_int bid ++ " created"))
        | (Raise e, db') =>
            (st, db', messagebox.showerror "Booking failed" (exn_message e))
        end
    end.

End BookingFrame.

(** ** The reports tab ([ReportsFrame]) *)

Module ReportsFrame.

(** The three tables and the three lines of figures after a search. *)
Record Report : Type := mkReport {
  orders_tv : list (Z * string * string * string * Z);
  books_tv :
    list (Z * string * string * option string * string * string * Z * Z * string);
  tix_tv :
    list (Z * string * option string * option string * option string
          * string * string);
  stat_orders : string;
  stat_book : string;
  stat_tickets : string
}.

(** [s.strip() or None] *)
Definition strip_or_none (s : string) : option string :=
  if nonempty (strip s) then Some (strip s) else None.

(** [str(len(l))] as the loops count it. *)
Definition count {A : Type} (l : list A) : Z := Z.of_nat (List.length l).

Definition sum (l : list Z) : Z := fold_left Z.add l 0.

(** [_search]; [f_name] and [f_phone] are the texts of the two filters. *)
Definition _search (db : Database) (f_name f_phone : string) : Report :=
  let name := strip_or_none f_name in
  let phone := strip_or_none f_phone in
  let os := OrderRepo.list_orders db name phone in
  let bs := BookingRepo.list_bookings_filtered db name phone in
  let ts := TicketRepo.list_tickets_filtered db name phone in
  mkReport os bs ts
    ("Orders: " ++ str_of_int (count os) ++ " | Total PKR "
     ++ str_of_int (sum (map (fun r => snd r) os)))
    ("Bookings: " ++ str_of_int (count bs) ++ " | Total PKR "
     ++ str_of_int (sum (map (fun r => snd (fst r)) bs)))
    ("Tickets: " ++ str_of_int (count ts)).

End ReportsFrame.

(** ** The console menu ([menu.py]) *)

Module menu_script.

(** [Menu] *)
Definition Menu : list (string * Z) :=
  [ ("pizza", 500); ("pasta", 750); ("spin rolls", 525);
    ("garlic bread", 350); ("brownie icecream", 450);
    ("soft drinks", 250); ("water", 100) ].

(** [str.lower()] on the characters below 256: the ASCII capitals and the
    Latin-1 capitals other than the multiplication sign. *)
Definition lower_char (c : ascii) : ascii :=
  let n := N_of_ascii c in
  if (((65 <=? n) && (n <=? 90))
      || ((192 <=? n) && (n <=? 222) && negb (n =? 215)))%N
  then ascii_of_N (n + 32) else c.

Fixpoint lower (s : string) : string :=
  match s with
  | EmptyString => EmptyString
  | String c s' => String (lower_char c) (lower s')
  end.

(** A printed line, by the statement that prints it and the values it
    formats. *)
Inductive line : Type :=
| welcome
| added (item : string)
| not_in_menu
| thank_you
| total_bill (cart_total : Z).

(** How the script ends: after its last [print], or by the [EOFError] of
    an [input()] that finds no line. *)
Inductive ending : Type :=
| completed
| EOFError.

(** The [while True] loop, over the lines that [input()] will return. *)
Fixpoint loop (inputs : list string) (cart_total : Z) (out : list line)
  : list line * ending :=
  match inputs with
  | [] => (out, EOFError)
  | x :: inputs' =>
      let item := lower x in
      if String.eqb item "no" then
        ((out ++ [thank_you; total_bill cart_total])%list, completed)
      else
        match dict.get String.eqb Menu item with
        | Some price =>
            loop inputs' (cart_total + price) (out ++ [added item])%list
        | None => loop inputs' cart_total (out ++ [not_in_menu])%list
        end
  end.

Definition main (inputs : list string) : list line * ending :=
  loop inputs 0 [welcome].

End menu_script.

(** ** The console booking and customer care script ([bookings.py]) *)

Module bookings_script.

(** [room_rates] *)
Definition room_rates : list (string * Z) :=
  [ ("single", 3000); ("double", 5000); ("suite", 8000); ("deluxe", 12000) ].

(** An entry of [hotel_bookings]: the dictionary that [new_booking] builds,
    by its keys. *)
Record Booking : Type := mk_booking {
  booking_id : Z;
  name : string;
  phone : string;
  check_in : string;
  check_out : string;
  num_guests : Z;
  room_type : string;
  num_rooms : Z;
  price_per_room : Z;
  total_price : Z;
  payment_status : string
}.

(** [services] *)
Definition services : list (string * string) :=
  [ ("1", "Room Cleaning"); ("2", "Food Delivery"); ("3", "Taxi Service");
    ("4", "Laundry"); ("5", "Complaint"); ("6", "Other") ].

(** An entry of [tickets]. *)
Record Ticket : Type := mk_ticket {
  customer : string;
  room : string;
  service : string;
  message : string
}.

(** A printed line, by the statement that prints it and the values it
    formats. *)
Inductive line : Type :=
| available_rooms
| room_rate (room : string) (rate : Z)
| booking_successful
| booking_id_is (booking_id : Z)
| room_type_is (room_type : string)
| rooms_and_guests (num_rooms num_guests : Z)
| total_price_is (total_price : Z)
| welcome
| available_services
| service_option (key val : string)
| thank_you
| request_recorded
| invalid_option
| all_tickets
| ticket_line (customer room service message : string).

(** How the script ends: after its last [print], by the [EOFError] of an
    [input()] that finds no line, or by the exception of an [int()]. *)
Inductive ending : Type :=
| completed
| EOFError
| raised (e : exn).

Section WithInt.

(** [int(s)] of a string: the number it denotes, or the [ValueError]
    raised. *)
Variable int_ : string -> result Z.

(** [new_booking()], over the lines that [input()] will return; the
    result is the list [hotel_bookings] with the lines left, or how the
    call ended. *)
Definition new_booking (hotel_bookings : list Booking) (inputs : list string)
  (out : list line) : list line * (list Booking * list string + ending) :=
  let out1 :=
    (out ++ available_rooms
         :: map (fun x => room_rate (fst x) (snd x)) room_rates)%list in
  match inputs with
  | name :: phone :: check_in :: check_out :: guests :: inputs1 =>
      match int_ guests with
      | Raise e => (out1, inr (raised e))
      | Ok num_guests =>
          match inputs1 with
          | rtype :: rooms :: inputs2 =>
              match int_ rooms with
              | Raise e => (out1, inr (raised e))
              | Ok num_rooms =>
                  let booking_id :=
                    Z.of_nat (List.length hotel_bookings) + 1 in
                  let room_type := menu_script.lower rtype in
                  let '(price_per_room, total_price) :=
                    match dict.get String.eqb room_rates room_type with
                    | Some rate => (rate, num_rooms * rate)
                    | None => (0, 0)
                    end in
                  let booking :=
                    mk_booking booking_id name phone check_in check_out
                               num_guests room_type num_rooms price_per_room
                               total_price "pending" in
                  ((out1 ++ [ booking_successful;
                              booking_id_is booking_id;
                              room_type_is room_type;
                              rooms_and_guests num_rooms num_guests;
                              total_price_is total_price ])%list,
                   inl ((hotel_bookings ++ [booking])%list, inputs2))
              end
          | _ => (out1, inr EOFError)
          end
      end
  | _ => (out1, inr EOFError)
  end.

End WithInt.

(** What every round of the customer care loop prints first. *)
Definition service_options : list line :=
  available_services :: map (fun x => service_option (fst x) (snd x)) services.

(** The [while True] loop of the customer care part. *)
Fixpoint care_loop (inputs : list string) (tickets : list Ticket)
  (out : list line) : list line * list Ticket * ending :=
  match inputs with
  | [] => ((out ++ service_options)%list, tickets, EOFError)
  | choice :: inputs1 =>
      if String.eqb (menu_script.lower choice) "no" then
        ((out ++ service_options ++ [thank_you])%list, tickets, completed)
      else
        match dict.get String.eqb services choice with
        | Some service =>
            match inputs1 with
            | name :: room :: message :: inputs2 =>
                care_loop inputs2
                          (tickets ++ [mk_ticket name room service message])%list
                          (out ++ service_options ++ [request_recorded])%list
            | _ => ((out ++ service_options)%list, tickets, EOFError)
            end
        | None =>
            care_loop inputs1 tickets
                      (out ++ service_options ++ [invalid_option])%list
        end
  end.

(** The customer care part: the loop, then the list of the tickets. *)
Definition customer_care (inputs : list string) (out : list line)
  : list line * list Ticket * ending :=
  let '(out1, tickets, e) := care_loop inputs [] (out ++ [welcome])%list in
  match e with
  | completed =>
      ((out1 ++ all_tickets
             :: map (fun t => ticket_line (customer t) (room t) (service t)
                                          (message t)) tickets)%list,
       tickets, completed)
  | _ => (out1, tickets, e)
  end.

(** The script: one call of [new_booking()], then the customer care
    part. *)
Definition main (int_ : string -> result Z) (inputs : list string)
  : list line * list Booking * list Ticket * ending :=
  match new_booking int_ [] inputs [] with
  | (out, inl (hotel_bookings, rest)) =>
      let '(out', tickets, e) := customer_care rest out in
      (out', hotel_bookings, tickets, e)
  | (out, inr e) => (out, [], [], e)
  end.

End bookings_script.

(** * Properties *)

(** ** Specification-level readings of a cart *)

(** The current price of an item (0 when the id is unknown). *)
Definition current_price (db : Database) (item_id : Z) : Z :=
  match OrderRepo.select_price item_id db with
  | Some p => p
  | None => 0
  end.

(** The sum over the cart of price times quantity. *)
Definition cart_total (db : Database) (cart : list (Z * Z)) : Z :=
  fold_right Z.add 0 (map (fun e => current_price db (fst e) * snd e) cart).

(** One triple [(item_id, qty, price * qty)] per cart entry. *)
Definition cart_lines (db : Database) (cart : list (Z * Z)) : list (Z * Z * Z) :=
  map (fun e => (fst e, snd e, current_price db (fst e) * snd e)) cart.

(** Every item id of the cart is the id of a row of [menu_items]. *)
Definition cart_ids_known (db : Database) (cart : list (Z * Z)) : Prop :=
  forall e, In e cart -> has_id mi_id (menu_items db) (fst e) = true.

(** Every quantity is at least 1 (the domain of [qty] in the schema). *)
Definition cart_quantities_positive (cart : list (Z * Z)) : Prop :=
  forall e, In e cart -> 1 <= snd e.

(** Referential integrity of [order_items.order_id]. *)
Definition order_items_reference_orders (db : Database) : Prop :=
  forall r, In r (rows (order_items db)) ->
            has_id o_id (orders db) (oi_order_id r) = true.

(** The columns of an order line other than its own id. *)
Definition line_fields (r : OrderItemRow) : Z * Z * Z * Z :=
  (oi_order_id r, oi_item_id r, oi_qty r, oi_line_total r).

(** The table [order_items] after the second loop of [create_order]. *)
Fixpoint add_lines (order_id : Z) (items : list (Z * Z * Z))
  (t : Table OrderItemRow) : Table OrderItemRow :=
  match items with
  | [] => t
  | (item_id, qty, line_total) :: items' =>
      let new_id := next_rowid oi_id t in
      add_lines order_id items'
        (append_row t new_id (mkOrderItem new_id order_id item_id qty line_total))
  end.

(** ** Sample stores *)

(** The rows that [init_db] seeds into an empty file from [MENU_SEED] and
    [ROOMS_SEED]. *)
Definition seeded_menu : Table MenuItemRow :=
  mkTable
    [ mkMenuItem 1 "Pizza Margherita" "Main" 500 (Some "pizza.png.png") 1;
      mkMenuItem 2 "Pasta Alfredo" "Main" 750 (Some "pasta.png.png") 1;
      mkMenuItem 3 "Spring Rolls" "Starter" 525 (Some "spring_rolls.png.png") 1;
      mkMenuItem 4 "Garlic Bread" "Starter" 350 (Some "garlic_bread.png.png") 1;
      mkMenuItem 5 "Brownie Ice-cream" "Dessert" 450 (Some "brownie.png.png") 1;
      mkMenuItem 6 "Soft Drink" "Beverage" 250 (Some "soda.png.png") 1;
      mkMenuItem 7 "Mineral Water" "Beverage" 100 (Some "water.png.png") 1 ]
    7.

Definition seeded_rooms : Table RoomRow :=
  mkTable
    [ mkRoom 1 "101" "Single" 3500 1;
      mkRoom 2 "102" "Double" 5000 1;
      mkRoom 3 "201" "Deluxe" 7500 1;
      mkRoom 4 "301" "Suite" 12000 1 ]
    4.

Definition seeded_db : Database :=
  mkDatabase seeded_menu empty_table empty_table empty_table
             seeded_rooms empty_table empty_table.

(** ** Changing the active flags of the menu *)

(** The same menu row with the flag [f m]. *)
Definition reflag (f : MenuItemRow -> Z) (m : MenuItemRow) : MenuItemRow :=
  mkMenuItem (mi_id m) (mi_name m) (mi_category m) (mi_price m)
             (mi_image_path m) (f m).

(** The same database with every [is_active] of [menu_items] replaced. *)
Definition with_active_flags (f : MenuItemRow -> Z) (db : Database) : Database :=
  mkDatabase
    (mkTable (map (reflag f) (rows (menu_items db))) (seq (menu_items db)))
    (orders db) (order_items db) (customers db)
    (rooms db) (bookings db) (tickets db).

Definition conn_with_flags (f : MenuItemRow -> Z) (c : Connection) : Connection :=
  mkConn (with_active_flags f (file c)) (option_map (with_active_flags f) (txn c)).

(** [m] runs in the same way whatever the flags are. *)
Definition flag_blind {A : Type} (m : SQL A) : Prop :=
  forall f c, m (conn_with_flags f c) = (fst (m c), conn_with_flags f (snd (m c))).

(** The seeded store with the soft drink deactivated. *)
Definition seeded_db_without_soda : Database :=
  with_active_flags (fun m => if mi_id m =? 6 then 0 else mi_is_active m)
                    seeded_db.

(** ** The search order of the image resolver, in the words of its
    contract *)

(** The hint itself when it is absolute; then, under the assets root, the
    hint, its stem with [.png], [.jpg] and [.jpeg], and the hint with an
    extra [.png]. *)
Definition search_order (BASE_DIR : string) (hint : string) : list string :=
  let stem := fst (os_path.splitext hint) in
  List.app
    (if os_path.isabs hint then [hint] else [])
    (map (os_path.join (ASSETS_DIR BASE_DIR))
         [ hint; stem ++ ".png"; stem ++ ".jpg"; stem ++ ".jpeg";
           hint ++ ".png" ]).

(** ** Readings of the filters of [list_orders] *)

(** [f] occurs in [s], letter case included (the reading of the filter as
    a case-sensitive substring). *)
Definition is_substring (f s : string) : Prop :=
  exists pre post, s = pre ++ f ++ post.

(** A string with its ASCII capitals lowered, as [LIKE] compares it. *)
Fixpoint fold_case (s : string) : string :=
  match s with
  | EmptyString => EmptyString
  | String c s' => String (sqlite_lower c) (fold_case s')
  end.

(** [f] occurs in [s] up to the case of ASCII letters. *)
Definition contains_nocase (f s : string) : Prop :=
  exists pre mid post, s = pre ++ mid ++ post /\ fold_case mid = fold_case f.

(** [f] has none of the wildcards [%] and [_] of [LIKE]. *)
Fixpoint wildcard_free (f : string) : bool :=
  match f with
  | EmptyString => true
  | String c f' =>
      negb (Ascii.eqb c "%") && negb (Ascii.eqb c "_") && wildcard_free f'
  end.

(** What a filter of [list_orders] asks of a column: nothing when it is
    absent or empty, else a value that contains it up to ASCII case. *)
Definition accepts (flt : option string) (column : option string) : Prop :=
  match flt with
  | None => True
  | Some f =>
      if nonempty f
      then exists s, column = Some s /\ contains_nocase f s
      else True
  end.

Definition filter_wildcard_free (flt : option string) : bool :=
  match flt with
  | None => true
  | Some f => wildcard_free f
  end.

(** [s] begins with [f] up to ASCII case. *)
Fixpoint prefix_nocase (f s : string) : bool :=
  match f, s with
  | EmptyString, _ => true
  | String _ _, EmptyString => false
  | String c f', String d s' => eq_nocase c d && prefix_nocase f' s'
  end.

(** The id column of a row of [list_orders]. *)
Definition report_id (r : Z * string * string * string * Z) : Z :=
  fst (fst (fst (fst r))).

(** A store with three orders, for the filters of [list_orders]. *)
Definition orders_db : Database :=
  set_orders seeded_db
    (mkTable
       [ mkOrder 1 (Some "Ali Khan") (Some "0300111") 1000 "2025-01-01T10:00:00";
         mkOrder 2 (Some "Sara") None 250 "2025-01-02T11:00:00";
         mkOrder 3 (Some "Bilal") (Some "0300222") 750 "2025-01-03T12:00:00" ]
       3).

(** ** Outcomes of the operations *)

(** The database that a successful [create_order] leaves. *)
Definition order_stored (db : Database) (customer_name phone : string)
  (cart : list (Z * Z)) (now : string) : Database :=
  let order_id := next_rowid o_id (orders db) in
  let db1 :=
    set_orders db
      (append_row (orders db) order_id
         (mkOrder order_id (Some customer_name) (Some phone)
                  (cart_total db cart) now)) in
  set_order_items db1 (add_lines order_id (cart_lines db cart) (order_items db1)).

(** The customer row that [ensure_customer] inserts. *)
Definition new_customer (db : Database) (name phone email : string) : CustomerRow :=
  mkCustomer (next_rowid c_id (customers db)) name (Some phone) (Some email).

(** Every character of the string is whitespace. *)
Fixpoint all_spaces (s : string) : bool :=
  match s with
  | EmptyString => true
  | String c s' => is_space c && all_spaces s'
  end.

(** ** Readings used by the further properties *)

(** The sum of the line totals that the table [order_items] holds for an
    order. *)
Definition stored_lines_total (db : Database) (order_id : Z) : Z :=
  fold_right Z.add 0
    (map oi_line_total
         (filter (fun r => oi_order_id r =? order_id) (rows (order_items db)))).

(** A cart as the point of sale keeps it: distinct item ids, quantities of
    at least 1. *)
Definition cart_wf (c : list (Z * Z)) : Prop :=
  NoDup (map fst c) /\ Forall (fun e => 1 <= snd e) c.

(** What the user does in the point-of-sale tab. *)
Inductive pos_action : Type :=
| add_selected (sel : list Z)
| remove_selected (sel : list Z)
| clear_cart
| checkout (now : string).

(** The state of the tab when [POSFrame.__init__] returns. *)
Definition pos_initial : POSFrame.State := POSFrame.mkState [] [] "0" "" "".

(** One action, then the next ones. *)
Fixpoint pos_run (db : Database) (st : POSFrame.State) (actions : list pos_action)
  : POSFrame.State * Database :=
  match actions with
  | [] => (st, db)
  | a :: actions' =>
      match a with
      | add_selected sel =>
          pos_run db (fst (POSFrame._add_selected db st sel)) actions'
      | remove_selected sel =>
          pos_run db (fst (POSFrame._remove_selected db st sel)) actions'
      | clear_cart => pos_run db (POSFrame._clear_cart db st) actions'
      | checkout now =>
          let '(st', db', _) := POSFrame._checkout db st now in
          pos_run db' st' actions'
      end
  end.

(** The item can be selected in the menu table: some listing shows it. *)
Definition in_menu_table (db : Database) (item_id : Z) : Prop :=
  exists category search,
    In item_id (map MenuRepo.id (MenuRepo.list_items db category search)).

(** Every [add_selected] of the session selects rows of the menu table. *)
Fixpoint selections_listed (db : Database) (actions : list pos_action) : Prop :=
  match actions with
  | [] => True
  | add_selected sel :: actions' =>
      Forall (in_menu_table db) sel /\ selections_listed db actions'
  | _ :: actions' => selections_listed db actions'
  end.

(** Integrity of the store: keys are distinct, bookings reference
    existing customers and rooms. *)
Definition bookings_integrity (db : Database) : Prop :=
  NoDup (map c_id (rows (customers db)))
  /\ NoDup (map r_id (rows (rooms db)))
  /\ (forall b, In b (rows (bookings db)) ->
                has_id c_id (customers db) (b_customer_id b) = true
                /\ has_id r_id (rooms db) (b_room_id b) = true).

(** The same room row with the flag [f r]. *)
Definition reflag_room (f : RoomRow -> Z) (r : RoomRow) : RoomRow :=
  mkRoom (r_id r) (r_room_no r) (r_room_type r) (r_price_per_night r) (f r).

(** The same database with every [is_active] of [rooms] replaced. *)
Definition with_room_flags (f : RoomRow -> Z) (db : Database) : Database :=
  set_rooms db (mkTable (map (reflag_room f) (rows (rooms db))) (seq (rooms db))).

(** The key by which [ensure_customer] recognises a customer. *)
Definition customer_key (c : CustomerRow) : string * string :=
  (c_name c, ifnull (c_phone c)).

(** Calendar order of two dates. *)
Definition date_lt (d1 d2 : date.t) : Prop :=
  date.year d1 < date.year d2
  \/ (date.year d1 = date.year d2
      /\ (date.month d1 < date.month d2
          \/ (date.month d1 = date.month d2 /\ date.day d1 < date.day d2))).

(** The total that the console menu charges for a list of entries. *)
Definition recognised_total (entries : list string) : Z :=
  fold_right Z.add 0
    (map (fun x => match dict.get String.eqb menu_script.Menu
                                  (menu_script.lower x) with
                   | Some price => price
                   | None => 0
                   end) entries).

(** A session on the seeded store: two pizzas and a soft drink are added,
    the soft drink is removed again. *)
Definition sample_session : list pos_action :=
  [ add_selected [1]; add_selected [6]; add_selected [1]; remove_selected [6] ].

(** The customers have distinct ids and distinct keys. *)
Definition customers_distinct (db : Database) : Prop :=
  NoDup (map c_id (rows (customers db)))
  /\ NoDup (map customer_key (rows (customers db))).

(** The display is up to date: the total shown is that of the cart. *)
Definition pos_fresh (db : Database) (st : POSFrame.State) : Prop :=
  POSFrame.total_var st = str_of_int (cart_total db (POSFrame.cart st)).

(** The id column of a row of [list_bookings] and of [list_tickets]. *)
Definition booking_listed_id
  (r : Z * string * option string * string * string * Z * Z * string) : Z :=
  fst (fst (fst (fst (fst (fst (fst r)))))).

Definition ticket_listed_id
  (r : Z * option string * option string * option string * string * string) : Z :=
  fst (fst (fst (fst (fst r)))).

(** The customer name column of a row of [list_tickets_filtered]. *)
Definition ticket_report_name
  (r : Z * string * option string * option string * option string
       * string * string) : option string :=
  snd (fst (fst (fst (fst r)))).

(** A store with one customer and two tickets, the second of which has
    lost its customer ([ON DELETE SET NULL]). *)
Definition tickets_db : Database :=
  set_tickets
    (set_customers seeded_db
       (mkTable [mkCustomer 1 "Ann" (Some "0300") (Some "")] 1))
    (mkTable
       [ mkTicket 1 (Some 1) (Some "Laundry") "Towels" (Some "please") "Open"
                  "2025-01-01T10:00:00";
         mkTicket 2 None (Some "Other") "Noise" (Some "") "Open"
                  "2025-01-02T10:00:00" ]
       2).

(** The name of a menu item, the number of a room, is in the table. *)
Definition menu_name_present (t : Table MenuItemRow) (name : string) : bool :=
  existsb (fun m => String.eqb (mi_name m) name) (rows t).


(** Every column of a menu row but its image path. *)
Definition menu_row_but_image (m : MenuItemRow) : Z * string * string * Z * Z :=
  (mi_id m, mi_name m, mi_category m, mi_price m, mi_is_active m).

(** What the updates of [ensure_menu_images] do, one after the other, to
    a row. *)
Definition backfill_rows (entries : list (string * string)) (m : MenuItemRow)
  : MenuItemRow :=
  fold_left (fun acc entry => backfill_row entry acc) entries m.

(** The sum of the totals of all orders. *)
Definition orders_total (db : Database) : Z :=
  fold_right Z.add 0 (map o_total (rows (orders db))).

(** A store whose first item names the image "pizza.png" while the file
    in the assets directory is "pizza.png.png". *)
Definition short_hint_db : Database :=
  set_menu_items seeded_db
    (mkTable [mkMenuItem 1 "Pizza Margherita" "Main" 500 (Some "pizza.png") 1] 1).

(** The label and the id of a row of [RoomRepo.list_active]. *)
Definition listed_room_label (r : Z * string * string * Z) : string :=
  BookingFrame.room_label (snd (fst (fst r))) (snd (fst r)) (snd r).

Definition listed_room_id (r : Z * string * string * Z) : Z :=
  fst (fst (fst r)).

(** The bookings form on the seeded store, filled in for the double
    room. *)
Definition empty_booking_form : BookingFrame.State :=
  BookingFrame.mkState "" "" "" "" "" [] [] [].

Definition sample_booking_form : BookingFrame.State :=
  let r := BookingFrame._refresh_rooms seeded_db empty_booking_form in
  BookingFrame.mkState "Ann" "0300" "102 | Double | PKR 5000"
                       " 2025-01-10" "2025-01-13 "
                       (BookingFrame.room_map r) (BookingFrame.room_values r)
                       (BookingFrame.book_tv r).

(** A date that [date.fromisoformat] can return: year 1 to 9999, month 1
    to 12, day within the month. *)
Definition date_valid (d : date.t) : Prop :=
  1 <= date.year d <= 9999
  /\ 1 <= date.month d <= 12
  /\ 1 <= date.day d <= date.days_in_month (date.year d) (date.month d).

(** What is typed at the prompt of the customer care loop before "no": a
    request (the number of a service, then the three answers) or a line
    that is neither the number of a service nor "no". *)
Inductive care_entry : Type :=
| care_request (chosen : string * string) (name room message : string)
| care_mistake (text : string).

Definition care_entry_lines (e : care_entry) : list string :=
  match e with
  | care_request chosen name room message => [fst chosen; name; room; message]
  | care_mistake text => [text]
  end.

Definition care_entry_ok (e : care_entry) : Prop :=
  match e with
  | care_request chosen _ _ _ => In chosen bookings_script.services
  | care_mistake text =>
      menu_script.lower text <> "no"
      /\ ~ In text (map fst bookings_script.services)
  end.

(** The ticket of a request. *)
Definition care_entry_tickets (e : care_entry) : list bookings_script.Ticket :=
  match e with
  | care_request chosen name room message =>
      [bookings_script.mk_ticket name room (snd chosen) message]
  | care_mistake _ => []
  end.

Definition ticket_printed (t : bookings_script.Ticket) : bookings_script.line :=
  bookings_script.ticket_line
    (bookings_script.customer t) (bookings_script.room t)
    (bookings_script.service t) (bookings_script.message t).

(** An [int()] that reads the numbers of the sample session. *)
Definition sample_int (s : string) : result Z :=
  if String.eqb s "2" then Ok 2
  else if String.eqb s "-1" then Ok (-1)
  else Raise (ValueError ("invalid literal for int() with base 10: '" ++ s ++ "'")).

(** The names of the dishes of [MENU_SEED]. *)
Definition seed_dish_names : list string :=
  map (fun x => fst (fst (fst x))) MENU_SEED.

(** ** Tables and keys *)

Lemma max_id_ge {A : Type} (id : A -> Z) (l : list A) (r : A) :
  In r l -> id r <= max_id id l.
Proof.
  unfold max_id. induction l as [|x l IH]; simpl; intros H.
  - contradiction.
  - destruct H as [->|H]; [lia|]. specialize (IH H). lia.
Qed.

Lemma next_rowid_fresh {A : Type} (id : A -> Z) (t : Table A) :
  has_id id t (next_rowid id t) = false.
Proof.
  unfold has_id. destruct (existsb _ _) eqn:E; [|reflexivity].
  apply existsb_exists in E. destruct E as [r [Hin Heq]].
  apply Z.eqb_eq in Heq. pose proof (max_id_ge id _ _ Hin).
  unfold next_rowid in Heq. lia.
Qed.

Lemma has_id_append {A : Type} (id : A -> Z) (t : Table A) (n : Z) (r : A) (k : Z) :
  has_id id (append_row t n r) k = has_id id t k || (id r =? k).
Proof.
  unfold has_id, append_row. simpl. rewrite existsb_app. simpl.
  now rewrite orb_false_r.
Qed.

Lemma has_id_find {A : Type} (id : A -> Z) (t : Table A) (k : Z) :
  has_id id t k = true ->
  exists r, find (fun r => id r =? k) (rows t) = Some r.
Proof.
  unfold has_id. induction (rows t) as [|x l IH]; simpl; intros H.
  - discriminate.
  - destruct (id x =? k); [eauto|]. apply IH. exact H.
Qed.

Lemma find_none_has_id {A : Type} (id : A -> Z) (t : Table A) (k : Z) :
  find (fun r => id r =? k) (rows t) = None -> has_id id t k = false.
Proof.
  unfold has_id. induction (rows t) as [|x l IH]; simpl; intros H.
  - reflexivity.
  - destruct (id x =? k); [discriminate|]. apply IH. exact H.
Qed.

Lemma select_price_known (db : Database) (item_id : Z) :
  has_id mi_id (menu_items db) item_id = true ->
  exists p, OrderRepo.select_price item_id db = Some p.
Proof.
  intros H. apply has_id_find in H. destruct H as [m Hm].
  unfold OrderRepo.select_price. rewrite Hm. simpl. eauto.
Qed.

Lemma select_price_unknown (db : Database) (item_id : Z) :
  has_id mi_id (menu_items db) item_id = false ->
  OrderRepo.select_price item_id db = None.
Proof.
  intros H. unfold OrderRepo.select_price.
  destruct (find _ _) eqn:E; [|reflexivity].
  assert (has_id mi_id (menu_items db) item_id = true) as H'.
  { unfold has_id. apply existsb_exists. exists m. split.
    - eapply find_some; eauto.
    - apply (find_some _ _ E). }
  congruence.
Qed.

Lemma set_order_items_same (db : Database) :
  set_order_items db (order_items db) = db.
Proof. destruct db; reflexivity. Qed.

(** ** The two loops of [create_order] *)

Lemma price_cart_ok (cart : list (Z * Z)) :
  forall (total : Z) (items : list (Z * Z * Z)) (c : Connection),
    cart_ids_known (view c) cart ->
    OrderRepo.price_cart cart total items c =
    (Ok (total + cart_total (view c) cart,
         (items ++ cart_lines (view c) cart)%list), c).
Proof.
  induction cart as [|[item_id qty] cart IH]; intros total items c Hk.
  - simpl. unfold ret, cart_total, cart_lines. simpl.
    now rewrite Z.add_0_r, app_nil_r.
  - destruct (select_price_known (view c) item_id) as [p Hp].
    { apply (Hk (item_id, qty)). now left. }
    simpl. unfold bind, query. rewrite Hp.
    rewrite IH by (intros e He; apply Hk; now right).
    unfold cart_total, cart_lines, current_price. simpl. rewrite Hp.
    rewrite <- app_assoc. simpl. now rewrite Z.add_assoc.
Qed.

Lemma price_cart_unknown (cart : list (Z * Z)) :
  forall (total : Z) (items : list (Z * Z * Z)) (c : Connection),
    (exists e, In e cart /\ has_id mi_id (menu_items (view c)) (fst e) = false) ->
    exists item_id,
      In item_id (map fst cart)
      /\ has_id mi_id (menu_items (view c)) item_id = false
      /\ OrderRepo.price_cart cart total items c =
         (Raise (ValueError ("Menu item id " ++ str_of_int item_id ++ " not found")),
          c).
Proof.
  induction cart as [|[item_id qty] cart IH]; intros total items c [e [Hin Hu]].
  - contradiction.
  - simpl. unfold bind, query.
    destruct (OrderRepo.select_price item_id (view c)) as [p|] eqn:Hp.
    + assert (exists e', In e' cart
                /\ has_id mi_id (menu_items (view c)) (fst e') = false) as Hex.
      { destruct Hin as [<-|Hin]; [|eauto]. simpl in Hu.
        rewrite (select_price_unknown _ _ Hu) in Hp. discriminate. }
      destruct (IH (total + p * qty)
                   (items ++ [(item_id, qty, p * qty)])%list c Hex)
        as [k [Hk1 [Hk2 Hk3]]].
      exists k. repeat split; auto.
    + exists item_id. repeat split; auto.
      apply find_none_has_id. unfold OrderRepo.select_price in Hp.
      destruct (find _ _); [discriminate|reflexivity].
Qed.

Lemma insert_lines_ok (order_id : Z) (items : list (Z * Z * Z)) :
  forall (f w : Database),
    has_id o_id (orders w) order_id = true ->
    (forall i q l, In (i, q, l) items ->
                   1 <= q /\ has_id mi_id (menu_items w) i = true) ->
    OrderRepo.insert_lines order_id items (mkConn f (Some w)) =
    (Ok tt,
     mkConn f (Some (set_order_items w (add_lines order_id items (order_items w))))).
Proof.
  induction items as [|[[i q] l] items IH]; intros f w Ho Hi.
  - simpl. unfold ret. now rewrite set_order_items_same.
  - destruct (Hi i q l (or_introl eq_refl)) as [Hq Hm].
    cbn [OrderRepo.insert_lines]. unfold bind at 1.
    unfold execute, OrderRepo.insert_order_item.
    cbn [view txn file]. apply Z.leb_le in Hq. rewrite Hq, Ho, Hm.
    cbn [negb andb]. rewrite IH.
    + reflexivity.
    + exact Ho.
    + intros i' q' l' H'. apply (Hi i' q' l'). now right.
Qed.

Lemma add_lines_rows (order_id : Z) (items : list (Z * Z * Z)) :
  forall t : Table OrderItemRow,
    exists lines,
      rows (add_lines order_id items t) = (rows t ++ lines)%list
      /\ map line_fields lines =
         map (fun x => (order_id, fst (fst x), snd (fst x), snd x)) items.
Proof.
  induction items as [|[[i q] l] items IH]; intros t.
  - exists []. simpl. now rewrite app_nil_r.
  - simpl. destruct (IH (append_row t (next_rowid oi_id t)
                           (mkOrderItem (next_rowid oi_id t) order_id i q l)))
      as [lines [H1 H2]].
    exists (mkOrderItem (next_rowid oi_id t) order_id i q l :: lines).
    split.
    + rewrite H1. simpl. now rewrite <- app_assoc.
    + simpl. now rewrite H2.
Qed.

Lemma cart_lines_valid (db : Database) (cart : list (Z * Z)) :
  cart_ids_known db cart ->
  cart_quantities_positive cart ->
  forall i q l, In (i, q, l) (cart_lines db cart) ->
                1 <= q /\ has_id mi_id (menu_items db) i = true.
Proof.
  intros Hk Hq i q l Hin. unfold cart_lines in Hin.
  apply in_map_iff in Hin. destruct Hin as [e [He Hin]].
  inversion He; subst. split; [apply Hq | apply Hk]; exact Hin.
Qed.

Lemma create_order_ok (db : Database) (customer_name phone : string)
  (cart : list (Z * Z)) (now : string) :
  cart_ids_known db cart ->
  cart_quantities_positive cart ->
  OrderRepo.create_order db customer_name phone cart now =
  (Ok (next_rowid o_id (orders db)),
   order_stored db customer_name phone cart now).
Proof.
  intros Hk Hq. unfold OrderRepo.create_order, with_conn.
  unfold bind at 1. rewrite price_cart_ok by exact Hk.
  cbn [view get_conn txn file]. rewrite Z.add_0_l. cbn [app fst snd].
  unfold bind at 1. unfold execute at 1, OrderRepo.insert_order.
  cbn [view get_conn txn file].
  unfold bind at 1. rewrite insert_lines_ok.
  - reflexivity.
  - cbn [set_orders orders]. rewrite has_id_append.
    cbn [o_id]. rewrite Z.eqb_refl. apply orb_true_r.
  - cbn [set_orders menu_items]. apply cart_lines_valid; assumption.
Qed.

Lemma lines_of_order (order_id : Z) (lines : list OrderItemRow)
  (items : list (Z * Z * Z)) :
  map line_fields lines =
  map (fun x => (order_id, fst (fst x), snd (fst x), snd x)) items ->
  filter (fun r => oi_order_id r =? order_id) lines = lines
  /\ List.length lines = List.length items.
Proof.
  revert items. induction lines as [|r lines IH]; intros [|x items] H;
    simpl in H; try discriminate.
  - split; reflexivity.
  - injection H as H1 H2 H3 H4 H5. destruct (IH items H5) as [Hf Hl].
    simpl. rewrite H1, Z.eqb_refl, Hf, Hl. split; reflexivity.
Qed.

Lemma no_line_of_fresh_order (db : Database) :
  order_items_reference_orders db ->
  filter (fun r => oi_order_id r =? next_rowid o_id (orders db))
         (rows (order_items db)) = [].
Proof.
  intros Hfk. unfold order_items_reference_orders in Hfk.
  induction (rows (order_items db)) as [|r l IH]; simpl; [reflexivity|].
  destruct (oi_order_id r =? next_rowid o_id (orders db)) eqn:E.
  - apply Z.eqb_eq in E. specialize (Hfk r (or_introl eq_refl)).
    rewrite E, next_rowid_fresh in Hfk. discriminate.
  - apply IH. intros r' Hr'. apply Hfk. now right.
Qed.

(** ** Order Ledger: [create_order] *)

(** C1. A cart with an item id that is not in [menu_items] makes
    [create_order] raise the "Menu item id ... not found" error for such an
    id, and the database afterwards is the database before the call: no
    order row and no order line was written. *)
Theorem create_order_unknown_item_writes_nothing
  (db : Database) (customer_name phone : string) (cart : list (Z * Z))
  (now : string) :
  (exists e, In e cart /\ has_id mi_id (menu_items db) (fst e) = false) ->
  exists item_id,
    In item_id (map fst cart)
    /\ has_id mi_id (menu_items db) item_id = false
    /\ OrderRepo.create_order db customer_name phone cart now =
       (Raise (ValueError ("Menu item id " ++ str_of_int item_id ++ " not found")),
        db).
Proof.
  intros Hex.
  destruct (price_cart_unknown cart 0 [] (get_conn db) Hex) as [k [H1 [H2 H3]]].
  exists k. repeat split; auto.
  unfold OrderRepo.create_order, with_conn, bind. rewrite H3. reflexivity.
Qed.

Lemma create_order_unknown_item_witness :
  (exists e, In e [(1, 2); (42, 1)]
             /\ has_id mi_id (menu_items seeded_db) (fst e) = false)
  /\ exists item_id,
      In item_id (map fst [(1, 2); (42, 1)])
      /\ has_id mi_id (menu_items seeded_db) item_id = false
      /\ OrderRepo.create_order seeded_db "Ann" "0300" [(1, 2); (42, 1)] "t" =
         (Raise (ValueError ("Menu item id " ++ str_of_int item_id ++ " not found")),
          seeded_db).
Proof.
  assert (exists e, In e [(1, 2); (42, 1)]
                    /\ has_id mi_id (menu_items seeded_db) (fst e) = false) as H.
  { exists (42, 1). split; [simpl; auto | reflexivity]. }
  split; [exact H|].
  exact (create_order_unknown_item_writes_nothing
           seeded_db "Ann" "0300" [(1, 2); (42, 1)] "t" H).
Defined.

(** C2. For a cart whose item ids all exist and whose quantities are
    quantities of the schema (at least 1), [create_order] commits one order
    whose total is the sum over the cart of current price times quantity,
    and one order line per cart entry, in cart order, each with
    [line_total = price * qty]; in a store whose order lines all reference
    existing orders, the lines of the new order are as many as the cart has
    entries. *)
Theorem create_order_total_and_lines
  (db : Database) (customer_name phone : string) (cart : list (Z * Z))
  (now : string) :
  cart_ids_known db cart ->
  cart_quantities_positive cart ->
  order_items_reference_orders db ->
  exists order_id db',
    OrderRepo.create_order db customer_name phone cart now = (Ok order_id, db')
    /\ rows (orders db') =
       (rows (orders db)
        ++ [mkOrder order_id (Some customer_name) (Some phone)
                    (cart_total db cart) now])%list
    /\ (exists lines,
          rows (order_items db') = (rows (order_items db) ++ lines)%list
          /\ map line_fields lines =
             map (fun e => (order_id, fst e, snd e,
                            current_price db (fst e) * snd e)) cart)
    /\ List.length (filter (fun r => oi_order_id r =? order_id)
                           (rows (order_items db'))) = List.length cart.
Proof.
  intros Hk Hq Hfk.
  exists (next_rowid o_id (orders db)),
         (order_stored db customer_name phone cart now).
  split; [apply create_order_ok; assumption|].
  split; [reflexivity|].
  destruct (add_lines_rows (next_rowid o_id (orders db)) (cart_lines db cart)
                           (order_items db)) as [lines [Hr Hm]].
  assert (map line_fields lines =
          map (fun e => (next_rowid o_id (orders db), fst e, snd e,
                         current_price db (fst e) * snd e)) cart) as Hm'.
  { rewrite Hm. unfold cart_lines. rewrite map_map. reflexivity. }
  split.
  - exists lines. split; [exact Hr | exact Hm'].
  - unfold order_stored. cbn [set_order_items set_orders order_items].
    rewrite Hr, filter_app, (no_line_of_fresh_order db Hfk).
    destruct (lines_of_order _ _ _ Hm) as [Hf Hl].
    cbn [app]. rewrite Hf, Hl. unfold cart_lines. now rewrite length_map.
Qed.

Lemma create_order_total_and_lines_witness :
  exists order_id db',
    OrderRepo.create_order seeded_db "Ann" "0300" [(1, 2); (6, 3)] "t" =
    (Ok order_id, db')
    /\ rows (orders db') =
       (rows (orders seeded_db)
        ++ [mkOrder order_id (Some "Ann") (Some "0300")
                    (cart_total seeded_db [(1, 2); (6, 3)]) "t"])%list
    /\ (exists lines,
          rows (order_items db') = (rows (order_items seeded_db) ++ lines)%list
          /\ map line_fields lines =
             map (fun e => (order_id, fst e, snd e,
                            current_price seeded_db (fst e) * snd e))
                 [(1, 2); (6, 3)])
    /\ List.length (filter (fun r => oi_order_id r =? order_id)
                           (rows (order_items db'))) =
       List.length [(1, 2); (6, 3)].
Proof.
  apply (create_order_total_and_lines seeded_db "Ann" "0300" [(1, 2); (6, 3)] "t").
  - intros e [<-|[<-|[]]]; reflexivity.
  - intros e [<-|[<-|[]]]; simpl; lia.
  - intros r [].
Defined.

(** C9. [create_order] accepts an empty cart: it commits one order row
    with total 0, writes no order line and returns the id of the row. *)
Theorem create_order_empty_cart
  (db : Database) (customer_name phone : string) (now : string) :
  OrderRepo.create_order db customer_name phone [] now =
  (Ok (next_rowid o_id (orders db)),
   set_orders db
     (append_row (orders db) (next_rowid o_id (orders db))
        (mkOrder (next_rowid o_id (orders db)) (Some customer_name)
                 (Some phone) 0 now))).
Proof.
  rewrite create_order_ok.
  - unfold order_stored. cbn [cart_lines map add_lines cart_total fold_right].
    now rewrite set_order_items_same.
  - intros e [].
  - intros e [].
Qed.

(** ** [ORDER BY] keeps the rows *)

Lemma insert_sorted_perm {A : Type} (le : A -> A -> bool) (x : A) (l : list A) :
  Permutation (x :: l) (insert_sorted le x l).
Proof.
  induction l as [|y l IH]; simpl.
  - apply Permutation_refl.
  - destruct (le x y).
    + apply Permutation_refl.
    + eapply perm_trans; [apply perm_swap|]. now apply perm_skip.
Qed.

Lemma order_by_perm {A : Type} (le : A -> A -> bool) (l : list A) :
  Permutation l (order_by le l).
Proof.
  induction l as [|x l IH]; simpl.
  - apply perm_nil.
  - eapply perm_trans; [|apply insert_sorted_perm]. now apply perm_skip.
Qed.

Lemma order_by_in {A : Type} (le : A -> A -> bool) (l : list A) (x : A) :
  In x (order_by le l) <-> In x l.
Proof.
  split; intros H.
  - eapply Permutation_in; [apply Permutation_sym, order_by_perm | exact H].
  - eapply Permutation_in; [apply order_by_perm | exact H].
Qed.

(** ** The active flag is not read by [create_order] *)

Lemma view_conn_with_flags (f : MenuItemRow -> Z) (c : Connection) :
  view (conn_with_flags f c) = with_active_flags f (view c).
Proof. destruct c as [d [w|]]; reflexivity. Qed.

Lemma find_id_reflag (f : MenuItemRow -> Z) (k : Z) (l : list MenuItemRow) :
  find (fun m => mi_id m =? k) (map (reflag f) l) =
  option_map (reflag f) (find (fun m => mi_id m =? k) l).
Proof.
  induction l as [|m l IH]; simpl; [reflexivity|].
  destruct (mi_id m =? k); [reflexivity | exact IH].
Qed.

Lemma select_price_with_flags (f : MenuItemRow -> Z) (k : Z) (db : Database) :
  OrderRepo.select_price k (with_active_flags f db) = OrderRepo.select_price k db.
Proof.
  unfold OrderRepo.select_price. cbn [with_active_flags menu_items rows].
  rewrite find_id_reflag. now destruct (find _ _).
Qed.

Lemma has_item_with_flags (f : MenuItemRow -> Z) (k : Z) (db : Database) :
  has_id mi_id (menu_items (with_active_flags f db)) k =
  has_id mi_id (menu_items db) k.
Proof.
  unfold has_id. cbn [with_active_flags menu_items rows].
  induction (rows (menu_items db)) as [|m l IH]; simpl; [reflexivity|].
  now rewrite IH.
Qed.

Lemma flag_blind_ret {A : Type} (a : A) : flag_blind (ret a).
Proof. intros f c. reflexivity. Qed.

Lemma flag_blind_raise {A : Type} (e : exn) : flag_blind (@raise A e).
Proof. intros f c. reflexivity. Qed.

Lemma flag_blind_bind {A B : Type} (m : SQL A) (k : A -> SQL B) :
  flag_blind m -> (forall a, flag_blind (k a)) -> flag_blind (bind m k).
Proof.
  intros Hm Hk f c. unfold bind. rewrite Hm.
  destruct (m c) as [[a|e] c']; cbn [fst snd].
  - apply Hk.
  - reflexivity.
Qed.

Lemma flag_blind_query {A : Type} (q : Database -> A) :
  (forall f db, q (with_active_flags f db) = q db) -> flag_blind (query q).
Proof.
  intros Hq f c. unfold query. rewrite view_conn_with_flags, Hq. reflexivity.
Qed.

Lemma flag_blind_execute {A : Type} (stmt : Database -> result (A * Database)) :
  (forall f db,
     stmt (with_active_flags f db) =
     match stmt db with
     | Ok (a, w) => Ok (a, with_active_flags f w)
     | Raise e => Raise e
     end) ->
  flag_blind (execute stmt).
Proof.
  intros Hs f c. unfold execute. rewrite view_conn_with_flags, Hs.
  destruct (stmt (view c)) as [[a w]|e]; reflexivity.
Qed.

Lemma flag_blind_commit : flag_blind commit.
Proof.
  intros f c. unfold commit. rewrite view_conn_with_flags. reflexivity.
Qed.

Lemma flag_blind_price_cart (cart : list (Z * Z)) :
  forall total items, flag_blind (OrderRepo.price_cart cart total items).
Proof.
  induction cart as [|[item_id qty] cart IH]; intros total items; simpl.
  - apply flag_blind_ret.
  - apply flag_blind_bind.
    + apply flag_blind_query. intros f db. apply select_price_with_flags.
    + intros [p|]; [apply IH | apply flag_blind_raise].
Qed.

Lemma flag_blind_insert_lines (order_id : Z) (items : list (Z * Z * Z)) :
  flag_blind (OrderRepo.insert_lines order_id items).
Proof.
  induction items as [|[[i q] l] items IH]; simpl.
  - apply flag_blind_ret.
  - apply flag_blind_bind; [|intros _; exact IH].
    apply flag_blind_execute. intros f db.
    unfold OrderRepo.insert_order_item. rewrite has_item_with_flags.
    destruct (negb (1 <=? q)); [reflexivity|].
    cbn [with_active_flags orders].
    destruct (negb _); reflexivity.
Qed.

Lemma create_order_flag_blind
  (f : MenuItemRow -> Z) (db : Database) (customer_name phone : string)
  (cart : list (Z * Z)) (now : string) :
  OrderRepo.create_order (with_active_flags f db) customer_name phone cart now =
  (fst (OrderRepo.create_order db customer_name phone cart now),
   with_active_flags f
     (snd (OrderRepo.create_order db customer_name phone cart now))).
Proof.
  unfold OrderRepo.create_order, with_conn.
  set (body := bind _ _).
  assert (flag_blind body) as Hb.
  { subst body. apply flag_blind_bind; [apply flag_blind_price_cart|].
    intros priced. apply flag_blind_bind.
    - apply flag_blind_execute. intros g d. reflexivity.
    - intros order_id. apply flag_blind_bind; [apply flag_blind_insert_lines|].
      intros _. apply flag_blind_bind; [apply flag_blind_commit|].
      intros _. apply flag_blind_ret. }
  change (get_conn (with_active_flags f db))
    with (conn_with_flags f (get_conn db)).
  rewrite Hb. destruct (body (get_conn db)) as [r c]. reflexivity.
Qed.

Lemma find_by_key (l : list MenuItemRow) (m : MenuItemRow) :
  NoDup (map mi_id l) -> In m l ->
  find (fun x => mi_id x =? mi_id m) l = Some m.
Proof.
  induction l as [|x l IH]; simpl; intros Hnd Hin; [contradiction|].
  inversion Hnd as [|? ? Hx Hl]; subst.
  destruct Hin as [->|Hin].
  - now rewrite Z.eqb_refl.
  - destruct (mi_id x =? mi_id m) eqn:E.
    + apply Z.eqb_eq in E. exfalso. apply Hx. rewrite E.
      now apply in_map.
    + now apply IH.
Qed.

Lemma list_items_active (db : Database) (category : option string)
  (search : string) (it : MenuRepo.MenuItem) :
  In it (MenuRepo.list_items db category search) ->
  exists r, In r (rows (menu_items db))
            /\ mi_is_active r = 1
            /\ it = MenuRepo.of_row r.
Proof.
  unfold MenuRepo.list_items. intros H.
  apply in_map_iff in H. destruct H as [r [<- Hr]].
  apply order_by_in in Hr. apply filter_In in Hr. destruct Hr as [Hin Hsel].
  exists r. repeat split; auto.
  unfold MenuRepo.selected in Hsel.
  apply andb_prop in Hsel. destruct Hsel as [Hsel _].
  apply andb_prop in Hsel. destruct Hsel as [Hact _].
  now apply Z.eqb_eq.
Qed.

(** C10. [create_order] does not read [is_active]: an entry for an item
    that exists but is inactive, hence in no listing of [list_items], is
    accepted and its line is priced from the stored price of the item; and
    the outcome of [create_order] is the same whatever the flags of the
    menu are. *)
Theorem create_order_ignores_active_flag
  (db : Database) (customer_name phone : string) (cart : list (Z * Z))
  (now : string) (m : MenuItemRow) (q : Z) :
  NoDup (map mi_id (rows (menu_items db))) ->
  In m (rows (menu_items db)) ->
  mi_is_active m <> 1 ->
  In (mi_id m, q) cart ->
  cart_ids_known db cart ->
  cart_quantities_positive cart ->
  (forall category search it,
      In it (MenuRepo.list_items db category search) ->
      MenuRepo.id it <> mi_id m)
  /\ (exists order_id db',
        OrderRepo.create_order db customer_name phone cart now = (Ok order_id, db')
        /\ exists line,
            In line (rows (order_items db'))
            /\ line_fields line = (order_id, mi_id m, q, mi_price m * q))
  /\ (forall f,
        OrderRepo.create_order (with_active_flags f db) customer_name phone cart now =
        (fst (OrderRepo.create_order db customer_name phone cart now),
         with_active_flags f
           (snd (OrderRepo.create_order db customer_name phone cart now)))).
Proof.
  intros Hnd Hm Hoff Hcart Hk Hq. split; [|split].
  - intros category search it Hit Heq.
    apply list_items_active in Hit. destruct Hit as [r [Hr [Hact ->]]].
    cbn [MenuRepo.of_row MenuRepo.id] in Heq.
    pose proof (find_by_key _ _ Hnd Hr) as F1.
    pose proof (find_by_key _ _ Hnd Hm) as F2.
    rewrite Heq in F1. rewrite F1 in F2. injection F2 as ->. contradiction.
  - exists (next_rowid o_id (orders db)),
           (order_stored db customer_name phone cart now).
    split; [apply create_order_ok; assumption|].
    destruct (add_lines_rows (next_rowid o_id (orders db)) (cart_lines db cart)
                             (order_items db)) as [lines [Hr Hl]].
    assert (In (next_rowid o_id (orders db), mi_id m, q, mi_price m * q)
               (map line_fields lines)) as Hin.
    { rewrite Hl. unfold cart_lines. rewrite map_map. apply in_map_iff.
      exists (mi_id m, q). split; [|exact Hcart]. cbn [fst snd].
      unfold current_price, OrderRepo.select_price.
      rewrite (find_by_key _ _ Hnd Hm). reflexivity. }
    apply in_map_iff in Hin. destruct Hin as [line [Hf Hin]].
    exists line. split; [|exact Hf].
    unfold order_stored. cbn [set_order_items set_orders order_items].
    rewrite Hr. apply in_or_app. now right.
  - intros f. apply create_order_flag_blind.
Qed.

Lemma create_order_ignores_active_flag_witness :
  (forall category search it,
      In it (MenuRepo.list_items seeded_db_without_soda category search) ->
      MenuRepo.id it <> 6)
  /\ (exists order_id db',
        OrderRepo.create_order seeded_db_without_soda "Ann" "0300"
                               [(1, 2); (6, 3)] "t" = (Ok order_id, db')
        /\ exists line,
            In line (rows (order_items db'))
            /\ line_fields line = (order_id, 6, 3, 250 * 3))
  /\ (forall f,
        OrderRepo.create_order (with_active_flags f seeded_db_without_soda)
                               "Ann" "0300" [(1, 2); (6, 3)] "t" =
        (fst (OrderRepo.create_order seeded_db_without_soda "Ann" "0300"
                                     [(1, 2); (6, 3)] "t"),
         with_active_flags f
           (snd (OrderRepo.create_order seeded_db_without_soda "Ann" "0300"
                                        [(1, 2); (6, 3)] "t")))).
Proof.
  apply (create_order_ignores_active_flag
           seeded_db_without_soda "Ann" "0300" [(1, 2); (6, 3)] "t"
           (mkMenuItem 6 "Soft Drink" "Beverage" 250 (Some "soda.png.png") 0) 3).
  - repeat constructor; simpl; intuition discriminate.
  - simpl. auto 10.
  - simpl. lia.
  - simpl. auto.
  - intros e [<-|[<-|[]]]; reflexivity.
  - intros e [<-|[<-|[]]]; simpl; lia.
Defined.

(** ** Customer Directory: [ensure_customer] *)

Lemma set_customers_same (db : Database) :
  set_customers db (customers db) = db.
Proof. destruct db; reflexivity. Qed.

Lemma find_app_none {A : Type} (p : A -> bool) (l l' : list A) :
  find p l = None -> find p (l ++ l') = find p l'.
Proof.
  induction l as [|x l IH]; simpl; intros H; [reflexivity|].
  destruct (p x); [discriminate | now apply IH].
Qed.

Lemma no_match_no_conflict (name phone : string) (l : list CustomerRow) :
  find (CustomerRepo.matches name phone) l = None ->
  existsb (CustomerRepo.conflicts name phone) l = false.
Proof.
  induction l as [|c l IH]; simpl; intros H; [reflexivity|].
  destruct (CustomerRepo.matches name phone c) eqn:E; [discriminate|].
  rewrite (IH H), orb_false_r.
  unfold CustomerRepo.matches in E. unfold CustomerRepo.conflicts.
  destruct (String.eqb (c_name c) name); [|reflexivity].
  destruct (c_phone c) as [p|]; [exact E | reflexivity].
Qed.

(** What [ensure_customer] returns and leaves, by cases on the lookup. *)
Lemma ensure_customer_cases (db : Database) (name phone email : string) :
  CustomerRepo.ensure_customer db name phone email =
  match CustomerRepo.select_id name phone db with
  | Some found => (Ok found, db)
  | None =>
      (Ok (next_rowid c_id (customers db)),
       set_customers db
         (append_row (customers db) (next_rowid c_id (customers db))
                     (new_customer db name phone email)))
  end.
Proof.
  unfold CustomerRepo.ensure_customer, with_conn, bind, query.
  cbn [view get_conn txn file].
  destruct (CustomerRepo.select_id name phone db) as [found|] eqn:E.
  - reflexivity.
  - unfold execute, CustomerRepo.insert_customer. cbn [view txn file].
    rewrite no_match_no_conflict; [reflexivity|].
    unfold CustomerRepo.select_id in E.
    destruct (find _ _); [discriminate | reflexivity].
Qed.

Lemma select_id_after_insert (db : Database) (name phone email : string) :
  CustomerRepo.select_id name phone db = None ->
  CustomerRepo.select_id name phone
    (set_customers db
       (append_row (customers db) (next_rowid c_id (customers db))
                   (new_customer db name phone email))) =
  Some (next_rowid c_id (customers db)).
Proof.
  unfold CustomerRepo.select_id. intros H.
  cbn [set_customers customers append_row rows].
  rewrite find_app_none by (destruct (find _ _); [discriminate | reflexivity]).
  cbn [find]. unfold CustomerRepo.matches, new_customer.
  cbn [c_name c_phone ifnull]. rewrite !String.eqb_refl. reflexivity.
Qed.

(** C5. Two calls of [ensure_customer] with the same name and phone, the
    second on the store that the first one left, return the same id; the
    second call changes nothing; and the two calls together add exactly one
    customer row when no row matched the pair before the first call (and
    none when one did). *)
Theorem ensure_customer_idempotent
  (db : Database) (name phone email email' : string) :
  let first := CustomerRepo.ensure_customer db name phone email in
  let second := CustomerRepo.ensure_customer (snd first) name phone email' in
  exists cust_id,
    fst first = Ok cust_id
    /\ fst second = Ok cust_id
    /\ snd second = snd first
    /\ rows (customers (snd second)) =
       (rows (customers db)
        ++ match CustomerRepo.select_id name phone db with
           | Some _ => []
           | None => [mkCustomer cust_id name (Some phone) (Some email)]
           end)%list.
Proof.
  cbv zeta. rewrite (ensure_customer_cases db).
  destruct (CustomerRepo.select_id name phone db) as [found|] eqn:E.
  - cbn [fst snd]. rewrite ensure_customer_cases, E. cbn [fst snd].
    exists found. rewrite app_nil_r. auto.
  - cbn [fst snd]. rewrite ensure_customer_cases.
    rewrite (select_id_after_insert db name phone email E). cbn [fst snd].
    exists (next_rowid c_id (customers db)). auto.
Qed.

(** ** Booking Ledger: [create_booking] *)

(** C4. When both dates parse and check-out is not after check-in,
    [create_booking] raises "Check-out must be after check-in" before it
    opens a connection: the database is the one before the call, whatever
    the store would have done.  In particular this is so for check-in and
    check-out both "2025-01-10". *)
Theorem create_booking_rejects_nonpositive_nights :
  (forall (store_error : option exn) (db : Database)
          (customer_name phone : string) (room_id : Z)
          (check_in check_out now : string) (d1 d2 : date.t),
      date.fromisoformat check_in = Ok d1 ->
      date.fromisoformat check_out = Ok d2 ->
      date.days_between d1 d2 <= 0 ->
      BookingRepo.create_booking store_error db customer_name phone room_id
                                 check_in check_out now =
      (Raise (ValueError "Check-out must be after check-in"), db))
  /\ (forall (store_error : option exn) (db : Database)
             (customer_name phone : string) (room_id : Z) (now : string),
         BookingRepo.create_booking store_error db customer_name phone room_id
                                    "2025-01-10" "2025-01-10" now =
         (Raise (ValueError "Check-out must be after check-in"), db)).
Proof.
  split.
  - intros store_error db customer_name phone room_id check_in check_out now
           d1 d2 H1 H2 Hn.
    unfold BookingRepo.create_booking. rewrite H1, H2.
    apply Z.leb_le in Hn. rewrite Hn. reflexivity.
  - intros. reflexivity.
Qed.

Lemma create_booking_rejects_nonpositive_nights_witness :
  date.fromisoformat "2025-03-02" = Ok (date.mk 2025 3 2)
  /\ date.fromisoformat "2025-02-27" = Ok (date.mk 2025 2 27)
  /\ date.days_between (date.mk 2025 3 2) (date.mk 2025 2 27) <= 0
  /\ BookingRepo.create_booking None seeded_db "Ann" "0300" 2
                                "2025-03-02" "2025-02-27" "t" =
     (Raise (ValueError "Check-out must be after check-in"), seeded_db).
Proof.
  assert (date.fromisoformat "2025-03-02" = Ok (date.mk 2025 3 2)) as H1
      by reflexivity.
  assert (date.fromisoformat "2025-02-27" = Ok (date.mk 2025 2 27)) as H2
      by reflexivity.
  assert (date.days_between (date.mk 2025 3 2) (date.mk 2025 2 27) <= 0) as H3
      by (vm_compute; discriminate).
  split; [exact H1|]. split; [exact H2|]. split; [exact H3|].
  exact (proj1 create_booking_rejects_nonpositive_nights
               None seeded_db "Ann" "0300" 2 "2025-03-02" "2025-02-27" "t"
               _ _ H1 H2 H3).
Defined.

(** What a [create_booking] with valid dates and a known room does when
    the store raises at the insert of the booking. *)
Lemma create_booking_store_error
  (e : exn) (db : Database) (customer_name phone : string) (room_id : Z)
  (check_in check_out now : string) (d1 d2 : date.t) (price : Z) :
  date.fromisoformat check_in = Ok d1 ->
  date.fromisoformat check_out = Ok d2 ->
  0 < date.days_between d1 d2 ->
  BookingRepo.select_price_per_night room_id db = Some price ->
  BookingRepo.create_booking (Some e) db customer_name phone room_id
                             check_in check_out now =
  (Raise e, snd (CustomerRepo.ensure_customer db customer_name phone "")).
Proof.
  intros H1 H2 Hn Hp. unfold BookingRepo.create_booking.
  rewrite H1, H2. apply Z.leb_gt in Hn. rewrite Hn.
  unfold with_conn, bind, query, call. cbn [view get_conn txn file].
  rewrite Hp. rewrite !ensure_customer_cases. cbn [file get_conn txn].
  destruct (CustomerRepo.select_id customer_name phone db); reflexivity.
Qed.

(** C3, as the code has it. The customer is resolved on a connection of
    its own, which commits; the lookup of the room and the insert of the
    booking run on the connection of [create_booking]. When the store
    raises at the insert of the booking, the error is propagated and the
    database is the one that [ensure_customer] left: no booking row, the
    other tables as before, and the customer row of this call committed
    when the pair was new. *)
Theorem create_booking_failure_keeps_customer
  (e : exn) (db : Database) (customer_name phone : string) (room_id : Z)
  (check_in check_out now : string) (d1 d2 : date.t) (price : Z) :
  date.fromisoformat check_in = Ok d1 ->
  date.fromisoformat check_out = Ok d2 ->
  0 < date.days_between d1 d2 ->
  BookingRepo.select_price_per_night room_id db = Some price ->
  let outcome :=
    BookingRepo.create_booking (Some e) db customer_name phone room_id
                               check_in check_out now in
  fst outcome = Raise e
  /\ snd outcome = snd (CustomerRepo.ensure_customer db customer_name phone "")
  /\ bookings (snd outcome) = bookings db
  /\ rooms (snd outcome) = rooms db
  /\ rows (customers (snd outcome)) =
     (rows (customers db)
      ++ match CustomerRepo.select_id customer_name phone db with
         | Some _ => []
         | None => [new_customer db customer_name phone ""]
         end)%list.
Proof.
  intros H1 H2 Hn Hp. cbv zeta.
  rewrite (create_booking_store_error e db customer_name phone room_id
             check_in check_out now d1 d2 price H1 H2 Hn Hp).
  cbn [fst snd]. rewrite ensure_customer_cases.
  destruct (CustomerRepo.select_id customer_name phone db); cbn [snd].
  - rewrite app_nil_r. auto.
  - auto.
Qed.

Lemma create_booking_failure_keeps_customer_witness :
  let outcome :=
    BookingRepo.create_booking (Some (OperationalError "disk I/O error"))
      seeded_db "Ann" "0300" 2 "2025-01-10" "2025-01-13" "t" in
  fst outcome = Raise (OperationalError "disk I/O error")
  /\ snd outcome = snd (CustomerRepo.ensure_customer seeded_db "Ann" "0300" "")
  /\ bookings (snd outcome) = bookings seeded_db
  /\ rooms (snd outcome) = rooms seeded_db
  /\ rows (customers (snd outcome)) =
     (rows (customers seeded_db)
      ++ match CustomerRepo.select_id "Ann" "0300" seeded_db with
         | Some _ => []
         | None => [new_customer seeded_db "Ann" "0300" ""]
         end)%list.
Proof.
  apply (create_booking_failure_keeps_customer
           (OperationalError "disk I/O error") seeded_db "Ann" "0300" 2
           "2025-01-10" "2025-01-13" "t"
           (date.mk 2025 1 10) (date.mk 2025 1 13) 5000).
  - reflexivity.
  - reflexivity.
  - vm_compute. reflexivity.
  - reflexivity.
Defined.

(** C3, as the claim has it, fails: on the seeded store, a booking for a
    new customer whose insert meets a store error leaves the customer row
    committed, so the store is not the one before the call. *)
Lemma create_booking_not_all_or_nothing :
  let outcome :=
    BookingRepo.create_booking (Some (OperationalError "disk I/O error"))
      seeded_db "Ann" "0300" 2 "2025-01-10" "2025-01-13" "t" in
  fst outcome = Raise (OperationalError "disk I/O error")
  /\ rows (customers seeded_db) = []
  /\ rows (customers (snd outcome)) =
     [mkCustomer 1 "Ann" (Some "0300") (Some "")]
  /\ snd outcome <> seeded_db.
Proof.
  cbv zeta. repeat split.
  intros H. apply (f_equal (fun d => rows (customers d))) in H.
  vm_compute in H. discriminate.
Qed.

(** ** Support Ticket Ledger: [create_ticket] *)

Lemma lstrip_all_spaces (s : string) :
  all_spaces s = true -> lstrip s = "".
Proof.
  induction s as [|c s IH]; simpl; intros H; [reflexivity|].
  apply andb_prop in H. destruct H as [Hc Hs]. rewrite Hc. now apply IH.
Qed.

Lemma rstrip_empty (s : string) :
  rstrip s = "" -> all_spaces s = true.
Proof.
  induction s as [|c s IH]; simpl; intros H; [reflexivity|].
  destruct (rstrip s) eqn:E.
  - destruct (is_space c); [|discriminate]. now rewrite IH.
  - discriminate.
Qed.

Lemma lstrip_keeps_non_spaces (s : string) :
  all_spaces (lstrip s) = true -> all_spaces s = true.
Proof.
  induction s as [|c s IH]; simpl; intros H; [reflexivity|].
  destruct (is_space c) eqn:E.
  - now apply IH.
  - simpl in H. rewrite E in H. discriminate.
Qed.

(** A string is empty after [strip] exactly when it is made of whitespace. *)
Lemma strip_empty_iff (s : string) :
  strip s = "" <-> all_spaces s = true.
Proof.
  unfold strip. split; intros H.
  - apply lstrip_keeps_non_spaces, rstrip_empty, H.
  - now rewrite lstrip_all_spaces.
Qed.

(** C8, as the code has it. The check of the subject is made by the form
    handler [SupportFrame._create_ticket]: when the subject is empty after
    trimming, the handler reports "Subject is required" without calling
    [TicketRepo.create_ticket]; no ticket row is written and no customer
    is resolved, the database is the one before. *)
Theorem support_form_requires_subject
  (db : Database) (form : SupportFrame.Form) (now : string) :
  strip (SupportFrame.t_subject form) = "" ->
  SupportFrame._create_ticket db form now =
  (SupportFrame.showerror "Ticket failed" "Subject is required", db).
Proof.
  intros H. unfold SupportFrame._create_ticket. rewrite H. reflexivity.
Qed.

Lemma support_form_requires_subject_witness :
  strip (SupportFrame.t_subject
           (SupportFrame.mkForm "Ann" "0300" "Other" "   " "help")) = ""
  /\ SupportFrame._create_ticket
       seeded_db (SupportFrame.mkForm "Ann" "0300" "Other" "   " "help") "t" =
     (SupportFrame.showerror "Ticket failed" "Subject is required", seeded_db).
Proof.
  split; [reflexivity|].
  apply (support_form_requires_subject
           seeded_db (SupportFrame.mkForm "Ann" "0300" "Other" "   " "help") "t").
  reflexivity.
Defined.

(** C8, as the claim has it, fails for [TicketRepo.create_ticket], which
    does not look at the subject: with an empty subject it resolves the
    customer, inserts the ticket and returns its id. *)
Lemma create_ticket_accepts_empty_subject :
  strip "" = ""
  /\ fst (TicketRepo.create_ticket seeded_db "Ann" "0300" "Other" "" "help" "t")
     = Ok 1
  /\ rows (tickets (snd (TicketRepo.create_ticket
                           seeded_db "Ann" "0300" "Other" "" "help" "t"))) =
     [mkTicket 1 (Some 1) (Some "Other") "" (Some "help") "Open" "t"]
  /\ rows (customers (snd (TicketRepo.create_ticket
                             seeded_db "Ann" "0300" "Other" "" "help" "t"))) =
     [mkCustomer 1 "Ann" (Some "0300") (Some "")].
Proof. repeat split. Qed.

(** ** Image Path Resolver: [resolve_image_path] *)

Lemma first_existing_find (BASE_DIR : string) (exists_ : string -> bool)
  (vs : list string) :
  first_existing BASE_DIR exists_ vs =
  find exists_ (map (os_path.join (ASSETS_DIR BASE_DIR)) vs).
Proof.
  induction vs as [|v vs IH]; simpl; [reflexivity|].
  destruct (exists_ _); [reflexivity | exact IH].
Qed.

(** [find] returns the first element that satisfies the test. *)
Lemma find_first {A : Type} (p : A -> bool) (l : list A) (r : A) :
  find p l = Some r ->
  exists pre post,
    l = (pre ++ r :: post)%list
    /\ p r = true
    /\ Forall (fun x => p x = false) pre.
Proof.
  induction l as [|x l IH]; simpl; intros H; [discriminate|].
  destruct (p x) eqn:E.
  - injection H as ->. exists [], l. repeat split; auto.
  - destruct (IH H) as [pre [post [-> [Hr Hpre]]]].
    exists (x :: pre), post. repeat split; auto.
Qed.

Lemma find_nothing {A : Type} (p : A -> bool) (l : list A) :
  find p l = None -> Forall (fun x => p x = false) l.
Proof.
  induction l as [|x l IH]; simpl; intros H; [constructor|].
  destruct (p x) eqn:E; [discriminate|]. constructor; auto.
Qed.

Lemma resolve_image_path_search (BASE_DIR : string) (exists_ : string -> bool)
  (path : option string) :
  resolve_image_path BASE_DIR exists_ path =
  match path with
  | None => None
  | Some hint =>
      if nonempty hint then find exists_ (search_order BASE_DIR hint) else None
  end.
Proof.
  destruct path as [hint|]; [|reflexivity].
  unfold resolve_image_path, search_order.
  destruct (nonempty hint); [|reflexivity]. cbn [negb].
  rewrite first_existing_find. unfold variants.
  destruct (os_path.isabs hint) eqn:Habs; cbn [andb app map find].
  - destruct (exists_ hint) eqn:E1; [reflexivity|].
    destruct (exists_ (os_path.join (ASSETS_DIR BASE_DIR) hint)); reflexivity.
  - destruct (exists_ (os_path.join (ASSETS_DIR BASE_DIR) hint)); reflexivity.
Qed.

Lemma endswith_sep_app (x y : string) :
  y <> "" -> os_path.endswith_sep (x ++ y) = os_path.endswith_sep y.
Proof.
  intros Hy. induction x as [|c x IH]; [reflexivity|].
  cbn [append os_path.endswith_sep].
  destruct (x ++ y) eqn:E.
  - destruct x; simpl in E; [contradiction | discriminate].
  - exact IH.
Qed.

Lemma nonempty_app_r (x y : string) : nonempty y = true -> nonempty (x ++ y) = true.
Proof. destruct x; simpl; auto. Qed.

(** The assets directory is not empty and does not end with a separator,
    so a relative name is joined to it with one. *)
Lemma join_assets (BASE_DIR : string) (n : string) :
  os_path.startswith_sep n = false ->
  os_path.join (ASSETS_DIR BASE_DIR) n = ASSETS_DIR BASE_DIR ++ "/" ++ n.
Proof.
  intros Hn. unfold os_path.join at 1. rewrite Hn.
  assert (nonempty (ASSETS_DIR BASE_DIR) = true
          /\ os_path.endswith_sep (ASSETS_DIR BASE_DIR) = false) as [H1 H2].
  { change (ASSETS_DIR BASE_DIR)
      with (if negb (nonempty BASE_DIR) || os_path.endswith_sep BASE_DIR
            then BASE_DIR ++ "assets" else BASE_DIR ++ "/" ++ "assets").
    destruct (negb (nonempty BASE_DIR) || os_path.endswith_sep BASE_DIR).
    - split; [now apply nonempty_app_r|].
      now rewrite endswith_sep_app by discriminate.
    - split; [now apply nonempty_app_r|].
      now rewrite endswith_sep_app by discriminate. }
  rewrite H1, H2. reflexivity.
Qed.

(** C6. [resolve_image_path] is an ordered first-match search: no hint or
    an empty hint gives none; otherwise the result is the first path that
    exists among the hint itself when it is absolute, then, under the
    assets root, the hint, its stem with [.png], [.jpg], [.jpeg], and the
    hint with an extra [.png]; none when none exists.  For the hint
    "pizza.png", when "pizza.png.png" is the only name that exists in the
    assets root, the result is the path of that file. *)
Theorem resolve_image_path_first_match
  (BASE_DIR : string) (exists_ : string -> bool) :
  resolve_image_path BASE_DIR exists_ None = None
  /\ resolve_image_path BASE_DIR exists_ (Some "") = None
  /\ (forall hint,
         hint <> "" ->
         resolve_image_path BASE_DIR exists_ (Some hint) =
         find exists_ (search_order BASE_DIR hint))
  /\ (forall hint r,
         hint <> "" ->
         resolve_image_path BASE_DIR exists_ (Some hint) = Some r ->
         exists pre post,
           search_order BASE_DIR hint = (pre ++ r :: post)%list
           /\ exists_ r = true
           /\ Forall (fun c => exists_ c = false) pre)
  /\ (forall hint,
         hint <> "" ->
         resolve_image_path BASE_DIR exists_ (Some hint) = None ->
         Forall (fun c => exists_ c = false) (search_order BASE_DIR hint))
  /\ (exists_ (ASSETS_DIR BASE_DIR ++ "/" ++ "pizza.png.png") = true ->
      (forall n, n <> "pizza.png.png" ->
                 exists_ (ASSETS_DIR BASE_DIR ++ "/" ++ n) = false) ->
      resolve_image_path BASE_DIR exists_ (Some "pizza.png") =
      Some (ASSETS_DIR BASE_DIR ++ "/" ++ "pizza.png.png")).
Proof.
  assert (forall hint, hint <> "" ->
            resolve_image_path BASE_DIR exists_ (Some hint) =
            find exists_ (search_order BASE_DIR hint)) as Heq.
  { intros hint Hne. rewrite resolve_image_path_search.
    destruct hint; [contradiction | reflexivity]. }
  split; [reflexivity|]. split; [reflexivity|]. split; [exact Heq|].
  split; [|split].
  - intros hint r Hne H. rewrite (Heq hint Hne) in H. now apply find_first.
  - intros hint Hne H. rewrite (Heq hint Hne) in H. now apply find_nothing.
  - intros Hyes Hno. rewrite Heq by discriminate.
    unfold search_order.
    change (fst (os_path.splitext "pizza.png")) with "pizza".
    change (os_path.isabs "pizza.png") with false.
    cbn [app map]. rewrite !join_assets by reflexivity.
    cbn [append] in Hyes, Hno |- *. cbn [find].
    rewrite (Hno "pizza.png") by discriminate.
    rewrite (Hno "pizza.jpg") by discriminate.
    rewrite (Hno "pizza.jpeg") by discriminate.
    rewrite Hyes. reflexivity.
Qed.

Lemma resolve_image_path_first_match_witness :
  String.eqb "/app/assets/pizza.png.png"
             (ASSETS_DIR "/app" ++ "/" ++ "pizza.png.png") = true
  /\ (forall n, n <> "pizza.png.png" ->
                String.eqb "/app/assets/pizza.png.png"
                           (ASSETS_DIR "/app" ++ "/" ++ n) = false)
  /\ resolve_image_path "/app" (String.eqb "/app/assets/pizza.png.png")
                        (Some "pizza.png") =
     Some (ASSETS_DIR "/app" ++ "/" ++ "pizza.png.png").
Proof.
  assert (String.eqb "/app/assets/pizza.png.png"
                     (ASSETS_DIR "/app" ++ "/" ++ "pizza.png.png") = true) as H1
      by reflexivity.
  assert (forall n, n <> "pizza.png.png" ->
                    String.eqb "/app/assets/pizza.png.png"
                               (ASSETS_DIR "/app" ++ "/" ++ n) = false) as H2.
  { intros n Hn. change (ASSETS_DIR "/app" ++ "/" ++ n) with ("/app/assets/" ++ n).
    apply String.eqb_neq. intros H. apply Hn. simpl in H. congruence. }
  split; [exact H1|]. split; [exact H2|].
  exact (proj2 (proj2 (proj2 (proj2 (proj2
           (resolve_image_path_first_match
              "/app" (String.eqb "/app/assets/pizza.png.png")))))) H1 H2).
Defined.

(** ** Order Ledger: [list_orders] *)

(** *** [ORDER BY] sorts *)

Section OrderBySorted.

Context {A : Type} (le : A -> A -> bool).
Hypothesis le_total : forall a b, le a b = false -> le b a = true.
Hypothesis le_trans : forall a b c, le a b = true -> le b c = true -> le a c = true.

Lemma insert_sorted_sorted (x : A) (l : list A) :
  StronglySorted (fun a b => le a b = true) l ->
  StronglySorted (fun a b => le a b = true) (insert_sorted le x l).
Proof.
  induction l as [|y l IH]; simpl; intros Hs.
  - constructor; constructor.
  - inversion Hs as [|? ? Hl Hy]; subst.
    destruct (le x y) eqn:E.
    + constructor; [exact Hs|]. constructor; [exact E|].
      eapply Forall_impl; [|exact Hy]. intros z Hz. eapply le_trans; eauto.
    + constructor; [apply IH; exact Hl|].
      apply Forall_forall. intros z Hz.
      eapply Permutation_in in Hz;
        [|apply Permutation_sym, insert_sorted_perm].
      destruct Hz as [<-|Hz].
      * now apply le_total.
      * rewrite Forall_forall in Hy. now apply Hy.
Qed.

Lemma order_by_sorted (l : list A) :
  StronglySorted (fun a b => le a b = true) (order_by le l).
Proof.
  induction l as [|x l IH]; simpl.
  - constructor.
  - now apply insert_sorted_sorted.
Qed.

End OrderBySorted.

Lemma strongly_sorted_map {A B : Type} (f : A -> B) (R : B -> B -> Prop)
  (l : list A) :
  StronglySorted (fun a b => R (f a) (f b)) l -> StronglySorted R (map f l).
Proof.
  induction 1 as [|x l Hs IH Hf]; simpl; constructor; auto.
  apply Forall_forall. intros y Hy. apply in_map_iff in Hy.
  destruct Hy as [z [<- Hz]]. rewrite Forall_forall in Hf. now apply Hf.
Qed.

Lemma strongly_sorted_impl {A : Type} (R R' : A -> A -> Prop) (l : list A) :
  (forall a b, R a b -> R' a b) -> StronglySorted R l -> StronglySorted R' l.
Proof.
  intros Himp. induction 1 as [|x l Hs IH Hf]; constructor; auto.
  eapply Forall_impl; [|exact Hf]. intros y. apply Himp.
Qed.

(** *** [LIKE] with a pattern wrapped in [%] *)

Lemma like_percent (p s : string) :
  like (String "%" p) s =
  like p s || match s with
              | EmptyString => false
              | String _ s' => like (String "%" p) s'
              end.
Proof. destruct s; reflexivity. Qed.

Lemma like_char (c : ascii) (p s : string) :
  Ascii.eqb c "%" = false ->
  like (String c p) s =
  match s with
  | EmptyString => false
  | String d s' => (Ascii.eqb c "_" || eq_nocase c d) && like p s'
  end.
Proof. intros H. cbn [like]. rewrite H. reflexivity. Qed.

Lemma like_percent_only (s : string) : like "%" s = true.
Proof.
  induction s as [|c s IH]; rewrite like_percent.
  - reflexivity.
  - rewrite IH. apply orb_true_r.
Qed.

Lemma like_prefix (f s : string) :
  wildcard_free f = true ->
  like (f ++ "%") s = prefix_nocase f s.
Proof.
  revert s. induction f as [|c f IH]; intros s Hf.
  - cbn [append prefix_nocase]. apply like_percent_only.
  - cbn [wildcard_free] in Hf.
    apply andb_prop in Hf. destruct Hf as [Hc Hf].
    apply andb_prop in Hc. destruct Hc as [Hc1 Hc2].
    apply negb_true_iff in Hc1. apply negb_true_iff in Hc2.
    cbn [append]. rewrite like_char by exact Hc1. rewrite Hc2.
    destruct s as [|d s]; [reflexivity|]. cbn [prefix_nocase orb].
    now rewrite IH.
Qed.

Lemma like_anywhere (p s : string) :
  like (String "%" p) s = true <->
  exists pre t, s = pre ++ t /\ like p t = true.
Proof.
  induction s as [|c s IH]; rewrite like_percent.
  - rewrite orb_false_r. split.
    + intros H. exists "", "". auto.
    + intros [pre [t [Hs Ht]]].
      destruct pre; [|discriminate]. simpl in Hs. now subst t.
  - split.
    + intros H. apply orb_prop in H. destruct H as [H|H].
      * exists "", (String c s). auto.
      * apply IH in H. destruct H as [pre [t [-> Ht]]].
        exists (String c pre), t. auto.
    + intros [pre [t [Hs Ht]]]. apply orb_true_iff.
      destruct pre as [|d pre].
      * left. simpl in Hs. now subst t.
      * right. apply IH. simpl in Hs. injection Hs as _ ->. eauto.
Qed.

Lemma prefix_nocase_spec (f s : string) :
  prefix_nocase f s = true <->
  exists mid post, s = mid ++ post /\ fold_case mid = fold_case f.
Proof.
  revert s. induction f as [|c f IH]; intros s.
  - split; [|reflexivity]. intros _. exists "", s. auto.
  - destruct s as [|d s]; cbn [prefix_nocase].
    + split; [discriminate|]. intros [mid [post [Hs Hm]]].
      destruct mid; simpl in Hm; [discriminate|]. discriminate.
    + rewrite andb_true_iff, IH. unfold eq_nocase. rewrite Ascii.eqb_eq.
      split.
      * intros [Hc [mid [post [-> Hm]]]]. exists (String d mid), post.
        cbn [append fold_case]. rewrite Hm, Hc. auto.
      * intros [mid [post [Hs Hm]]].
        destruct mid as [|e mid]; cbn [fold_case] in Hm; [discriminate|].
        cbn [append] in Hs. injection Hs as -> ->. injection Hm as Hc Hm.
        split; [now symmetry | eauto].
Qed.

(** [LIKE '%f%'] for a filter without wildcards: [f] occurs up to ASCII
    case. *)
Lemma like_wrapped (f s : string) :
  wildcard_free f = true ->
  like (wrap_wildcards f) s = true <-> contains_nocase f s.
Proof.
  intros Hf. unfold wrap_wildcards, contains_nocase.
  change ("%" ++ f ++ "%") with (String "%" (f ++ "%")).
  rewrite like_anywhere. split.
  - intros [pre [t [-> Ht]]]. rewrite like_prefix in Ht by exact Hf.
    apply prefix_nocase_spec in Ht. destruct Ht as [mid [post [-> Hm]]].
    eauto.
  - intros [pre [mid [post [-> Hm]]]]. exists pre, (mid ++ post).
    split; [reflexivity|]. rewrite like_prefix by exact Hf.
    apply prefix_nocase_spec. eauto.
Qed.

Lemma selected_accepts (name phone : option string) (o : OrderRow) :
  filter_wildcard_free name = true ->
  filter_wildcard_free phone = true ->
  OrderRepo.selected name phone o = true <->
  accepts name (o_customer_name o)
  /\ accepts phone (Some (ifnull (o_phone o))).
Proof.
  intros Hn Hp. unfold OrderRepo.selected. rewrite andb_true_iff.
  match goal with
  | |- (?a = true /\ ?b = true) <-> (?P /\ ?Q) =>
      assert (a = true <-> P) as H1; [|assert (b = true <-> Q) as H2; [|tauto]]
  end.
  - destruct name as [n|]; cbn [accepts]; [|tauto].
    destruct (nonempty n); [|tauto]. cbn [filter_wildcard_free] in Hn.
    unfold like_nullable. destruct (o_customer_name o) as [s|].
    + rewrite (like_wrapped n s Hn). split.
      * intros H. exists s. auto.
      * intros [s' [Hs H]]. injection Hs as <-. exact H.
    + split; [discriminate|]. intros [s' [Hs _]]. discriminate.
  - destruct phone as [p|]; cbn [accepts]; [|tauto].
    destruct (nonempty p); [|tauto]. cbn [filter_wildcard_free] in Hp.
    rewrite (like_wrapped p _ Hp). split.
    + intros H. eexists. split; [reflexivity | exact H].
    + intros [s' [Hs H]]. injection Hs as <-. exact H.
Qed.

(** C7, as the code has it. [list_orders] returns its rows by descending
    id; the rows are those of the orders that pass the [WHERE] clause, each
    once; and for filters without the wildcards [%] and [_] of [LIKE], an
    order passes exactly when its customer name (resp. its phone, [NULL]
    read as empty) contains the non-empty filter up to the case of ASCII
    letters, both conditions together when both filters are given. *)
Theorem list_orders_sorted_and_filtered
  (db : Database) (name phone : option string) :
  StronglySorted (fun a b => report_id b <= report_id a)
                 (OrderRepo.list_orders db name phone)
  /\ Permutation (OrderRepo.list_orders db name phone)
                 (map OrderRepo.report_row
                      (filter (OrderRepo.selected name phone) (rows (orders db))))
  /\ (filter_wildcard_free name = true ->
      filter_wildcard_free phone = true ->
      forall row,
        In row (OrderRepo.list_orders db name phone) <->
        exists o,
          In o (rows (orders db))
          /\ row = OrderRepo.report_row o
          /\ accepts name (o_customer_name o)
          /\ accepts phone (Some (ifnull (o_phone o)))).
Proof.
  unfold OrderRepo.list_orders. split; [|split].
  - apply strongly_sorted_map.
    apply (strongly_sorted_impl (fun a b => OrderRepo.by_id_desc a b = true)).
    + intros a b H. unfold OrderRepo.by_id_desc in H.
      apply Z.leb_le in H. exact H.
    + apply order_by_sorted.
      * intros a b H. unfold OrderRepo.by_id_desc in *.
        apply Z.leb_gt in H. apply Z.leb_le. lia.
      * intros a b c H1 H2. unfold OrderRepo.by_id_desc in *.
        apply Z.leb_le in H1. apply Z.leb_le in H2. apply Z.leb_le. lia.
  - apply Permutation_map, Permutation_sym, order_by_perm.
  - intros Hn Hp row. rewrite in_map_iff. split.
    + intros [o [<- Ho]]. apply order_by_in in Ho.
      apply filter_In in Ho. destruct Ho as [Hin Hsel].
      apply (selected_accepts name phone o Hn Hp) in Hsel.
      exists o. tauto.
    + intros [o [Hin [-> Hacc]]]. exists o. split; [reflexivity|].
      apply order_by_in. apply filter_In. split; [exact Hin|].
      now apply (selected_accepts name phone o Hn Hp).
Qed.

Lemma list_orders_sorted_and_filtered_witness :
  filter_wildcard_free (Some "ali") = true
  /\ filter_wildcard_free (Some "0300") = true
  /\ forall row,
      In row (OrderRepo.list_orders orders_db (Some "ali") (Some "0300")) <->
      exists o,
        In o (rows (orders orders_db))
        /\ row = OrderRepo.report_row o
        /\ accepts (Some "ali") (o_customer_name o)
        /\ accepts (Some "0300") (Some (ifnull (o_phone o))).
Proof.
  split; [reflexivity|]. split; [reflexivity|].
  exact (proj2 (proj2 (list_orders_sorted_and_filtered
                         orders_db (Some "ali") (Some "0300")))
               eq_refl eq_refl).
Defined.

(** C7, as the claim has it, fails: [LIKE] folds ASCII case, so the filter
    "ali" returns the order of "Ali Khan", whose name does not contain
    "ali" as a case-sensitive substring. *)
Lemma list_orders_filter_ignores_case :
  OrderRepo.list_orders orders_db (Some "ali") None =
  [ (1, "2025-01-01T10:00:00", "Ali Khan", "0300111", 1000) ]
  /\ ~ is_substring "ali" "Ali Khan".
Proof.
  split; [reflexivity|].
  intros [pre [post H]].
  repeat (destruct pre as [|? pre]; cbn in H;
          [discriminate | injection H as _ H]).
  destruct pre; discriminate.
Qed.

(** ** Further checks on the seeded store *)

(** A quantity below 1 is refused by [CHECK(qty >= 1)] at the insert of
    the line; the order row inserted before it is rolled back by [close]. *)
Example create_order_zero_quantity :
  OrderRepo.create_order seeded_db "Ann" "0300" [(1, 0)] "t" =
  (Raise (IntegrityError "CHECK constraint failed: qty >= 1"), seeded_db).
Proof. reflexivity. Qed.

(** Three nights in the room priced 5000 a night. *)
Example create_booking_three_nights :
  let outcome :=
    BookingRepo.create_booking None seeded_db "Ann" "0300" 2
                               "2025-01-10" "2025-01-13" "t" in
  fst outcome = Ok 1
  /\ rows (bookings (snd outcome)) =
     [mkBooking 1 1 2 "2025-01-10" "2025-01-13" 3 15000 "t" "Booked"].
Proof. cbv zeta. split; reflexivity. Qed.

(** A room that does not exist is refused before the customer is
    resolved. *)
Example create_booking_unknown_room :
  BookingRepo.create_booking None seeded_db "Ann" "0300" 9
                             "2025-01-10" "2025-01-13" "t" =
  (Raise (ValueError "Room not found"), seeded_db).
Proof. reflexivity. Qed.

(** * Further properties of the code *)

(** ** [create_order] is all or nothing *)

Lemma price_cart_keeps_file (cart : list (Z * Z)) :
  forall total items c,
    snd (OrderRepo.price_cart cart total items c) = c.
Proof.
  induction cart as [|[item_id qty] cart IH]; intros total items c.
  - reflexivity.
  - simpl. unfold bind, query.
    destruct (OrderRepo.select_price item_id (view c)); [apply IH | reflexivity].
Qed.

Lemma execute_keeps_file {A : Type} (stmt : Database -> result (A * Database))
  (c : Connection) :
  file (snd (execute stmt c)) = file c.
Proof.
  unfold execute. destruct (stmt (view c)) as [[a w]|e]; reflexivity.
Qed.

Lemma insert_lines_keeps_file (order_id : Z) (items : list (Z * Z * Z)) :
  forall c, file (snd (OrderRepo.insert_lines order_id items c)) = file c.
Proof.
  induction items as [|[[i q] l] items IH]; intros c.
  - reflexivity.
  - simpl. unfold bind.
    pose proof (execute_keeps_file
                  (OrderRepo.insert_order_item order_id i q l) c) as He.
    destruct (execute _ c) as [[a|e] c1]; cbn [snd] in *.
    + rewrite IH. exact He.
    + exact He.
Qed.

Lemma create_order_rollback
  (db : Database) (customer_name phone : string) (cart : list (Z * Z))
  (now : string) (e : exn) :
  fst (OrderRepo.create_order db customer_name phone cart now) = Raise e ->
  snd (OrderRepo.create_order db customer_name phone cart now) = db.
Proof.
  unfold OrderRepo.create_order, with_conn, bind.
  pose proof (price_cart_keeps_file cart 0 [] (get_conn db)) as H1.
  destruct (OrderRepo.price_cart cart 0 [] (get_conn db)) as [[priced|e1] c1].
  - cbn [snd] in H1. subst c1.
    pose proof (execute_keeps_file
                  (OrderRepo.insert_order customer_name phone (fst priced) now)
                  (get_conn db)) as H2.
    destruct (execute _ (get_conn db)) as [[order_id|e2] c2]; cbn [snd] in H2.
    + pose proof (insert_lines_keeps_file order_id (snd priced) c2) as H3.
      destruct (OrderRepo.insert_lines order_id (snd priced) c2)
        as [[u|e3] c3]; cbn [snd] in H3.
      * cbn. discriminate.
      * intros _. cbn. unfold close. now rewrite H3, H2.
    + intros _. cbn. unfold close. exact H2.
  - intros _. cbn [snd] in H1. subst c1. reflexivity.
Qed.

(** X1. Whatever the cart, when [create_order] raises, the database is
    the one before the call: neither the order nor any of its lines
    remains, also when a line is refused after the order row and earlier
    lines were inserted. *)
Theorem create_order_all_or_nothing
  (db : Database) (customer_name phone : string) (cart : list (Z * Z))
  (now : string) (e : exn) :
  fst (OrderRepo.create_order db customer_name phone cart now) = Raise e ->
  snd (OrderRepo.create_order db customer_name phone cart now) = db.
Proof. apply create_order_rollback. Qed.

Lemma create_order_all_or_nothing_witness :
  fst (OrderRepo.create_order seeded_db "Ann" "0300" [(1, 2); (6, 0)] "t") =
  Raise (IntegrityError "CHECK constraint failed: qty >= 1")
  /\ snd (OrderRepo.create_order seeded_db "Ann" "0300" [(1, 2); (6, 0)] "t") =
     seeded_db.
Proof.
  assert (fst (OrderRepo.create_order seeded_db "Ann" "0300" [(1, 2); (6, 0)] "t")
          = Raise (IntegrityError "CHECK constraint failed: qty >= 1")) as H
      by reflexivity.
  split; [exact H|].
  exact (create_order_all_or_nothing seeded_db "Ann" "0300" [(1, 2); (6, 0)] "t"
                                     _ H).
Defined.

(** ** [create_order] keeps the store consistent *)

Lemma lines_total (order_id : Z) (lines : list OrderItemRow)
  (items : list (Z * Z * Z)) :
  map line_fields lines =
  map (fun x => (order_id, fst (fst x), snd (fst x), snd x)) items ->
  fold_right Z.add 0 (map oi_line_total lines) =
  fold_right Z.add 0 (map snd items).
Proof.
  revert items. induction lines as [|r lines IH]; intros [|x items] H;
    simpl in H; try discriminate; [reflexivity|].
  injection H as _ _ _ H4 H5. simpl. rewrite H4. f_equal. now apply IH.
Qed.

(** X2. After a successful [create_order] on a store whose order lines
    all reference existing orders, they still do, and the total stored on
    the new order is the sum of the line totals stored for it. *)
Theorem create_order_keeps_totals_consistent
  (db : Database) (customer_name phone : string) (cart : list (Z * Z))
  (now : string) :
  cart_ids_known db cart ->
  cart_quantities_positive cart ->
  order_items_reference_orders db ->
  exists order_id db' o,
    OrderRepo.create_order db customer_name phone cart now = (Ok order_id, db')
    /\ order_items_reference_orders db'
    /\ In o (rows (orders db'))
    /\ o_id o = order_id
    /\ o_total o = stored_lines_total db' order_id.
Proof.
  intros Hk Hq Hfk.
  set (oid := next_rowid o_id (orders db)).
  exists oid, (order_stored db customer_name phone cart now),
         (mkOrder oid (Some customer_name) (Some phone) (cart_total db cart) now).
  split; [apply create_order_ok; assumption|].
  destruct (add_lines_rows oid (cart_lines db cart) (order_items db))
    as [lines [Hr Hm]].
  destruct (lines_of_order _ _ _ Hm) as [Hf Hl].
  split; [|split; [|split]].
  - intros r Hin. unfold order_stored in Hin |- *.
    cbn [set_order_items set_orders order_items orders] in Hin |- *.
    fold oid in Hin |- *. rewrite Hr in Hin. rewrite has_id_append.
    apply in_app_or in Hin. destruct Hin as [Hin|Hin].
    + rewrite (Hfk r Hin). reflexivity.
    + assert (oi_order_id r = oid) as ->.
      { rewrite <- Hf in Hin. apply filter_In in Hin.
        now apply Z.eqb_eq. }
      cbn [o_id]. rewrite Z.eqb_refl. apply orb_true_r.
  - unfold order_stored. cbn [set_order_items set_orders orders append_row rows].
    apply in_or_app. right. now left.
  - reflexivity.
  - cbn [o_total]. unfold stored_lines_total, order_stored.
    cbn [set_order_items set_orders order_items]. fold oid.
    rewrite Hr, filter_app. unfold oid at 1.
    rewrite (no_line_of_fresh_order db Hfk). cbn [app]. fold oid.
    rewrite Hf, (lines_total oid lines (cart_lines db cart) Hm).
    unfold cart_total, cart_lines. now rewrite map_map.
Qed.

Lemma create_order_keeps_totals_consistent_witness :
  exists order_id db' o,
    OrderRepo.create_order seeded_db "Ann" "0300" [(1, 2); (6, 3)] "t" =
    (Ok order_id, db')
    /\ order_items_reference_orders db'
    /\ In o (rows (orders db'))
    /\ o_id o = order_id
    /\ o_total o = stored_lines_total db' order_id.
Proof.
  apply (create_order_keeps_totals_consistent
           seeded_db "Ann" "0300" [(1, 2); (6, 3)] "t").
  - intros e [<-|[<-|[]]]; reflexivity.
  - intros e [<-|[<-|[]]]; simpl; lia.
  - intros r [].
Defined.

(** ** The point of sale: the cart *)

Lemma dict_get_in (c : list (Z * Z)) (k q : Z) :
  dict.get Z.eqb c k = Some q -> In (k, q) c.
Proof.
  induction c as [|[k' v] c IH]; simpl; intros H; [discriminate|].
  destruct (k' =? k) eqn:E.
  - apply Z.eqb_eq in E. injection H as ->. left. now subst.
  - right. now apply IH.
Qed.

Lemma dict_get_none (c : list (Z * Z)) (k : Z) :
  dict.get Z.eqb c k = None -> ~ In k (map fst c).
Proof.
  induction c as [|[k' v] c IH]; simpl; intros H; [tauto|].
  destruct (k' =? k) eqn:E; [discriminate|].
  apply Z.eqb_neq in E. intros [Hk|Hk]; [contradiction|]. now apply IH.
Qed.

Lemma dict_set_keys (c : list (Z * Z)) (k v : Z) :
  map fst (dict.set Z.eqb c k v) =
  match dict.get Z.eqb c k with
  | Some _ => map fst c
  | None => (map fst c ++ [k])%list
  end.
Proof.
  induction c as [|[k' v'] c IH]; simpl; [reflexivity|].
  destruct (k' =? k) eqn:E; simpl; [reflexivity|].
  rewrite IH. now destruct (dict.get Z.eqb c k).
Qed.

Lemma dict_set_in (c : list (Z * Z)) (k v : Z) (e : Z * Z) :
  In e (dict.set Z.eqb c k v) -> In e c \/ e = (k, v).
Proof.
  induction c as [|[k' v'] c IH]; simpl; intros H.
  - destruct H as [<-|[]]. now right.
  - destruct (k' =? k) eqn:E.
    + apply Z.eqb_eq in E. subst k'. destruct H as [<-|H]; auto.
    + destruct H as [<-|H]; auto. destruct (IH H); auto.
Qed.

Lemma dict_pop_in (c : list (Z * Z)) (k : Z) (e : Z * Z) :
  In e (dict.pop Z.eqb c k) -> In e c.
Proof.
  induction c as [|[k' v'] c IH]; simpl; intros H; [contradiction|].
  destruct (k' =? k); [now right|].
  destruct H as [<-|H]; auto.
Qed.

Lemma dict_pop_nodup (c : list (Z * Z)) (k : Z) :
  NoDup (map fst c) -> NoDup (map fst (dict.pop Z.eqb c k)).
Proof.
  induction c as [|[k' v'] c IH]; simpl; intros H; [constructor|].
  inversion H as [|? ? Hn Hc]; subst.
  destruct (k' =? k); [exact Hc|]. simpl. constructor; [|now apply IH].
  intros Hin. apply Hn. apply in_map_iff in Hin.
  destruct Hin as [e [He Hin]]. apply dict_pop_in in Hin.
  apply in_map_iff. eauto.
Qed.

Lemma cart_wf_set (c : list (Z * Z)) (k v : Z) :
  cart_wf c -> 1 <= v -> cart_wf (dict.set Z.eqb c k v).
Proof.
  intros [Hn Hp] Hv. split.
  - rewrite dict_set_keys.
    destruct (dict.get Z.eqb c k) eqn:E; [exact Hn|].
    apply NoDup_app; [exact Hn | repeat constructor; simpl; tauto |].
    intros x Hx [Hk|[]]. subst x. now apply (dict_get_none c k E).
  - apply Forall_forall. intros e He. rewrite Forall_forall in Hp.
    destruct (dict_set_in c k v e He) as [H| ->]; [now apply Hp | exact Hv].
Qed.

Lemma cart_wf_pop (c : list (Z * Z)) (k : Z) :
  cart_wf c -> cart_wf (dict.pop Z.eqb c k).
Proof.
  intros [Hn Hp]. split; [now apply dict_pop_nodup|].
  apply Forall_forall. intros e He. rewrite Forall_forall in Hp.
  apply Hp. eapply dict_pop_in; eauto.
Qed.

Lemma refresh_cart_cart (db : Database) (st : POSFrame.State) :
  POSFrame.cart (POSFrame._refresh_cart db st) = POSFrame.cart st.
Proof.
  unfold POSFrame._refresh_cart.
  destruct (POSFrame.cart_rows db (POSFrame.cart st) 0 false []). reflexivity.
Qed.

Lemma add_selected_wf (db : Database) (st : POSFrame.State) (sel : list Z) :
  cart_wf (POSFrame.cart st) ->
  cart_wf (POSFrame.cart (fst (POSFrame._add_selected db st sel))).
Proof.
  intros Hwf. unfold POSFrame._add_selected. destruct sel as [|k sel].
  - exact Hwf.
  - cbn [fst]. rewrite refresh_cart_cart. cbn [POSFrame.with_cart POSFrame.cart].
    apply cart_wf_set; [exact Hwf|].
    destruct (dict.get Z.eqb (POSFrame.cart st) k) as [q|] eqn:E; [|lia].
    destruct Hwf as [_ Hp]. rewrite Forall_forall in Hp.
    specialize (Hp _ (dict_get_in _ _ _ E)). simpl in Hp. lia.
Qed.

Lemma remove_selected_wf (db : Database) (st : POSFrame.State) (sel : list Z) :
  cart_wf (POSFrame.cart st) ->
  cart_wf (POSFrame.cart (fst (POSFrame._remove_selected db st sel))).
Proof.
  intros Hwf. unfold POSFrame._remove_selected. destruct sel as [|k sel].
  - exact Hwf.
  - cbn [fst]. rewrite refresh_cart_cart. cbn [POSFrame.with_cart POSFrame.cart].
    destruct (dict.get Z.eqb (POSFrame.cart st) k) as [q|]; [|exact Hwf].
    destruct (q - 1 <=? 0) eqn:E.
    + now apply cart_wf_pop.
    + apply cart_wf_set; [exact Hwf|]. apply Z.leb_gt in E. lia.
Qed.

Lemma cart_wf_nil : cart_wf [].
Proof. split; constructor. Qed.

Lemma in_menu_table_has_id (db : Database) (item_id : Z) :
  in_menu_table db item_id -> has_id mi_id (menu_items db) item_id = true.
Proof.
  intros [category [search Hin]]. apply in_map_iff in Hin.
  destruct Hin as [it [<- Hit]]. apply list_items_active in Hit.
  destruct Hit as [r [Hr [_ ->]]]. unfold has_id. apply existsb_exists.
  exists r. split; [exact Hr|]. cbn. apply Z.eqb_refl.
Qed.

Lemma cart_rows_total (db : Database) (items : list (Z * Z)) :
  forall total odd tv,
    snd (POSFrame.cart_rows db items total odd tv) = total + cart_total db items.
Proof.
  induction items as [|[item_id qty] items IH]; intros total odd tv.
  - simpl. unfold cart_total. simpl. lia.
  - simpl. unfold POSFrame.select_name_price.
    unfold cart_total, current_price, OrderRepo.select_price in *. simpl.
    destruct (find _ _) as [m|]; simpl.
    + rewrite IH. lia.
    + rewrite IH. lia.
Qed.

Lemma refresh_cart_total (db : Database) (st : POSFrame.State) :
  POSFrame.total_var (POSFrame._refresh_cart db st) =
  str_of_int (cart_total db (POSFrame.cart st)).
Proof.
  unfold POSFrame._refresh_cart.
  pose proof (cart_rows_total db (POSFrame.cart st) 0 false []) as H.
  destruct (POSFrame.cart_rows db (POSFrame.cart st) 0 false []) as [tv total].
  cbn [snd] in H. cbn. now rewrite H.
Qed.

Lemma clear_cart_state (db : Database) (st : POSFrame.State) :
  POSFrame._clear_cart db st =
  POSFrame.mkState [] [] "0" (POSFrame.name_var st) (POSFrame.phone_var st).
Proof. reflexivity. Qed.

Lemma cart_ids_known_set (db : Database) (c : list (Z * Z)) (k v : Z) :
  cart_ids_known db c ->
  has_id mi_id (menu_items db) k = true ->
  cart_ids_known db (dict.set Z.eqb c k v).
Proof.
  intros Hc Hk e He. destruct (dict_set_in c k v e He) as [H| ->].
  - now apply Hc.
  - exact Hk.
Qed.

Lemma cart_ids_known_menu (db db' : Database) (c : list (Z * Z)) :
  menu_items db' = menu_items db ->
  cart_ids_known db c -> cart_ids_known db' c.
Proof. intros Hm Hc e He. rewrite Hm. now apply Hc. Qed.

Lemma cart_positive_of_wf (c : list (Z * Z)) :
  cart_wf c -> cart_quantities_positive c.
Proof. intros [_ Hp] e He. rewrite Forall_forall in Hp. now apply Hp. Qed.

(** What [_checkout] does with a cart that [create_order] accepts. *)
Lemma checkout_accepted (db : Database) (st : POSFrame.State) (now : string) :
  POSFrame.cart st <> [] ->
  cart_ids_known db (POSFrame.cart st) ->
  cart_quantities_positive (POSFrame.cart st) ->
  POSFrame._checkout db st now =
  (POSFrame.mkState [] [] "0" "" "",
   order_stored db (strip (POSFrame.name_var st)) (strip (POSFrame.phone_var st))
                (POSFrame.cart st) now,
   messagebox.showinfo "Order Saved"
     ("Order #" ++ str_of_int (next_rowid o_id (orders db))
      ++ " placed. Total: PKR " ++ POSFrame.total_var st)).
Proof.
  intros Hne Hk Hq. unfold POSFrame._checkout.
  destruct (POSFrame.cart st) as [|e c] eqn:E; [contradiction|].
  rewrite create_order_ok by assumption. reflexivity.
Qed.

Lemma cart_total_menu (db db' : Database) (c : list (Z * Z)) :
  menu_items db' = menu_items db -> cart_total db' c = cart_total db c.
Proof.
  intros Hm. unfold cart_total, current_price, OrderRepo.select_price.
  now rewrite Hm.
Qed.

Lemma refresh_cart_fresh (db : Database) (st : POSFrame.State) :
  pos_fresh db (POSFrame._refresh_cart db st).
Proof.
  unfold pos_fresh. now rewrite refresh_cart_total, refresh_cart_cart.
Qed.

(** The invariant of a session of the point of sale. *)
Lemma pos_run_invariant (db0 : Database) (actions : list pos_action) :
  forall db st,
    selections_listed db0 actions ->
    menu_items db = menu_items db0 ->
    cart_wf (POSFrame.cart st) ->
    cart_ids_known db (POSFrame.cart st) ->
    pos_fresh db st ->
    cart_wf (POSFrame.cart (fst (pos_run db st actions)))
    /\ cart_ids_known (snd (pos_run db st actions))
                      (POSFrame.cart (fst (pos_run db st actions)))
    /\ menu_items (snd (pos_run db st actions)) = menu_items db0
    /\ pos_fresh (snd (pos_run db st actions)) (fst (pos_run db st actions)).
Proof.
  induction actions as [|a actions IH]; intros db st Hsel Hm Hwf Hk Hf.
  - cbn. auto.
  - destruct a as [sel|sel| |now]; cbn [pos_run selections_listed] in *.
    + destruct Hsel as [Hs Hsel]. apply IH; auto.
      * now apply add_selected_wf.
      * unfold POSFrame._add_selected. destruct sel as [|k sel]; [exact Hk|].
        cbn [fst]. rewrite refresh_cart_cart.
        cbn [POSFrame.with_cart POSFrame.cart].
        apply cart_ids_known_set; [exact Hk|]. rewrite Hm.
        apply in_menu_table_has_id. now inversion Hs.
      * unfold POSFrame._add_selected. destruct sel as [|k sel]; [exact Hf|].
        apply refresh_cart_fresh.
    + apply IH; auto.
      * now apply remove_selected_wf.
      * unfold POSFrame._remove_selected. destruct sel as [|k sel]; [exact Hk|].
        cbn [fst]. rewrite refresh_cart_cart.
        cbn [POSFrame.with_cart POSFrame.cart].
        destruct (dict.get Z.eqb (POSFrame.cart st) k) as [q|] eqn:E;
          [|exact Hk].
        destruct (q - 1 <=? 0).
        -- intros e He. apply Hk. eapply dict_pop_in; eauto.
        -- apply cart_ids_known_set; [exact Hk|].
           apply (Hk (k, q)). now apply dict_get_in.
      * unfold POSFrame._remove_selected. destruct sel as [|k sel]; [exact Hf|].
        apply refresh_cart_fresh.
    + apply IH; auto.
      * rewrite clear_cart_state. apply cart_wf_nil.
      * rewrite clear_cart_state. intros e [].
      * apply refresh_cart_fresh.
    + destruct (POSFrame.cart st) as [|e c] eqn:E.
      * unfold POSFrame._checkout. rewrite E. apply IH; auto.
        -- rewrite E. apply cart_wf_nil.
        -- rewrite E. intros x [].
      * rewrite <- E in Hwf, Hk.
        rewrite checkout_accepted;
          [|rewrite E; discriminate | exact Hk | now apply cart_positive_of_wf].
        apply IH; auto.
        -- apply cart_wf_nil.
        -- intros x [].
        -- reflexivity.
Qed.

Lemma pos_initial_invariant (db : Database) :
  cart_wf (POSFrame.cart pos_initial)
  /\ cart_ids_known db (POSFrame.cart pos_initial)
  /\ pos_fresh db pos_initial.
Proof.
  split; [apply cart_wf_nil|]. split; [intros e []|reflexivity].
Qed.

(** X3. In a session that starts with the empty cart and in which items
    are added from the rows of the menu table, the cart always has
    distinct item ids, quantities of at least 1 and ids that exist in
    [menu_items], whatever is added, removed, cleared or checked out. *)
Theorem pos_session_keeps_cart_valid (db : Database) (actions : list pos_action) :
  selections_listed db actions ->
  cart_wf (POSFrame.cart (fst (pos_run db pos_initial actions)))
  /\ cart_ids_known (snd (pos_run db pos_initial actions))
                    (POSFrame.cart (fst (pos_run db pos_initial actions))).
Proof.
  intros Hsel. destruct (pos_initial_invariant db) as [H1 [H2 H3]].
  destruct (pos_run_invariant db actions db pos_initial Hsel eq_refl H1 H2 H3)
    as [Ha [Hb _]].
  split; assumption.
Qed.

(** X4. At the end of such a session a checkout of a non-empty cart
    always saves the order: the order row stored carries the total over
    the cart of price times quantity, the message shows that same total,
    and the cart and the two fields are emptied. *)
Theorem pos_checkout_saves_shown_total
  (db : Database) (actions : list pos_action) (now : string) :
  selections_listed db actions ->
  let st := fst (pos_run db pos_initial actions) in
  let db1 := snd (pos_run db pos_initial actions) in
  POSFrame.cart st <> [] ->
  exists order_id db2,
    POSFrame._checkout db1 st now =
    (POSFrame.mkState [] [] "0" "" "", db2,
     messagebox.showinfo "Order Saved"
       ("Order #" ++ str_of_int order_id ++ " placed. Total: PKR "
        ++ str_of_int (cart_total db1 (POSFrame.cart st))))
    /\ In (mkOrder order_id (Some (strip (POSFrame.name_var st)))
                   (Some (strip (POSFrame.phone_var st)))
                   (cart_total db1 (POSFrame.cart st)) now)
          (rows (orders db2)).
Proof.
  intros Hsel st db1 Hne. destruct (pos_initial_invariant db) as [H1 [H2 H3]].
  destruct (pos_run_invariant db actions db pos_initial Hsel eq_refl H1 H2 H3)
    as [Ha [Hb [_ Hd]]].
  fold st in Ha, Hb, Hd. fold db1 in Hb, Hd.
  exists (next_rowid o_id (orders db1)),
         (order_stored db1 (strip (POSFrame.name_var st))
                       (strip (POSFrame.phone_var st)) (POSFrame.cart st) now).
  split.
  - rewrite checkout_accepted;
      [|exact Hne | exact Hb | now apply cart_positive_of_wf].
    unfold pos_fresh in Hd. now rewrite Hd.
  - unfold order_stored. cbn [set_order_items set_orders orders append_row rows].
    apply in_or_app. right. now left.
Qed.

Lemma sample_session_listed : selections_listed seeded_db sample_session.
Proof.
  assert (forall k, In k [1; 6] -> in_menu_table seeded_db k) as H.
  { intros k Hk. exists None, "". vm_compute.
    destruct Hk as [<-|[<-|[]]]; auto 10. }
  cbn. repeat split; try (constructor; [apply H; simpl; auto | constructor]).
Qed.

Lemma pos_session_keeps_cart_valid_witness :
  selections_listed seeded_db sample_session
  /\ cart_wf (POSFrame.cart (fst (pos_run seeded_db pos_initial sample_session)))
  /\ cart_ids_known (snd (pos_run seeded_db pos_initial sample_session))
       (POSFrame.cart (fst (pos_run seeded_db pos_initial sample_session))).
Proof.
  split; [exact sample_session_listed|].
  exact (pos_session_keeps_cart_valid seeded_db sample_session
                                      sample_session_listed).
Defined.

Lemma pos_checkout_saves_shown_total_witness :
  exists order_id db2,
    POSFrame._checkout (snd (pos_run seeded_db pos_initial sample_session))
                       (fst (pos_run seeded_db pos_initial sample_session)) "t" =
    (POSFrame.mkState [] [] "0" "" "", db2,
     messagebox.showinfo "Order Saved"
       ("Order #" ++ str_of_int order_id ++ " placed. Total: PKR "
        ++ str_of_int
             (cart_total (snd (pos_run seeded_db pos_initial sample_session))
                (POSFrame.cart
                   (fst (pos_run seeded_db pos_initial sample_session))))))
    /\ In (mkOrder order_id
             (Some (strip (POSFrame.name_var
                             (fst (pos_run seeded_db pos_initial sample_session)))))
             (Some (strip (POSFrame.phone_var
                             (fst (pos_run seeded_db pos_initial sample_session)))))
             (cart_total (snd (pos_run seeded_db pos_initial sample_session))
                (POSFrame.cart
                   (fst (pos_run seeded_db pos_initial sample_session))))
             "t")
          (rows (orders db2)).
Proof.
  apply (pos_checkout_saves_shown_total seeded_db sample_session "t"
                                        sample_session_listed).
  vm_compute. discriminate.
Defined.

Lemma dict_get_set (c : list (Z * Z)) (k v : Z) :
  dict.get Z.eqb (dict.set Z.eqb c k v) k = Some v.
Proof.
  induction c as [|[k' v'] c IH]; cbn [dict.get dict.set].
  - now rewrite Z.eqb_refl.
  - destruct (k' =? k) eqn:E; cbn [dict.get]; rewrite E; [reflexivity | exact IH].
Qed.

Lemma dict_set_set_back (c : list (Z * Z)) (k v q : Z) :
  dict.get Z.eqb c k = Some q ->
  dict.set Z.eqb (dict.set Z.eqb c k v) k q = c.
Proof.
  induction c as [|[k' v'] c IH]; cbn [dict.get dict.set]; intros H.
  - discriminate.
  - destruct (k' =? k) eqn:E; cbn [dict.set]; rewrite E.
    + now injection H as ->.
    + now rewrite IH.
Qed.

Lemma dict_pop_set_new (c : list (Z * Z)) (k v : Z) :
  dict.get Z.eqb c k = None ->
  dict.pop Z.eqb (dict.set Z.eqb c k v) k = c.
Proof.
  induction c as [|[k' v'] c IH]; cbn [dict.get dict.set dict.pop]; intros H.
  - now rewrite Z.eqb_refl.
  - destruct (k' =? k) eqn:E; [discriminate|]. cbn [dict.pop]. rewrite E.
    now rewrite IH.
Qed.

(** X5. Adding an item and then removing it gives back the cart: a new
    item disappears again, an item already in the cart returns to its
    quantity and keeps its place. *)
Theorem pos_add_then_remove (db : Database) (st : POSFrame.State) (item_id : Z) :
  cart_quantities_positive (POSFrame.cart st) ->
  POSFrame.cart
    (fst (POSFrame._remove_selected db
            (fst (POSFrame._add_selected db st [item_id])) [item_id])) =
  POSFrame.cart st.
Proof.
  intros Hq. unfold POSFrame._remove_selected, POSFrame._add_selected.
  cbn [fst]. rewrite !refresh_cart_cart.
  cbn [POSFrame.with_cart POSFrame.cart]. rewrite dict_get_set.
  destruct (dict.get Z.eqb (POSFrame.cart st) item_id) as [q|] eqn:G.
  - assert (1 <= q) as Hv.
    { apply (Hq (item_id, q)). now apply dict_get_in. }
    replace (q + 1 - 1) with q by lia.
    destruct (q <=? 0) eqn:E2; [apply Z.leb_le in E2; lia|].
    now apply dict_set_set_back.
  - cbn. now apply dict_pop_set_new.
Qed.

Lemma pos_add_then_remove_witness :
  cart_quantities_positive [(1, 2); (6, 1)]
  /\ POSFrame.cart
       (fst (POSFrame._remove_selected seeded_db
               (fst (POSFrame._add_selected seeded_db
                       (POSFrame.mkState [(1, 2); (6, 1)] [] "0" "" "") [6]))
               [6])) =
     [(1, 2); (6, 1)].
Proof.
  assert (cart_quantities_positive [(1, 2); (6, 1)]) as H
      by (intros e [<-|[<-|[]]]; simpl; lia).
  split; [exact H|].
  exact (pos_add_then_remove seeded_db
           (POSFrame.mkState [(1, 2); (6, 1)] [] "0" "" "") 6 H).
Defined.

(** X6. [_checkout] never stores an order for an empty cart (it warns and
    calls nothing), and when [create_order] raises it reports the error
    and leaves the cart, the fields and the database as they were. *)
Theorem pos_checkout_writes_nothing_on_failure
  (db : Database) (st : POSFrame.State) (now : string) :
  (POSFrame.cart st = [] ->
   POSFrame._checkout db st now =
   (st, db, messagebox.showwarning "Empty cart" "Add items before checkout."))
  /\ (forall e,
        POSFrame.cart st <> [] ->
        fst (OrderRepo.create_order db (strip (POSFrame.name_var st))
               (strip (POSFrame.phone_var st)) (POSFrame.cart st) now) = Raise e ->
        POSFrame._checkout db st now =
        (st, db, messagebox.showerror "Checkout failed" (exn_message e))).
Proof.
  split.
  - intros H. unfold POSFrame._checkout. now rewrite H.
  - intros e Hne Hr. unfold POSFrame._checkout.
    destruct (POSFrame.cart st) as [|x c] eqn:E; [contradiction|].
    pose proof (create_order_rollback db (strip (POSFrame.name_var st))
                  (strip (POSFrame.phone_var st)) (x :: c) now e Hr) as Hdb.
    destruct (OrderRepo.create_order db (strip (POSFrame.name_var st))
                (strip (POSFrame.phone_var st)) (x :: c) now) as [r db'].
    cbn [fst snd] in Hr, Hdb. subst r db'. reflexivity.
Qed.

Lemma pos_checkout_writes_nothing_on_failure_witness :
  POSFrame.cart (POSFrame.mkState [(42, 1)] [] "0" "Ann" "0300") <> []
  /\ POSFrame._checkout seeded_db
       (POSFrame.mkState [(42, 1)] [] "0" "Ann" "0300") "t" =
     (POSFrame.mkState [(42, 1)] [] "0" "Ann" "0300", seeded_db,
      messagebox.showerror "Checkout failed"
        (exn_message (ValueError "Menu item id 42 not found"))).
Proof.
  assert (POSFrame.cart (POSFrame.mkState [(42, 1)] [] "0" "Ann" "0300") <> [])
    as H by discriminate.
  split; [exact H|].
  exact (proj2 (pos_checkout_writes_nothing_on_failure seeded_db
                  (POSFrame.mkState [(42, 1)] [] "0" "Ann" "0300") "t")
               (ValueError "Menu item id 42 not found") H eq_refl).
Defined.

(** ** Customers, tickets and bookings *)

Lemma has_id_false_not_in {A : Type} (id : A -> Z) (t : Table A) (k : Z) :
  has_id id t k = false -> ~ In k (map id (rows t)).
Proof.
  unfold has_id. intros H Hin. apply in_map_iff in Hin.
  destruct Hin as [r [Hr Hin]].
  assert (existsb (fun r => id r =? k) (rows t) = true) as H'.
  { apply existsb_exists. exists r. split; [exact Hin|]. now apply Z.eqb_eq. }
  congruence.
Qed.

Lemma has_id_of_in {A : Type} (id : A -> Z) (t : Table A) (r : A) :
  In r (rows t) -> has_id id t (id r) = true.
Proof.
  intros H. unfold has_id. apply existsb_exists. exists r.
  split; [exact H | apply Z.eqb_refl].
Qed.

Lemma nodup_snoc {A : Type} (l : list A) (x : A) :
  NoDup l -> ~ In x l -> NoDup (l ++ [x]).
Proof.
  intros Hl Hx. apply NoDup_app; [exact Hl | repeat constructor; simpl; tauto |].
  intros a Ha [Hk|[]]. now subst a.
Qed.

Lemma no_match_no_key (name phone : string) (l : list CustomerRow) :
  find (CustomerRepo.matches name phone) l = None ->
  ~ In (name, phone) (map customer_key l).
Proof.
  induction l as [|c l IH]; simpl; intros H; [tauto|].
  destruct (CustomerRepo.matches name phone c) eqn:E; [discriminate|].
  intros [Hk|Hin]; [|now apply IH].
  unfold customer_key in Hk. injection Hk as H1 H2.
  unfold CustomerRepo.matches in E. rewrite H1, H2, !String.eqb_refl in E.
  discriminate.
Qed.

Lemma ensure_customer_distinct
  (db : Database) (name phone email : string) :
  customers_distinct db ->
  customers_distinct (snd (CustomerRepo.ensure_customer db name phone email)).
Proof.
  intros [Hid Hkey]. rewrite ensure_customer_cases.
  unfold CustomerRepo.select_id.
  destruct (find (CustomerRepo.matches name phone) (rows (customers db)))
    as [c|] eqn:E; cbn [option_map snd].
  - split; assumption.
  - unfold customers_distinct.
    cbn [set_customers customers append_row rows]. rewrite !map_app.
    cbn [map]. split.
    + apply nodup_snoc; [exact Hid|].
      apply has_id_false_not_in. apply next_rowid_fresh.
    + apply nodup_snoc; [exact Hkey|].
      unfold new_customer, customer_key. cbn [c_name c_phone ifnull].
      now apply no_match_no_key.
Qed.

(** X7. [ensure_customer] keeps the customers distinct: after it, as
    before, no two rows share an id and no two rows share the pair of name
    and phone ([NULL] read as empty) by which customers are looked up. *)
Theorem ensure_customer_keeps_customers_distinct
  (db : Database) (name phone email : string) :
  customers_distinct db ->
  customers_distinct (snd (CustomerRepo.ensure_customer db name phone email)).
Proof. apply ensure_customer_distinct. Qed.

Lemma ensure_customer_keeps_customers_distinct_witness :
  customers_distinct seeded_db
  /\ customers_distinct
       (snd (CustomerRepo.ensure_customer seeded_db "Ann" "0300" "")).
Proof.
  assert (customers_distinct seeded_db) as H by (split; constructor).
  split; [exact H|].
  exact (ensure_customer_keeps_customers_distinct seeded_db "Ann" "0300" "" H).
Defined.

(** The id that [ensure_customer] returns is the id of a customer row of
    the store it leaves. *)
Lemma ensure_customer_returns_row (db : Database) (name phone email : string) :
  exists cust_id,
    fst (CustomerRepo.ensure_customer db name phone email) = Ok cust_id
    /\ has_id c_id
         (customers (snd (CustomerRepo.ensure_customer db name phone email)))
         cust_id = true.
Proof.
  rewrite ensure_customer_cases. unfold CustomerRepo.select_id.
  destruct (find (CustomerRepo.matches name phone) (rows (customers db)))
    as [c|] eqn:E; cbn [option_map fst snd].
  - exists (c_id c). split; [reflexivity|].
    apply has_id_of_in. eapply find_some; eauto.
  - exists (next_rowid c_id (customers db)). split; [reflexivity|].
    cbn [set_customers customers]. rewrite has_id_append.
    unfold new_customer. cbn [c_id]. rewrite Z.eqb_refl. apply orb_true_r.
Qed.

(** What [create_ticket] returns and leaves. *)
Lemma create_ticket_result
  (db : Database) (name phone category subject message now : string) :
  exists cust_id,
    fst (CustomerRepo.ensure_customer db name phone "") = Ok cust_id
    /\ TicketRepo.create_ticket db name phone category subject message now =
       (let db1 := snd (CustomerRepo.ensure_customer db name phone "") in
        let ticket_id := next_rowid t_id (tickets db1) in
        (Ok ticket_id,
         set_tickets db1
           (append_row (tickets db1) ticket_id
              (mkTicket ticket_id (Some cust_id) (Some category) subject
                        (Some message) "Open" now)))).
Proof.
  destruct (ensure_customer_returns_row db name phone "") as [cid [H1 H2]].
  exists cid. split; [exact H1|].
  unfold TicketRepo.create_ticket.
  destruct (CustomerRepo.ensure_customer db name phone "") as [r db1].
  cbn [fst snd] in *. subst r.
  unfold with_conn, bind, execute, TicketRepo.insert_ticket.
  cbn [view get_conn txn file]. rewrite H2. reflexivity.
Qed.

Lemma ensure_customer_other_tables (db : Database) (name phone email : string) :
  let db1 := snd (CustomerRepo.ensure_customer db name phone email) in
  menu_items db1 = menu_items db /\ orders db1 = orders db
  /\ order_items db1 = order_items db /\ rooms db1 = rooms db
  /\ bookings db1 = bookings db /\ tickets db1 = tickets db.
Proof.
  cbv zeta. rewrite ensure_customer_cases.
  destruct (CustomerRepo.select_id name phone db); cbn; auto 10.
Qed.

(** After [ensure_customer] the lookup finds the id it returned. *)
Lemma select_id_after_ensure (db : Database) (name phone email : string) :
  exists cust_id,
    fst (CustomerRepo.ensure_customer db name phone email) = Ok cust_id
    /\ CustomerRepo.select_id name phone
         (snd (CustomerRepo.ensure_customer db name phone email)) = Some cust_id.
Proof.
  rewrite ensure_customer_cases.
  destruct (CustomerRepo.select_id name phone db) as [found|] eqn:E;
    cbn [fst snd].
  - exists found. auto.
  - exists (next_rowid c_id (customers db)). split; [reflexivity|].
    now apply select_id_after_insert.
Qed.

(** X8. No arguments make [TicketRepo.create_ticket] raise (no constraint
    of the schema can refuse its statements): it returns the id of a new
    ticket, appended to [tickets] with status "Open", the given category,
    subject and message, and the id of the customer that [ensure_customer]
    gives for the name and phone; the other tables are as
    [ensure_customer] left them. *)
Theorem create_ticket_always_stores
  (db : Database) (name phone category subject message now : string) :
  exists ticket_id cust_id db',
    TicketRepo.create_ticket db name phone category subject message now =
    (Ok ticket_id, db')
    /\ fst (CustomerRepo.ensure_customer db name phone "") = Ok cust_id
    /\ rows (tickets db') =
       (rows (tickets db)
        ++ [mkTicket ticket_id (Some cust_id) (Some category) subject
                     (Some message) "Open" now])%list
    /\ has_id c_id (customers db') cust_id = true
    /\ customers db' =
       customers (snd (CustomerRepo.ensure_customer db name phone ""))
    /\ orders db' = orders db /\ order_items db' = order_items db
    /\ bookings db' = bookings db.
Proof.
  destruct (create_ticket_result db name phone category subject message now)
    as [cid [H1 H2]].
  destruct (ensure_customer_returns_row db name phone "") as [cid' [H1' H3]].
  assert (cid' = cid) by congruence. subst cid'.
  destruct (ensure_customer_other_tables db name phone "")
    as [_ [Ho [Hoi [_ [Hb Ht]]]]].
  cbv zeta in H2.
  set (db1 := snd (CustomerRepo.ensure_customer db name phone "")) in *.
  do 3 eexists. split; [exact H2|]. split; [exact H1|].
  cbn [set_tickets tickets customers orders order_items bookings
       append_row rows].
  rewrite Ht. auto 10.
Qed.

(** X9. Two tickets created for the same name and phone reference the
    same customer, and the second call adds no customer row. *)
Theorem create_ticket_twice_one_customer
  (db : Database) (name phone : string)
  (category subject message now category' subject' message' now' : string) :
  let first :=
    TicketRepo.create_ticket db name phone category subject message now in
  let second :=
    TicketRepo.create_ticket (snd first) name phone category' subject'
                             message' now' in
  exists t1 t2 cust_id,
    fst first = Ok t1 /\ fst second = Ok t2
    /\ customers (snd second) = customers (snd first)
    /\ rows (tickets (snd second)) =
       (rows (tickets db)
        ++ [ mkTicket t1 (Some cust_id) (Some category) subject
                      (Some message) "Open" now;
             mkTicket t2 (Some cust_id) (Some category') subject'
                      (Some message') "Open" now' ])%list.
Proof.
  cbv zeta.
  destruct (create_ticket_result db name phone category subject message now)
    as [cid [H1 H2]].
  rewrite H2. cbv zeta. cbn [fst snd].
  destruct (select_id_after_ensure db name phone "") as [cid' [H1' Hs]].
  assert (cid' = cid) by congruence. subst cid'.
  destruct (ensure_customer_other_tables db name phone "")
    as [_ [_ [_ [_ [_ Ht]]]]]. cbv zeta in Ht.
  set (db1 := snd (CustomerRepo.ensure_customer db name phone "")) in *.
  set (t1 := next_rowid t_id (tickets db1)).
  set (dbA := set_tickets db1 _).
  assert (CustomerRepo.ensure_customer dbA name phone "" = (Ok cid, dbA)) as He.
  { rewrite ensure_customer_cases.
    change (CustomerRepo.select_id name phone dbA)
      with (CustomerRepo.select_id name phone db1).
    now rewrite Hs. }
  destruct (create_ticket_result dbA name phone category' subject' message' now')
    as [cid2 [H3 H4]].
  rewrite H4. cbv zeta. rewrite He in H3 |- *. cbn [fst snd] in *.
  assert (cid2 = cid) by congruence. subst cid2.
  exists t1, (next_rowid t_id (tickets dbA)), cid.
  repeat split.
  subst dbA. cbn [set_tickets tickets append_row rows].
  rewrite <- app_assoc. cbn [app]. now rewrite Ht.
Qed.

Lemma select_price_per_night_room (db : Database) (room_id price : Z) :
  BookingRepo.select_price_per_night room_id db = Some price ->
  has_id r_id (rooms db) room_id = true.
Proof.
  unfold BookingRepo.select_price_per_night. intros H.
  destruct (find (fun r => r_id r =? room_id) (rows (rooms db))) as [r|] eqn:E;
    [|discriminate].
  destruct (find_some _ _ E) as [Hin Hid]. apply Z.eqb_eq in Hid. subst room_id.
  now apply has_id_of_in.
Qed.

(** What [create_booking] returns and leaves when the dates are valid, the
    room exists and the store executes the insert. *)
Lemma create_booking_result
  (db : Database) (customer_name phone : string) (room_id : Z)
  (check_in check_out now : string) (d1 d2 : date.t) (price : Z) :
  date.fromisoformat check_in = Ok d1 ->
  date.fromisoformat check_out = Ok d2 ->
  0 < date.days_between d1 d2 ->
  BookingRepo.select_price_per_night room_id db = Some price ->
  exists cust_id,
    fst (CustomerRepo.ensure_customer db customer_name phone "") = Ok cust_id
    /\ BookingRepo.create_booking None db customer_name phone room_id
                                  check_in check_out now =
       (let db1 := snd (CustomerRepo.ensure_customer db customer_name phone "") in
        let booking_id := next_rowid b_id (bookings db1) in
        (Ok booking_id,
         set_bookings db1
           (append_row (bookings db1) booking_id
              (mkBooking booking_id cust_id room_id check_in check_out
                         (date.days_between d1 d2)
                         (price * date.days_between d1 d2) now "Booked")))).
Proof.
  intros H1 H2 Hn Hp.
  destruct (ensure_customer_returns_row db customer_name phone "")
    as [cid [Hc1 Hc2]].
  destruct (ensure_customer_other_tables db customer_name phone "")
    as [_ [_ [_ [Hr _]]]]. cbv zeta in Hr.
  exists cid. split; [exact Hc1|].
  unfold BookingRepo.create_booking. rewrite H1, H2.
  apply Z.leb_gt in Hn. rewrite Hn.
  unfold with_conn, bind, query, call. cbn [view get_conn txn file].
  rewrite Hp. cbn [file get_conn txn].
  destruct (CustomerRepo.ensure_customer db customer_name phone "") as [r db1].
  cbn [fst snd] in *. subst r.
  unfold execute, BookingRepo.insert_booking. cbn [view txn file].
  rewrite Hc2, Hr, (select_price_per_night_room db room_id price Hp).
  reflexivity.
Qed.

(** X10. With dates that parse, check-out after check-in, a room that
    exists and a store that executes the insert, [create_booking] returns
    the id of a new booking whose nights are the days between the two
    dates, whose total is the nightly price times the nights, whose status
    is "Booked" and whose customer is the one [ensure_customer] gives. *)
Theorem create_booking_stores_nights_and_total
  (db : Database) (customer_name phone : string) (room_id : Z)
  (check_in check_out now : string) (d1 d2 : date.t) (price : Z) :
  date.fromisoformat check_in = Ok d1 ->
  date.fromisoformat check_out = Ok d2 ->
  0 < date.days_between d1 d2 ->
  BookingRepo.select_price_per_night room_id db = Some price ->
  exists booking_id cust_id db',
    BookingRepo.create_booking None db customer_name phone room_id
                               check_in check_out now = (Ok booking_id, db')
    /\ fst (CustomerRepo.ensure_customer db customer_name phone "") = Ok cust_id
    /\ rows (bookings db') =
       (rows (bookings db)
        ++ [mkBooking booking_id cust_id room_id check_in check_out
                      (date.days_between d1 d2)
                      (price * date.days_between d1 d2) now "Booked"])%list
    /\ customers db' =
       customers (snd (CustomerRepo.ensure_customer db customer_name phone ""))
    /\ rooms db' = rooms db.
Proof.
  intros H1 H2 Hn Hp.
  destruct (create_booking_result db customer_name phone room_id check_in
              check_out now d1 d2 price H1 H2 Hn Hp) as [cid [Hc Hb]].
  destruct (ensure_customer_other_tables db customer_name phone "")
    as [_ [_ [_ [Hr [Hbk _]]]]]. cbv zeta in Hr, Hbk, Hb.
  do 3 eexists. split; [exact Hb|]. split; [exact Hc|].
  cbn [set_bookings bookings customers rooms append_row rows].
  rewrite Hbk. auto.
Qed.

Lemma create_booking_stores_nights_and_total_witness :
  exists booking_id cust_id db',
    BookingRepo.create_booking None seeded_db "Ann" "0300" 2
                               "2025-01-10" "2025-01-13" "t" = (Ok booking_id, db')
    /\ fst (CustomerRepo.ensure_customer seeded_db "Ann" "0300" "") = Ok cust_id
    /\ rows (bookings db') =
       (rows (bookings seeded_db)
        ++ [mkBooking booking_id cust_id 2 "2025-01-10" "2025-01-13"
                      (date.days_between (date.mk 2025 1 10) (date.mk 2025 1 13))
                      (5000 * date.days_between (date.mk 2025 1 10)
                                                (date.mk 2025 1 13))
                      "t" "Booked"])%list
    /\ customers db' =
       customers (snd (CustomerRepo.ensure_customer seeded_db "Ann" "0300" ""))
    /\ rooms db' = rooms seeded_db.
Proof.
  apply (create_booking_stores_nights_and_total seeded_db "Ann" "0300" 2
           "2025-01-10" "2025-01-13" "t"
           (date.mk 2025 1 10) (date.mk 2025 1 13) 5000).
  - reflexivity.
  - reflexivity.
  - vm_compute. reflexivity.
  - reflexivity.
Defined.



(** ** The listings of bookings and tickets *)

Lemma filter_by_key_absent {A : Type} (id : A -> Z) (l : list A) (k : Z) :
  ~ In k (map id l) -> filter (fun x => id x =? k) l = [].
Proof.
  induction l as [|x l IH]; simpl; intros H; [reflexivity|].
  destruct (id x =? k) eqn:E.
  - apply Z.eqb_eq in E. exfalso. apply H. now left.
  - apply IH. intros Hin. apply H. now right.
Qed.

Lemma filter_by_key_in {A : Type} (id : A -> Z) (l : list A) (r : A) :
  NoDup (map id l) -> In r l ->
  filter (fun x => id x =? id r) l = [r].
Proof.
  induction l as [|x l IH]; simpl; intros Hnd Hin; [contradiction|].
  inversion Hnd as [|? ? Hx Hl]; subst.
  destruct Hin as [->|Hin].
  - rewrite Z.eqb_refl. f_equal. now apply filter_by_key_absent.
  - destruct (id x =? id r) eqn:E.
    + apply Z.eqb_eq in E. exfalso. apply Hx. rewrite E. now apply in_map.
    + now apply IH.
Qed.

Lemma filter_by_key_short {A : Type} (id : A -> Z) (l : list A) (k : Z) :
  NoDup (map id l) ->
  filter (fun x => id x =? k) l = []
  \/ exists r, In r l /\ filter (fun x => id x =? k) l = [r].
Proof.
  intros Hnd.
  destruct (filter (fun x => id x =? k) l) as [|r rest] eqn:E; [now left|].
  right. exists r.
  assert (In r (filter (fun x => id x =? k) l)) as Hin by (rewrite E; now left).
  apply filter_In in Hin. destruct Hin as [Hin Hk]. apply Z.eqb_eq in Hk.
  subst k. split; [exact Hin|].
  rewrite <- E. now apply filter_by_key_in.
Qed.

Lemma has_id_in {A : Type} (id : A -> Z) (t : Table A) (k : Z) :
  has_id id t k = true -> exists r, In r (rows t) /\ id r = k.
Proof.
  unfold has_id. intros H. apply existsb_exists in H.
  destruct H as [r [Hin Hk]]. apply Z.eqb_eq in Hk. eauto.
Qed.

(** Under integrity the join has one row per booking, in table order. *)
Lemma bookings_joined_ids (db : Database) :
  bookings_integrity db ->
  map (fun x => b_id (fst (fst x))) (BookingRepo.joined db) =
  map b_id (rows (bookings db)).
Proof.
  intros [Hc [Hr Hfk]]. unfold BookingRepo.joined.
  induction (rows (bookings db)) as [|b l IH]; [reflexivity|].
  cbn [flat_map map]. rewrite map_app, IH
    by (intros b' Hb'; apply Hfk; now right).
  destruct (Hfk b (or_introl eq_refl)) as [H1 H2].
  apply has_id_in in H1. destruct H1 as [c [Hcin Hcid]].
  apply has_id_in in H2. destruct H2 as [r [Hrin Hrid]].
  rewrite <- Hcid, <- Hrid.
  rewrite (filter_by_key_in c_id _ c Hc Hcin).
  cbn [flat_map]. rewrite (filter_by_key_in r_id _ r Hr Hrin).
  reflexivity.
Qed.

Lemma booking_listed_id_row (x : BookingRow * CustomerRow * RoomRow) :
  booking_listed_id (BookingRepo.listed_row x) = b_id (fst (fst x)).
Proof. destruct x as [[b c] r]. reflexivity. Qed.

(** X12. In a store where customer and room ids are distinct keys and
    every booking references an existing customer and room,
    [list_bookings] shows every booking exactly once, by descending id. *)
Theorem list_bookings_each_booking_once (db : Database) :
  bookings_integrity db ->
  Permutation (map booking_listed_id (BookingRepo.list_bookings db))
              (map b_id (rows (bookings db)))
  /\ StronglySorted (fun a b => b <= a)
                    (map booking_listed_id (BookingRepo.list_bookings db)).
Proof.
  intros Hi. unfold BookingRepo.list_bookings. rewrite map_map.
  rewrite (map_ext _ (fun x => b_id (fst (fst x))) booking_listed_id_row).
  split.
  - rewrite <- (bookings_joined_ids db Hi).
    apply Permutation_map, Permutation_sym, order_by_perm.
  - apply strongly_sorted_map.
    apply (strongly_sorted_impl (fun a b => BookingRepo.by_id_desc a b = true)).
    + intros a b H. unfold BookingRepo.by_id_desc in H. now apply Z.leb_le.
    + apply order_by_sorted.
      * intros a b H. unfold BookingRepo.by_id_desc in *.
        apply Z.leb_gt in H. apply Z.leb_le. lia.
      * intros a b c H1 H2. unfold BookingRepo.by_id_desc in *.
        apply Z.leb_le in H1. apply Z.leb_le in H2. apply Z.leb_le. lia.
Qed.

Lemma list_bookings_each_booking_once_witness :
  Permutation
    (map booking_listed_id
         (BookingRepo.list_bookings
            (snd (BookingRepo.create_booking None seeded_db "Ann" "0300" 2
                    "2025-01-10" "2025-01-13" "t"))))
    (map b_id
         (rows (bookings
                  (snd (BookingRepo.create_booking None seeded_db "Ann" "0300" 2
                          "2025-01-10" "2025-01-13" "t")))))
  /\ StronglySorted (fun a b => b <= a)
       (map booking_listed_id
            (BookingRepo.list_bookings
               (snd (BookingRepo.create_booking None seeded_db "Ann" "0300" 2
                       "2025-01-10" "2025-01-13" "t")))).
Proof.
  apply list_bookings_each_booking_once.
  split; [repeat constructor; simpl; tauto|]. split.
  - repeat constructor; simpl; intuition discriminate.
  - intros b [<-|[]]. split; reflexivity.
Defined.

Lemma insert_sorted_map {A B : Type} (g : A -> B) (le : A -> A -> bool)
  (le' : B -> B -> bool) (x : A) (l : list A) :
  (forall a b, le' (g a) (g b) = le a b) ->
  insert_sorted le' (g x) (map g l) = map g (insert_sorted le x l).
Proof.
  intros H. induction l as [|y l IH]; simpl; [reflexivity|].
  rewrite H. destruct (le x y); simpl; [reflexivity | now rewrite IH].
Qed.

Lemma order_by_map {A B : Type} (g : A -> B) (le : A -> A -> bool)
  (le' : B -> B -> bool) (l : list A) :
  (forall a b, le' (g a) (g b) = le a b) ->
  order_by le' (map g l) = map g (order_by le l).
Proof.
  intros H. induction l as [|x l IH]; simpl; [reflexivity|].
  rewrite IH. now apply insert_sorted_map.
Qed.

Lemma filter_room_id_reflag (f : RoomRow -> Z) (k : Z) (l : list RoomRow) :
  filter (fun r => r_id r =? k) (map (reflag_room f) l) =
  map (reflag_room f) (filter (fun r => r_id r =? k) l).
Proof.
  induction l as [|r l IH]; simpl; [reflexivity|].
  destruct (r_id r =? k); simpl; now rewrite IH.
Qed.

Lemma joined_with_room_flags (f : RoomRow -> Z) (db : Database) :
  BookingRepo.joined (with_room_flags f db) =
  map (fun x => (fst (fst x), snd (fst x), reflag_room f (snd x)))
      (BookingRepo.joined db).
Proof.
  unfold BookingRepo.joined.
  cbn [with_room_flags set_rooms rooms bookings customers rows].
  induction (rows (bookings db)) as [|b l IH]; [reflexivity|].
  cbn [flat_map]. rewrite map_app, IH. f_equal.
  induction (filter (fun c => c_id c =? b_customer_id b) (rows (customers db)))
    as [|c cs IHc]; [reflexivity|].
  cbn [flat_map]. rewrite map_app, IHc. f_equal.
  rewrite filter_room_id_reflag, !map_map. reflexivity.
Qed.

(** X13. Deactivating rooms (any change of the [is_active] flags of
    [rooms]) leaves the bookings table and the result of [list_bookings]
    as they were, while a room whose flag is not 1 is in no row of
    [RoomRepo.list_active]. *)
Theorem deactivated_room_keeps_its_bookings (f : RoomRow -> Z) (db : Database) :
  bookings (with_room_flags f db) = bookings db
  /\ BookingRepo.list_bookings (with_room_flags f db) =
     BookingRepo.list_bookings db
  /\ (forall r row,
        NoDup (map r_id (rows (rooms db))) ->
        In r (rows (rooms db)) ->
        f r <> 1 ->
        In row (RoomRepo.list_active (with_room_flags f db)) ->
        fst (fst (fst row)) <> r_id r).
Proof.
  split; [reflexivity|]. split.
  - unfold BookingRepo.list_bookings. rewrite joined_with_room_flags.
    rewrite (order_by_map _ BookingRepo.by_id_desc BookingRepo.by_id_desc)
      by reflexivity.
    rewrite map_map. apply map_ext. intros [[b c] r]. reflexivity.
  - intros r row Hnd Hin Hoff Hrow Heq.
    unfold RoomRepo.list_active in Hrow. apply in_map_iff in Hrow.
    destruct Hrow as [r' [<- Hr']]. cbn [fst] in Heq.
    apply order_by_in in Hr'. apply filter_In in Hr'.
    destruct Hr' as [Hr' Hact].
    cbn [with_room_flags set_rooms rooms rows] in Hr'.
    apply in_map_iff in Hr'. destruct Hr' as [r0 [<- Hr0]].
    cbn [reflag_room r_id r_is_active] in Heq, Hact.
    apply Z.eqb_eq in Hact.
    pose proof (filter_by_key_in r_id _ r Hnd Hin) as F1.
    pose proof (filter_by_key_in r_id _ r0 Hnd Hr0) as F2.
    rewrite Heq in F2. rewrite F1 in F2. injection F2 as ->. contradiction.
Qed.

Lemma deactivated_room_keeps_its_bookings_witness :
  NoDup (map r_id (rows (rooms seeded_db)))
  /\ In (mkRoom 2 "102" "Double" 5000 1) (rows (rooms seeded_db))
  /\ forall row,
      In row (RoomRepo.list_active
                (with_room_flags (fun r => if r_id r =? 2 then 0 else 1)
                                 seeded_db)) ->
      fst (fst (fst row)) <> 2.
Proof.
  assert (NoDup (map r_id (rows (rooms seeded_db)))) as H1
      by (repeat constructor; simpl; intuition discriminate).
  assert (In (mkRoom 2 "102" "Double" 5000 1) (rows (rooms seeded_db))) as H2
      by (simpl; auto).
  split; [exact H1|]. split; [exact H2|].
  intros row Hrow.
  exact (proj2 (proj2 (deactivated_room_keeps_its_bookings
                         (fun r => if r_id r =? 2 then 0 else 1) seeded_db))
               (mkRoom 2 "102" "Double" 5000 1) row H1 H2
               ltac:(simpl; discriminate) Hrow).
Defined.

Lemma filter_nothing {A : Type} (l : list A) :
  filter (fun _ : A => false) l = [].
Proof. induction l; simpl; auto. Qed.

(** With distinct customer ids the left join has one row per ticket. *)
Lemma tickets_joined_ids (db : Database) :
  NoDup (map c_id (rows (customers db))) ->
  map (fun x => t_id (fst x)) (TicketRepo.joined db) =
  map t_id (rows (tickets db)).
Proof.
  intros Hc. unfold TicketRepo.joined.
  set (F := fun t : TicketRow => match filter _ (rows (customers db)) with
                                 | [] => _
                                 | _ :: _ => _
                                 end).
  assert (forall t, map (fun x => t_id (fst x)) (F t) = [t_id t]) as HF.
  { intros t. subst F. cbv beta.
    destruct (t_customer_id t) as [k|].
    - destruct (filter_by_key_short c_id (rows (customers db)) k Hc)
        as [E|[c [_ E]]]; rewrite E; reflexivity.
    - rewrite filter_nothing. reflexivity. }
  clearbody F.
  induction (rows (tickets db)) as [|t l IH]; [reflexivity|].
  change (flat_map F (t :: l)) with (F t ++ flat_map F l)%list.
  rewrite map_app, IH, HF. reflexivity.
Qed.

(** X14. [list_tickets] is a left join: when customer ids are distinct,
    every ticket is shown exactly once, by descending id, whether or not
    its customer exists. *)
Theorem list_tickets_each_ticket_once (db : Database) :
  NoDup (map c_id (rows (customers db))) ->
  Permutation (map ticket_listed_id (TicketRepo.list_tickets db))
              (map t_id (rows (tickets db)))
  /\ StronglySorted (fun a b => b <= a)
                    (map ticket_listed_id (TicketRepo.list_tickets db)).
Proof.
  intros Hc. unfold TicketRepo.list_tickets. rewrite map_map.
  change (fun x => ticket_listed_id (TicketRepo.listed_row x))
    with (fun x : TicketRow * option CustomerRow => t_id (fst x)).
  split.
  - rewrite <- (tickets_joined_ids db Hc).
    apply Permutation_map, Permutation_sym, order_by_perm.
  - apply strongly_sorted_map.
    apply (strongly_sorted_impl (fun a b => TicketRepo.by_id_desc a b = true)).
    + intros a b H. unfold TicketRepo.by_id_desc in H. now apply Z.leb_le.
    + apply order_by_sorted.
      * intros a b H. unfold TicketRepo.by_id_desc in *.
        apply Z.leb_gt in H. apply Z.leb_le. lia.
      * intros a b c H1 H2. unfold TicketRepo.by_id_desc in *.
        apply Z.leb_le in H1. apply Z.leb_le in H2. apply Z.leb_le. lia.
Qed.

(** X15. Under a non-empty name filter [list_tickets_filtered] returns
    only tickets that have a customer: a ticket whose customer is missing
    is left out whatever the filter is, the wildcard [%] included. *)
Theorem list_tickets_filtered_by_name_needs_customer
  (db : Database) (name : string) (phone : option string)
  (row : Z * string * option string * option string * option string
         * string * string) :
  name <> "" ->
  In row (TicketRepo.list_tickets_filtered db (Some name) phone) ->
  ticket_report_name row <> None.
Proof.
  intros Hne Hin. unfold TicketRepo.list_tickets_filtered in Hin.
  apply in_map_iff in Hin. destruct Hin as [x [<- Hx]].
  apply order_by_in in Hx. apply filter_In in Hx. destruct Hx as [_ Hsel].
  unfold TicketRepo.selected in Hsel. apply andb_prop in Hsel.
  destruct Hsel as [Hn _].
  destruct name as [|c name]; [contradiction|]. cbn [nonempty] in Hn.
  unfold ticket_report_name, TicketRepo.report_row. cbn [fst snd].
  destruct (TicketRepo.joined_name x); [discriminate|].
  cbn in Hn. discriminate.
Qed.

Lemma list_tickets_each_ticket_once_witness :
  NoDup (map c_id (rows (customers tickets_db)))
  /\ Permutation (map ticket_listed_id (TicketRepo.list_tickets tickets_db))
                 (map t_id (rows (tickets tickets_db)))
  /\ StronglySorted (fun a b => b <= a)
                    (map ticket_listed_id (TicketRepo.list_tickets tickets_db)).
Proof.
  assert (NoDup (map c_id (rows (customers tickets_db)))) as H
      by (repeat constructor; simpl; tauto).
  split; [exact H|].
  exact (list_tickets_each_ticket_once tickets_db H).
Defined.

Lemma list_tickets_filtered_by_name_needs_customer_witness :
  "%" <> ""
  /\ In (1, "2025-01-01T10:00:00", Some "Ann", Some "0300", Some "Laundry",
         "Towels", "Open")
        (TicketRepo.list_tickets_filtered tickets_db (Some "%") None)
  /\ ticket_report_name
       (1, "2025-01-01T10:00:00", Some "Ann", Some "0300", Some "Laundry",
        "Towels", "Open") <> None.
Proof.
  assert ("%" <> "") as H1 by discriminate.
  assert (In (1, "2025-01-01T10:00:00", Some "Ann", Some "0300", Some "Laundry",
              "Towels", "Open")
             (TicketRepo.list_tickets_filtered tickets_db (Some "%") None)) as H2
      by (vm_compute; auto).
  split; [exact H1|]. split; [exact H2|].
  exact (list_tickets_filtered_by_name_needs_customer
           tickets_db "%" None _ H1 H2).
Defined.

(** The ticket without customer is listed by [list_tickets], with no name,
    and by [list_tickets_filtered] under the phone filter [%], but not
    under the name filter [%]. *)
Example orphan_ticket_listings :
  TicketRepo.list_tickets tickets_db =
  [ (2, None, None, Some "Other", "Noise", "Open");
    (1, Some "Ann", Some "0300", Some "Laundry", "Towels", "Open") ]
  /\ map ticket_report_name
         (TicketRepo.list_tickets_filtered tickets_db None (Some "%")) =
     [None; Some "Ann"]
  /\ map ticket_report_name
         (TicketRepo.list_tickets_filtered tickets_db (Some "%") None) =
     [Some "Ann"].
Proof. repeat split. Qed.

(** ** The category registry *)





Lemma list_active_names (t : Table CategoryRow) :
  Permutation (TicketCategoryRepo.list_active t)
              (map tc_name (filter (fun r => tc_is_active r =? 1) (rows t))).
Proof.
  unfold TicketCategoryRepo.list_active.
  apply Permutation_map, Permutation_sym, order_by_perm.
Qed.


Lemma category_listed_after_add (name : string) (t : Table CategoryRow) :
  (forall r, In r (rows t) -> tc_name r = name -> tc_is_active r = 1) ->
  In name (TicketCategoryRepo.list_active (TicketCategoryRepo.add name t)).
Proof.
  intros Hact.
  eapply Permutation_in; [apply Permutation_sym, list_active_names|].
  apply in_map_iff. unfold TicketCategoryRepo.add.
  destruct (existsb _ (rows t)) eqn:E.
  - apply existsb_exists in E. destruct E as [r [Hin Hn]].
    apply String.eqb_eq in Hn. exists r. split; [exact Hn|].
    apply filter_In. split; [exact Hin|]. apply Z.eqb_eq. now apply Hact.
  - exists (mkCategory (next_rowid tc_id t) name 1). split; [reflexivity|].
    apply filter_In. split; [|reflexivity].
    cbn [append_row rows]. apply in_or_app. right. now left.
Qed.



(** *** The forced reset of [init_db] *)

Lemma order_by_of_sorted {A : Type} (le : A -> A -> bool) (l : list A) :
  StronglySorted (fun a b => le a b = true) l -> order_by le l = l.
Proof.
  induction 1 as [|x l Hs IH Hf]; simpl; [reflexivity|].
  rewrite IH. destruct l as [|y l]; simpl; [reflexivity|].
  inversion Hf as [|? ? Hxy _]; subst. now rewrite Hxy.
Qed.

Lemma filter_all {A : Type} (p : A -> bool) (l : list A) :
  Forall (fun x => p x = true) l -> filter p l = l.
Proof.
  induction 1 as [|x l Hx Hl IH]; simpl; [reflexivity|].
  now rewrite Hx, IH.
Qed.

(** Adding names that are new to the table appends one active row per
    name, in order, with growing ids. *)
Lemma seed_new_categories (names : list string) :
  forall t : Table CategoryRow,
    NoDup names ->
    (forall n, In n names -> ~ In n (map tc_name (rows t))) ->
    exists new,
      rows (fold_left seed_category names t) = (rows t ++ new)%list
      /\ map tc_name new = names
      /\ Forall (fun r => (tc_is_active r =? 1) = true) new
      /\ StronglySorted (fun a b => TicketCategoryRepo.by_id a b = true) new
      /\ Forall (fun r => Z.max (max_id tc_id (rows t)) (seq t) < tc_id r) new.
Proof.
  induction names as [|n names IH]; intros t Hnd Hnew.
  - exists []. cbn. rewrite app_nil_r. repeat split; constructor.
  - inversion Hnd as [|? ? Hn Hnd']; subst.
    cbn [fold_left]. unfold seed_category at 2. unfold TicketCategoryRepo.add.
    assert (existsb (fun r => String.eqb (tc_name r) n) (rows t) = false) as E.
    { destruct (existsb _ (rows t)) eqn:E; [|reflexivity].
      exfalso. apply (Hnew n (or_introl eq_refl)).
      apply existsb_exists in E. destruct E as [r [Hin Hr]].
      apply String.eqb_eq in Hr. apply in_map_iff. eauto. }
    rewrite E.
    set (id0 := next_rowid tc_id t).
    set (t1 := append_row t id0 (mkCategory id0 n 1)).
    destruct (IH t1 Hnd') as [new [H1 [H2 [H3 [H4 H5]]]]].
    { intros m Hm Hin. subst t1. cbn [append_row rows] in Hin.
      rewrite map_app in Hin. apply in_app_or in Hin.
      destruct Hin as [Hin|[Hin|[]]].
      - apply (Hnew m (or_intror Hm) Hin).
      - cbn in Hin. subst m. contradiction. }
    exists (mkCategory id0 n 1 :: new).
    assert (Forall (fun r => id0 < tc_id r) new) as Hgt.
    { eapply Forall_impl; [|exact H5]. intros r Hr. subst t1.
      cbn [append_row seq] in Hr. cbv beta in Hr. lia. }
    split; [|split; [|split; [|split]]].
    + rewrite H1. subst t1. cbn [append_row rows]. now rewrite <- app_assoc.
    + cbn. now rewrite H2.
    + constructor; [reflexivity | exact H3].
    + constructor; [exact H4|].
      eapply Forall_impl; [|exact Hgt]. intros r Hr. cbv beta in Hr.
      unfold TicketCategoryRepo.by_id. cbn [tc_id]. apply Z.leb_le. lia.
    + constructor.
      * cbn [tc_id]. unfold id0, next_rowid. lia.
      * eapply Forall_impl; [|exact Hgt]. intros r Hr. cbv beta in Hr.
        unfold id0, next_rowid in Hr. lia.
Qed.

Lemma default_categories_distinct : NoDup SUPPORT_CATEGORIES_DEFAULT.
Proof.
  unfold SUPPORT_CATEGORIES_DEFAULT.
  repeat (constructor; [simpl; intuition discriminate|]). constructor.
Qed.

Lemma reset_lists_defaults (cats : Table CategoryRow) :
  TicketCategoryRepo.list_active
    (fold_left seed_category SUPPORT_CATEGORIES_DEFAULT (delete_all cats)) =
  SUPPORT_CATEGORIES_DEFAULT.
Proof.
  destruct (seed_new_categories SUPPORT_CATEGORIES_DEFAULT (delete_all cats)
              default_categories_distinct) as [new [H1 [H2 [H3 [H4 _]]]]].
  { intros n _ []. }
  unfold TicketCategoryRepo.list_active. rewrite H1. cbn [delete_all rows app].
  rewrite (filter_all _ new H3), (order_by_of_sorted _ new H4). exact H2.
Qed.

(** X17. With [FORCE_CATEGORY_SET] as the program sets it,
    [init_db(seed=True)] leaves exactly the six default categories, active
    and in their order, whatever the table held before: a category that
    was added earlier is gone. *)
Theorem init_db_resets_categories
  (db : Database) (cats : Table CategoryRow) :
  TicketCategoryRepo.list_active (snd (init_db true (db, cats))) =
  SUPPORT_CATEGORIES_DEFAULT.
Proof.
  cbn [init_db snd FORCE_CATEGORY_SET]. apply reset_lists_defaults.
Qed.

(** *** [init_db] and the catalogs *)

Lemma seed_menu_item_rows (t : Table MenuItemRow) (x : string * string * Z * string) :
  exists extra, rows (seed_menu_item t x) = (rows t ++ extra)%list.
Proof.
  destruct x as [[[name category] price] img].
  unfold seed_menu_item, insert_or_ignore_menu_item.
  destruct (_ || _).
  - exists []. now rewrite app_nil_r.
  - eexists. reflexivity.
Qed.




Lemma menu_name_present_mono (t : Table MenuItemRow)
  (x : string * string * Z * string) (name : string) :
  menu_name_present t name = true ->
  menu_name_present (seed_menu_item t x) name = true.
Proof.
  intros H. destruct (seed_menu_item_rows t x) as [extra E].
  unfold menu_name_present. rewrite E, existsb_app.
  unfold menu_name_present in H. now rewrite H.
Qed.

Lemma seed_menu_present (seeds : list (string * string * Z * string)) :
  forall t,
    Forall (fun x => 0 <= snd (fst x)) seeds ->
    (forall x, In x seeds ->
               menu_name_present (fold_left seed_menu_item seeds t)
                                 (fst (fst (fst x))) = true)
    /\ (forall name, menu_name_present t name = true ->
                     menu_name_present (fold_left seed_menu_item seeds t) name
                     = true).
Proof.
  induction seeds as [|x seeds IH]; intros t Hp.
  - split; [intros x []|auto].
  - inversion Hp as [|? ? Hx Hrest]; subst. cbn [fold_left].
    destruct (IH (seed_menu_item t x) Hrest) as [IH1 IH2]. split.
    + intros y [<-|Hy]; [|now apply IH1].
      apply IH2. destruct x as [[[name category] price] img].
      cbn [fst snd] in *. unfold seed_menu_item, insert_or_ignore_menu_item.
      fold (menu_name_present t name).
      destruct (menu_name_present t name) eqn:E; cbn [orb].
      * exact E.
      * apply Z.leb_le in Hx. rewrite Hx. cbn [negb].
        unfold menu_name_present. cbn [append_row rows].
        rewrite existsb_app. cbn. rewrite String.eqb_refl.
        now rewrite orb_true_r.
    + intros name Hn. apply IH2. now apply menu_name_present_mono.
Qed.





Lemma menu_seed_prices : Forall (fun x => 0 <= snd (fst x)) MENU_SEED.
Proof. unfold MENU_SEED. repeat constructor; simpl; lia. Qed.


(** On a new file [init_db(seed=True)] gives the seeded store of the
    examples and the six categories. *)
Example init_db_on_empty_store :
  fst (init_db true (empty_db, empty_table)) = seeded_db
  /\ rows (snd (init_db true (empty_db, empty_table))) =
     [ mkCategory 1 "Room Cleaning" 1; mkCategory 2 "Food Delivery" 1;
       mkCategory 3 "Taxi Service" 1; mkCategory 4 "Laundry" 1;
       mkCategory 5 "Complaint" 1; mkCategory 6 "Other" 1 ].
Proof. split; reflexivity. Qed.

(** *** The category drop-down *)

Lemma existsb_eqb_in (x : string) (l : list string) :
  existsb (String.eqb x) l = true -> In x l.
Proof.
  intros H. apply existsb_exists in H. destruct H as [y [Hy He]].
  apply String.eqb_eq in He. now subst.
Qed.

(** The values that [_refresh_categories] puts in the drop-down. *)
Lemma refresh_categories_values (t : Table CategoryRow) (combo : SupportFrame.Combo) :
  SupportFrame.combo_values (snd (SupportFrame._refresh_categories t combo)) =
  (let cats1 := match TicketCategoryRepo.list_active t with
                | [] => SUPPORT_CATEGORIES_DEFAULT
                | _ :: _ => TicketCategoryRepo.list_active t
                end in
   if SupportFrame.same_set cats1 SUPPORT_CATEGORIES_DEFAULT
   then SUPPORT_CATEGORIES_DEFAULT else cats1).
Proof.
  unfold SupportFrame._refresh_categories. cbv zeta.
  destruct (TicketCategoryRepo.list_active t) as [|c cs];
    match goal with
    | |- context [SupportFrame.same_set ?a ?b] =>
        destruct (SupportFrame.same_set a b)
    end;
    match goal with
    | |- context [existsb ?f ?l] => destruct (existsb f l)
    end; reflexivity.
Qed.

(** X19. After [_refresh_categories] the drop-down is never empty and
    the selected category is one of the values it offers, whatever the
    table holds and whatever was selected before. *)
Theorem refresh_categories_offers_a_choice
  (t : Table CategoryRow) (combo : SupportFrame.Combo) :
  let combo' := snd (SupportFrame._refresh_categories t combo) in
  SupportFrame.combo_values combo' <> []
  /\ In (SupportFrame.combo_var combo') (SupportFrame.combo_values combo').
Proof.
  cbv zeta. unfold SupportFrame._refresh_categories. cbv zeta.
  set (cats1 := match TicketCategoryRepo.list_active t with
                | [] => SUPPORT_CATEGORIES_DEFAULT
                | _ :: _ => TicketCategoryRepo.list_active t
                end).
  assert (cats1 <> []) as Hne.
  { subst cats1. destruct (TicketCategoryRepo.list_active t); discriminate. }
  set (cats2 := if SupportFrame.same_set cats1 SUPPORT_CATEGORIES_DEFAULT
                then SUPPORT_CATEGORIES_DEFAULT else cats1).
  assert (cats2 <> []) as Hne2.
  { subst cats2. destruct (SupportFrame.same_set _ _); [discriminate|exact Hne]. }
  assert (forall t1 : Table CategoryRow,
            let r := if existsb (String.eqb (strip (SupportFrame.combo_var combo)))
                                cats2
                     then (t1, SupportFrame.mkCombo cats2
                                 (strip (SupportFrame.combo_var combo)))
                     else match cats2 with
                          | first :: _ => (t1, SupportFrame.mkCombo cats2 first)
                          | [] => (t1, SupportFrame.mkCombo cats2
                                         (SupportFrame.combo_var combo))
                          end in
            SupportFrame.combo_values (snd r) <> []
            /\ In (SupportFrame.combo_var (snd r))
                  (SupportFrame.combo_values (snd r))) as H.
  { intros t1. cbv zeta.
    destruct (existsb _ cats2) eqn:E; cbn [snd SupportFrame.combo_values
                                           SupportFrame.combo_var].
    - split; [exact Hne2 | now apply existsb_eqb_in].
    - destruct cats2 as [|first rest]; [contradiction|].
      cbn. split; [discriminate | now left]. }
  subst cats1 cats2.
  destruct (TicketCategoryRepo.list_active t) as [|c cs]; apply H.
Qed.

(** X20. [_add_category] ignores a cancelled dialog and a blank answer
    (the table and the drop-down stay as they are); for any other answer
    whose trimmed name is not held by an inactive row, the drop-down
    offers the trimmed name afterwards. *)
Theorem add_category_offers_the_name
  (t : Table CategoryRow) (combo : SupportFrame.Combo) :
  SupportFrame._add_category t combo None = (t, combo)
  /\ (forall answer,
        strip answer = "" ->
        SupportFrame._add_category t combo (Some answer) = (t, combo))
  /\ (forall answer,
        strip answer <> "" ->
        (forall r, In r (rows t) -> tc_name r = strip answer ->
                   tc_is_active r = 1) ->
        In (strip answer)
           (SupportFrame.combo_values
              (snd (SupportFrame._add_category t combo (Some answer))))).
Proof.
  split; [reflexivity|]. split.
  - intros answer H. unfold SupportFrame._add_category.
    destruct (nonempty answer); [|reflexivity]. rewrite H. reflexivity.
  - intros answer Hne Hact. unfold SupportFrame._add_category.
    assert (nonempty answer = true) as H1.
    { destruct answer; [contradiction Hne; reflexivity | reflexivity]. }
    assert (nonempty (strip answer) = true) as H2.
    { destruct (strip answer); [contradiction | reflexivity]. }
    rewrite H1, H2. cbn [negb]. rewrite refresh_categories_values. cbv zeta.
    pose proof (category_listed_after_add (strip answer) t Hact) as Hin.
    destruct (TicketCategoryRepo.list_active
                (TicketCategoryRepo.add (strip answer) t)) as [|c cs] eqn:E;
      [contradiction|].
    destruct (SupportFrame.same_set (c :: cs) SUPPORT_CATEGORIES_DEFAULT) eqn:S;
      [|exact Hin].
    unfold SupportFrame.same_set in S. apply andb_prop in S.
    destruct S as [S _]. rewrite forallb_forall in S.
    apply existsb_eqb_in. now apply S.
Qed.

Lemma add_category_offers_the_name_witness :
  strip " Spa " <> ""
  /\ In (strip " Spa ")
        (SupportFrame.combo_values
           (snd (SupportFrame._add_category
                   (snd (init_db true (empty_db, empty_table)))
                   (SupportFrame.mkCombo [] "") (Some " Spa ")))).
Proof.
  assert (strip " Spa " <> "") as H by (vm_compute; discriminate).
  split; [exact H|].
  apply (proj2 (proj2 (add_category_offers_the_name
                         (snd (init_db true (empty_db, empty_table)))
                         (SupportFrame.mkCombo [] ""))) " Spa " H).
  intros r Hr _. vm_compute in Hr.
  repeat (destruct Hr as [<-|Hr]; [reflexivity|]). contradiction.
Defined.

(** ** The images of the menu *)

Lemma backfill_fold_rows (entries : list (string * string)) :
  forall t,
    fold_left backfill_image entries t =
    mkTable (map (backfill_rows entries) (rows t)) (seq t).
Proof.
  unfold backfill_rows.
  induction entries as [|e entries IH]; intros t.
  - cbn. rewrite map_id. now destruct t.
  - cbn [fold_left]. rewrite IH. unfold backfill_image. cbn [rows seq].
    now rewrite map_map.
Qed.

Lemma backfill_row_with_image (e : string * string) (m : MenuItemRow) :
  image_missing m = false -> backfill_row e m = m.
Proof.
  intros H. unfold backfill_row. rewrite H. now rewrite andb_false_r.
Qed.

Lemma backfill_rows_with_image (entries : list (string * string)) (m : MenuItemRow) :
  image_missing m = false -> backfill_rows entries m = m.
Proof.
  unfold backfill_rows.
  induction entries as [|e entries IH]; intros H; [reflexivity|].
  cbn [fold_left]. rewrite backfill_row_with_image by exact H. now apply IH.
Qed.

Lemma backfill_rows_cons (e : string * string) (entries : list (string * string))
  (m : MenuItemRow) :
  backfill_rows (e :: entries) m = backfill_rows entries (backfill_row e m).
Proof. reflexivity. Qed.

Lemma backfill_rows_settle (entries : list (string * string)) :
  Forall (fun e => nonempty (snd e) = true) entries ->
  forall m,
    menu_row_but_image (backfill_rows entries m) = menu_row_but_image m
    /\ (image_missing (backfill_rows entries m) = false
        \/ backfill_rows entries m = m).
Proof.
  induction 1 as [|e entries He Hes IH]; intros m.
  - split; [reflexivity | now right].
  - rewrite backfill_rows_cons.
    destruct (String.eqb (mi_name m) (fst e) && image_missing m) eqn:E.
    + assert (backfill_row e m =
              mkMenuItem (mi_id m) (mi_name m) (mi_category m) (mi_price m)
                         (Some (snd e)) (mi_is_active m)) as Hb
          by (unfold backfill_row; now rewrite E).
      rewrite Hb. set (m1 := mkMenuItem _ _ _ _ _ _).
      assert (image_missing m1 = false) as Hm1.
      { unfold image_missing, m1. cbn. now rewrite He. }
      rewrite (backfill_rows_with_image entries m1 Hm1).
      split; [reflexivity | now left].
    + assert (backfill_row e m = m) as Hb
          by (unfold backfill_row; now rewrite E).
      rewrite Hb. apply IH.
Qed.

Lemma backfill_rows_twice (entries : list (string * string)) (m : MenuItemRow) :
  Forall (fun e => nonempty (snd e) = true) entries ->
  backfill_rows entries (backfill_rows entries m) = backfill_rows entries m.
Proof.
  intros He. destruct (backfill_rows_settle entries He m) as [_ [H|H]].
  - now apply backfill_rows_with_image.
  - now rewrite H.
Qed.

(** The same for any list of updates that set non-empty paths. *)
Lemma backfill_only_fills_gaps (entries : list (string * string)) (db : Database) :
  Forall (fun e => nonempty (snd e) = true) entries ->
  let db' := set_menu_items db (fold_left backfill_image entries (menu_items db)) in
  map menu_row_but_image (rows (menu_items db')) =
  map menu_row_but_image (rows (menu_items db))
  /\ (forall m, In m (rows (menu_items db)) -> image_missing m = false ->
                In m (rows (menu_items db')))
  /\ set_menu_items db' (menu_items db) = db
  /\ set_menu_items db' (fold_left backfill_image entries (menu_items db')) = db'.
Proof.
  intros He. cbv zeta. rewrite backfill_fold_rows.
  cbn [set_menu_items menu_items rows seq].
  split; [|split; [|split]].
  - rewrite map_map. apply map_ext. intros m.
    apply (backfill_rows_settle entries He m).
  - intros m Hin Him. apply in_map_iff. exists m. split; [|exact Hin].
    now apply backfill_rows_with_image.
  - destruct db as [[mr ms] o oi c r b t]. reflexivity.
  - rewrite backfill_fold_rows. destruct db as [[mr ms] o oi c r b t].
    cbn [set_menu_items menu_items orders order_items customers rooms bookings
         tickets rows seq].
    rewrite map_map.
    rewrite (map_ext _ (backfill_rows entries)
               (fun m => backfill_rows_twice entries m He)).
    reflexivity.
Qed.

Lemma image_mapping_nonempty :
  Forall (fun e : string * string => nonempty (snd e) = true) image_mapping.
Proof. unfold image_mapping. repeat constructor. Qed.

(** X21. [ensure_menu_images] changes nothing but image paths that are
    [NULL] or empty: every other column of every row, and every row that
    has an image path, is kept, the other tables are untouched, and a
    second run changes nothing. *)
Theorem ensure_menu_images_only_fills_gaps (db : Database) :
  map menu_row_but_image (rows (menu_items (ensure_menu_images db))) =
  map menu_row_but_image (rows (menu_items db))
  /\ (forall m, In m (rows (menu_items db)) -> image_missing m = false ->
                In m (rows (menu_items (ensure_menu_images db))))
  /\ set_menu_items (ensure_menu_images db) (menu_items db) = db
  /\ ensure_menu_images (ensure_menu_images db) = ensure_menu_images db.
Proof.
  exact (backfill_only_fills_gaps image_mapping db image_mapping_nonempty).
Qed.

(** ** The preview of the menu and the image resolver *)

(** X22. Whenever [_show_menu_image] reaches the image file of the
    selected item, [resolve_image_path] gives the same path for the image
    path stored with the item. *)
Theorem preview_path_is_resolved
  (BASE_DIR : string) (exists_ : string -> bool) (PIL_AVAILABLE : bool)
  (db : Database) (item_id : Z) (others : list Z) (full_path : string) :
  POSFrame._show_menu_image BASE_DIR exists_ PIL_AVAILABLE db (item_id :: others)
  = POSFrame.open_image full_path ->
  resolve_image_path BASE_DIR exists_ (POSFrame.select_image_path item_id db)
  = Some full_path.
Proof.
  unfold POSFrame._show_menu_image, resolve_image_path.
  destruct (POSFrame.select_image_path item_id db) as [path|]; [|discriminate].
  destruct (negb (nonempty path)); [discriminate|].
  destruct (os_path.isabs path) eqn:Habs; cbn [negb andb].
  - destruct (exists_ path); cbn [negb]; [|discriminate].
    destruct PIL_AVAILABLE; cbn [negb]; [|discriminate].
    intros H. now injection H as ->.
  - destruct (exists_ (os_path.join (ASSETS_DIR BASE_DIR) path)); cbn [negb];
      [|discriminate].
    destruct PIL_AVAILABLE; cbn [negb]; [|discriminate].
    intros H. now injection H as ->.
Qed.

Lemma preview_path_is_resolved_witness :
  POSFrame._show_menu_image "/app" (String.eqb "/app/assets/pizza.png.png")
                            true seeded_db [1]
  = POSFrame.open_image "/app/assets/pizza.png.png"
  /\ resolve_image_path "/app" (String.eqb "/app/assets/pizza.png.png")
                        (POSFrame.select_image_path 1 seeded_db)
     = Some "/app/assets/pizza.png.png".
Proof.
  assert (POSFrame._show_menu_image "/app"
            (String.eqb "/app/assets/pizza.png.png") true seeded_db [1]
          = POSFrame.open_image "/app/assets/pizza.png.png") as H
      by reflexivity.
  split; [exact H|].
  exact (preview_path_is_resolved "/app" (String.eqb "/app/assets/pizza.png.png")
                                  true seeded_db 1 [] _ H).
Defined.

(** The converse fails: for a stored path "pizza.png" and a file named
    "pizza.png.png" the preview reports a missing file, while the resolver
    finds the file. *)
Example preview_does_not_try_variants :
  POSFrame._show_menu_image "/app" (String.eqb "/app/assets/pizza.png.png")
                            true short_hint_db [1]
  = POSFrame.image_file_not_found "pizza.png"
  /\ resolve_image_path "/app" (String.eqb "/app/assets/pizza.png.png")
                        (POSFrame.select_image_path 1 short_hint_db)
     = Some "/app/assets/pizza.png.png".
Proof. split; reflexivity. Qed.

Lemma ensure_menu_images_only_fills_gaps_witness :
  In (mkMenuItem 1 "Pizza Margherita" "Main" 500 (Some "pizza.png") 1)
     (rows (menu_items short_hint_db))
  /\ image_missing (mkMenuItem 1 "Pizza Margherita" "Main" 500
                               (Some "pizza.png") 1) = false
  /\ In (mkMenuItem 1 "Pizza Margherita" "Main" 500 (Some "pizza.png") 1)
        (rows (menu_items (ensure_menu_images short_hint_db))).
Proof.
  assert (In (mkMenuItem 1 "Pizza Margherita" "Main" 500 (Some "pizza.png") 1)
             (rows (menu_items short_hint_db))) as H1 by (simpl; auto).
  split; [exact H1|]. split; [reflexivity|].
  exact (proj1 (proj2 (ensure_menu_images_only_fills_gaps short_hint_db))
               _ H1 eq_refl).
Defined.

(** ** The reports tab *)

Lemma fold_left_add (l : list Z) (a : Z) :
  fold_left Z.add l a = a + fold_right Z.add 0 l.
Proof.
  revert a. induction l as [|x l IH]; intros a; simpl; [lia|].
  rewrite IH. lia.
Qed.

Lemma sum_permutation (l l' : list Z) :
  Permutation l l' -> fold_right Z.add 0 l = fold_right Z.add 0 l'.
Proof. induction 1; simpl; lia. Qed.

Lemma filter_everything {A : Type} (l : list A) :
  filter (fun _ : A => true) l = l.
Proof. induction l; simpl; congruence. Qed.

Lemma strip_or_none_blank (s : string) :
  strip s = "" -> ReportsFrame.strip_or_none s = None.
Proof. intros H. unfold ReportsFrame.strip_or_none. now rewrite H. Qed.

Lemma list_orders_unfiltered (db : Database) :
  Permutation (OrderRepo.list_orders db None None)
              (map OrderRepo.report_row (rows (orders db))).
Proof.
  unfold OrderRepo.list_orders.
  change (filter (OrderRepo.selected None None) (rows (orders db)))
    with (filter (fun _ : OrderRow => true) (rows (orders db))).
  rewrite filter_everything.
  apply Permutation_map, Permutation_sym, order_by_perm.
Qed.

Lemma sum_snoc (l : list Z) (x : Z) :
  fold_right Z.add 0 (l ++ [x]) = fold_right Z.add 0 l + x.
Proof. induction l as [|y l IH]; simpl; [lia|]. rewrite IH. lia. Qed.

(** The first line of figures of an unfiltered report. *)
Lemma search_blank_orders (db : Database) (f_name f_phone : string) :
  strip f_name = "" -> strip f_phone = "" ->
  ReportsFrame.stat_orders (ReportsFrame._search db f_name f_phone) =
  "Orders: " ++ str_of_int (Z.of_nat (List.length (rows (orders db))))
  ++ " | Total PKR " ++ str_of_int (orders_total db).
Proof.
  intros Hn Hp. unfold ReportsFrame._search. cbv zeta.
  rewrite (strip_or_none_blank _ Hn), (strip_or_none_blank _ Hp).
  cbn [ReportsFrame.stat_orders].
  pose proof (list_orders_unfiltered db) as Hperm.
  unfold ReportsFrame.count.
  rewrite (Permutation_length Hperm), length_map.
  unfold ReportsFrame.sum. rewrite fold_left_add, Z.add_0_l.
  rewrite (sum_permutation _ _ (Permutation_map (fun r => snd r) Hperm)).
  rewrite map_map. reflexivity.
Qed.

(** X23. With both filters blank, the report counts every order and sums
    every total; and after [create_order] has stored an order, the count
    is one more and the sum is larger by the total of the cart. *)
Theorem report_counts_the_new_order
  (db : Database) (customer_name phone : string) (cart : list (Z * Z))
  (now f_name f_phone : string) :
  strip f_name = "" -> strip f_phone = "" ->
  cart_ids_known db cart ->
  cart_quantities_positive cart ->
  ReportsFrame.stat_orders (ReportsFrame._search db f_name f_phone) =
  "Orders: " ++ str_of_int (Z.of_nat (List.length (rows (orders db))))
  ++ " | Total PKR " ++ str_of_int (orders_total db)
  /\ ReportsFrame.stat_orders
       (ReportsFrame._search
          (snd (OrderRepo.create_order db customer_name phone cart now))
          f_name f_phone) =
     "Orders: " ++ str_of_int (Z.of_nat (List.length (rows (orders db))) + 1)
     ++ " | Total PKR " ++ str_of_int (orders_total db + cart_total db cart).
Proof.
  intros Hn Hp Hk Hq. split; [now apply search_blank_orders|].
  rewrite create_order_ok by assumption. cbn [snd].
  rewrite search_blank_orders by assumption.
  unfold orders_total, order_stored.
  cbn [set_order_items set_orders orders append_row rows].
  rewrite length_app, map_app. cbn [map List.length o_total].
  rewrite sum_snoc, Nat2Z.inj_add. reflexivity.
Qed.

Lemma report_counts_the_new_order_witness :
  ReportsFrame.stat_orders (ReportsFrame._search orders_db "  " "") =
  "Orders: " ++ str_of_int (Z.of_nat (List.length (rows (orders orders_db))))
  ++ " | Total PKR " ++ str_of_int (orders_total orders_db)
  /\ ReportsFrame.stat_orders
       (ReportsFrame._search
          (snd (OrderRepo.create_order orders_db "Ann" "0300" [(1, 2); (6, 3)] "t"))
          "  " "") =
     "Orders: "
     ++ str_of_int (Z.of_nat (List.length (rows (orders orders_db))) + 1)
     ++ " | Total PKR "
     ++ str_of_int (orders_total orders_db
                    + cart_total orders_db [(1, 2); (6, 3)]).
Proof.
  apply (report_counts_the_new_order orders_db "Ann" "0300" [(1, 2); (6, 3)]
                                     "t" "  " "").
  - reflexivity.
  - reflexivity.
  - intros e [<-|[<-|[]]]; reflexivity.
  - intros e [<-|[<-|[]]]; simpl; lia.
Defined.

(** ** The bookings tab *)

Lemma sdict_get_set_same (m : list (string * Z)) (k : string) (v : Z) :
  dict.get String.eqb (dict.set String.eqb m k v) k = Some v.
Proof.
  induction m as [|[k' v'] m IH]; cbn [dict.get dict.set].
  - now rewrite String.eqb_refl.
  - destruct (String.eqb k' k) eqn:E; cbn [dict.get]; rewrite E;
      [reflexivity | exact IH].
Qed.

Lemma sdict_get_set_other (m : list (string * Z)) (k k' : string) (v : Z) :
  k <> k' ->
  dict.get String.eqb (dict.set String.eqb m k v) k' =
  dict.get String.eqb m k'.
Proof.
  intros Hne. induction m as [|[k0 v0] m IH]; cbn [dict.get dict.set].
  - destruct (String.eqb k k') eqn:E; [|reflexivity].
    apply String.eqb_eq in E. contradiction.
  - destruct (String.eqb k0 k) eqn:E; cbn [dict.get].
    + apply String.eqb_eq in E. subst k0.
      destruct (String.eqb k k') eqn:E'; [|reflexivity].
      apply String.eqb_eq in E'. contradiction.
    + now rewrite IH.
Qed.

(** The loop of [_refresh_rooms] lists the labels in order and maps every
    label to the id of a listed room with that label. *)
Lemma fill_rooms_spec (rs : list (Z * string * string * Z)) :
  forall m v,
    snd (BookingFrame.fill_rooms rs m v) = (v ++ map listed_room_label rs)%list
    /\ (forall l, In l (map listed_room_label rs) ->
                  exists r, In r rs /\ listed_room_label r = l
                            /\ dict.get String.eqb
                                 (fst (BookingFrame.fill_rooms rs m v)) l
                               = Some (listed_room_id r))
    /\ (forall l, ~ In l (map listed_room_label rs) ->
                  dict.get String.eqb (fst (BookingFrame.fill_rooms rs m v)) l
                  = dict.get String.eqb m l).
Proof.
  induction rs as [|[[[rid rno] rtype] price] rs IH]; intros m v.
  - cbn. rewrite app_nil_r. split; [reflexivity|]. split; [intros l []|reflexivity].
  - cbn [BookingFrame.fill_rooms].
    set (label := BookingFrame.room_label rno rtype price).
    destruct (IH (dict.set String.eqb m label rid) (v ++ [label])%list)
      as [H1 [H2 H3]].
    split; [|split].
    + rewrite H1. cbn [map]. rewrite <- app_assoc. reflexivity.
    + intros l Hl.
      destruct (in_dec string_dec l (map listed_room_label rs)) as [Hin|Hout].
      * destruct (H2 l Hin) as [r [Hr [Hlab Hget]]].
        exists r. split; [now right|]. split; assumption.
      * exists (rid, rno, rtype, price). split; [now left|].
        cbn [map] in Hl. destruct Hl as [Hl|Hl]; [|contradiction].
        split; [exact Hl|]. rewrite (H3 l Hout).
        unfold listed_room_label in Hl. cbn [fst snd] in Hl. fold label in Hl.
        subst l. apply sdict_get_set_same.
    + intros l Hout. rewrite H3.
      * apply sdict_get_set_other. intros Heq. apply Hout. left.
        unfold listed_room_label. cbn [fst snd]. exact Heq.
      * intros Hin. apply Hout. now right.
Qed.

Lemma room_label_nonempty (rno rtype : string) (price : Z) :
  nonempty (BookingFrame.room_label rno rtype price) = true.
Proof. unfold BookingFrame.room_label. now apply nonempty_app_r. Qed.

Lemma listed_room_has_price (db : Database) (r : Z * string * string * Z) :
  In r (RoomRepo.list_active db) ->
  exists price,
    BookingRepo.select_price_per_night (listed_room_id r) db = Some price.
Proof.
  intros Hin. unfold RoomRepo.list_active in Hin. apply in_map_iff in Hin.
  destruct Hin as [row [<- Hrow]]. apply order_by_in in Hrow.
  apply filter_In in Hrow. destruct Hrow as [Hrow _].
  unfold listed_room_id. cbn [fst].
  destruct (has_id_find r_id (rooms db) (r_id row) (has_id_of_in r_id _ row Hrow))
    as [row' Hf].
  unfold BookingRepo.select_price_per_night. rewrite Hf. cbn. eauto.
Qed.

(** X24. A room chosen in the drop-down that [_refresh_rooms] filled is
    always found: with dates that parse and check-out after check-in,
    [_create_booking] stores the booking and reports "Booking Saved"; it
    never answers "Room not found" or with a key error. *)
Theorem booking_form_room_is_found
  (repr : string -> string) (db : Database) (st0 st : BookingFrame.State)
  (now : string) (d1 d2 : date.t) :
  BookingFrame.room_map st = BookingFrame.room_map (BookingFrame._refresh_rooms db st0) ->
  In (BookingFrame.room_var st)
     (BookingFrame.room_values (BookingFrame._refresh_rooms db st0)) ->
  date.fromisoformat (strip (BookingFrame.in_var st)) = Ok d1 ->
  date.fromisoformat (strip (BookingFrame.out_var st)) = Ok d2 ->
  0 < date.days_between d1 d2 ->
  exists booking_id room_id price st' db',
    BookingFrame._create_booking repr None db st now =
    (st', db',
     messagebox.showinfo "Booking Saved"
       ("Booking #" ++ str_of_int booking_id ++ " created"))
    /\ dict.get String.eqb (BookingFrame.room_map st) (BookingFrame.room_var st)
       = Some room_id
    /\ BookingRepo.select_price_per_night room_id db = Some price
    /\ exists b,
        In b (rows (bookings db'))
        /\ b_id b = booking_id /\ b_room_id b = room_id
        /\ b_nights b = date.days_between d1 d2
        /\ b_total b = price * date.days_between d1 d2.
Proof.
  intros Hmap Hin H1 H2 Hn.
  unfold BookingFrame._refresh_rooms in Hmap, Hin.
  destruct (fill_rooms_spec (RoomRepo.list_active db) [] []) as [Hv [Hk _]].
  destruct (BookingFrame.fill_rooms (RoomRepo.list_active db) [] [])
    as [m values] eqn:Ef.
  cbn [fst snd BookingFrame.room_map BookingFrame.room_values] in *.
  subst values. cbn [app] in Hin.
  destruct (Hk _ Hin) as [r [Hr [Hlab Hget]]].
  destruct (listed_room_has_price db r Hr) as [price Hp].
  destruct (create_booking_result db (strip (BookingFrame.c_name st))
              (strip (BookingFrame.c_phone st)) (listed_room_id r)
              (strip (BookingFrame.in_var st)) (strip (BookingFrame.out_var st))
              now d1 d2 price H1 H2 Hn Hp) as [cid [Hc Hb]].
  cbv zeta in Hb.
  unfold BookingFrame._create_booking.
  assert (nonempty (BookingFrame.room_var st) = true) as Hne.
  { rewrite <- Hlab. destruct r as [[[rid rno] rtype] pr].
    apply room_label_nonempty. }
  rewrite Hne. cbn [negb]. rewrite Hmap, Hget, Hb.
  do 5 eexists. split; [reflexivity|]. split; [reflexivity|].
  split; [exact Hp|].
  eexists. split.
  - cbn [set_bookings bookings append_row rows]. apply in_or_app.
    right. left. reflexivity.
  - cbn. auto.
Qed.

Lemma booking_form_room_is_found_witness :
  exists booking_id room_id price st' db',
    BookingFrame._create_booking (fun s => s) None seeded_db
                                 sample_booking_form "t" =
    (st', db',
     messagebox.showinfo "Booking Saved"
       ("Booking #" ++ str_of_int booking_id ++ " created"))
    /\ dict.get String.eqb (BookingFrame.room_map sample_booking_form)
                (BookingFrame.room_var sample_booking_form) = Some room_id
    /\ BookingRepo.select_price_per_night room_id seeded_db = Some price
    /\ exists b,
        In b (rows (bookings db'))
        /\ b_id b = booking_id /\ b_room_id b = room_id
        /\ b_nights b =
           date.days_between (date.mk 2025 1 10) (date.mk 2025 1 13)
        /\ b_total b =
           price * date.days_between (date.mk 2025 1 10) (date.mk 2025 1 13).
Proof.
  apply (booking_form_room_is_found (fun s => s) seeded_db empty_booking_form
           sample_booking_form "t" (date.mk 2025 1 10) (date.mk 2025 1 13)).
  - reflexivity.
  - vm_compute. auto.
  - reflexivity.
  - reflexivity.
  - vm_compute. reflexivity.
Defined.

(** On the seeded store the form for the double room books three nights
    for 15000. *)
Example booking_form_three_nights :
  snd (BookingFrame._create_booking (fun s => s) None seeded_db
                                    sample_booking_form "t") =
  messagebox.showinfo "Booking Saved" "Booking #1 created"
  /\ BookingFrame.book_tv
       (fst (fst (BookingFrame._create_booking (fun s => s) None seeded_db
                                               sample_booking_form "t"))) =
     [ (1, "Ann", Some "0300", "102", "Double", 3, 15000, "Booked") ].
Proof. split; reflexivity. Qed.

(** ** The categories of the menu *)

(** X25. [MenuRepo.categories] starts with "All" and then lists every
    category of an active item once; each of the categories it lists,
    chosen as the filter of [list_items] with no search text, shows at
    least one item. *)
Theorem menu_categories_are_not_empty (db : Database) :
  exists rest,
    MenuRepo.categories db = "All" :: rest
    /\ NoDup rest
    /\ (forall c, In c rest <->
                  exists m, In m (rows (menu_items db))
                            /\ mi_is_active m = 1 /\ mi_category m = c)
    /\ (forall c, In c rest -> MenuRepo.list_items db (Some c) "" <> []).
Proof.
  unfold MenuRepo.categories. eexists. split; [reflexivity|].
  set (active := filter (fun m => mi_is_active m =? 1) (rows (menu_items db))).
  assert (forall c,
            In c (order_by String.leb (nodup string_dec (map mi_category active)))
            <-> exists m, In m (rows (menu_items db))
                          /\ mi_is_active m = 1 /\ mi_category m = c) as Hiff.
  { intros c. rewrite order_by_in, nodup_In, in_map_iff. subst active. split.
    - intros [m [Hc Hm]]. apply filter_In in Hm. destruct Hm as [Hm Ha].
      apply Z.eqb_eq in Ha. eauto.
    - intros [m [Hm [Ha Hc]]]. exists m. split; [exact Hc|].
      apply filter_In. split; [exact Hm|]. now apply Z.eqb_eq. }
  split; [|split; [exact Hiff|]].
  - eapply Permutation_NoDup; [apply order_by_perm|]. apply NoDup_nodup.
  - intros c Hc. apply Hiff in Hc. destruct Hc as [m [Hm [Ha Hcat]]].
    assert (In (MenuRepo.of_row m) (MenuRepo.list_items db (Some c) "")) as Hin.
    { unfold MenuRepo.list_items. apply in_map. apply order_by_in.
      apply filter_In. split; [exact Hm|].
      unfold MenuRepo.selected. rewrite Ha, Hcat. cbn [nonempty].
      rewrite Z.eqb_refl. cbn [andb].
      destruct (nonempty c && negb (String.eqb c "All"));
        [now rewrite String.eqb_refl | reflexivity]. }
    intros He. rewrite He in Hin. contradiction.
Qed.

(** ** Calendar order and the nights of a booking *)

Lemma fromisoformat_valid (s : string) (d : date.t) :
  date.fromisoformat s = Ok d -> date_valid d.
Proof.
  unfold date.fromisoformat.
  destruct (date.parse_fields s) as [[[y m] dd]|]; [|discriminate].
  destruct ((1 <=? y) && (y <=? 9999)) eqn:Ey; cbn [negb]; [|discriminate].
  destruct ((1 <=? m) && (m <=? 12)) eqn:Em; cbn [negb]; [|discriminate].
  destruct ((1 <=? dd) && (dd <=? date.days_in_month y m)) eqn:Ed;
    cbn [negb]; [|discriminate].
  intros H. injection H as <-. unfold date_valid. cbn.
  apply andb_prop in Ey, Em, Ed.
  destruct Ey as [Ey1 Ey2], Em as [Em1 Em2], Ed as [Ed1 Ed2].
  apply Z.leb_le in Ey1, Ey2, Em1, Em2, Ed1, Ed2. lia.
Qed.

Lemma leap_days (y : Z) :
  date.days_before_year (y + 1) =
  date.days_before_year y + 365 + (if date.is_leap y then 1 else 0).
Proof.
  unfold date.days_before_year, date.is_leap. cbv zeta.
  replace (y + 1 - 1) with y by lia.
  destruct (y mod 4 =? 0) eqn:E4; destruct (y mod 100 =? 0) eqn:E100;
    destruct (y mod 400 =? 0) eqn:E400; cbn [andb orb negb];
    rewrite ?Z.eqb_eq, ?Z.eqb_neq in *;
    Z.div_mod_to_equations; lia.
Qed.

Lemma days_before_year_mono (y1 y2 : Z) :
  y1 <= y2 -> date.days_before_year y1 <= date.days_before_year y2.
Proof.
  intros H. unfold date.days_before_year. cbv zeta.
  Z.div_mod_to_equations. lia.
Qed.

Lemma month_cases (m : Z) :
  1 <= m <= 12 ->
  m = 1 \/ m = 2 \/ m = 3 \/ m = 4 \/ m = 5 \/ m = 6 \/ m = 7 \/ m = 8
  \/ m = 9 \/ m = 10 \/ m = 11 \/ m = 12.
Proof. lia. Qed.

Ltac each_month H :=
  destruct (month_cases _ H) as
    [?|[?|[?|[?|[?|[?|[?|[?|[?|[?|[?|?]]]]]]]]]]]; subst.

Lemma month_table (y : Z) :
  let l := if date.is_leap y then 1 else 0 in
  (date.days_in_month y 1 = 31 /\ date.days_in_month y 2 = 28 + l
   /\ date.days_in_month y 3 = 31 /\ date.days_in_month y 4 = 30
   /\ date.days_in_month y 5 = 31 /\ date.days_in_month y 6 = 30
   /\ date.days_in_month y 7 = 31 /\ date.days_in_month y 8 = 31
   /\ date.days_in_month y 9 = 30 /\ date.days_in_month y 10 = 31
   /\ date.days_in_month y 11 = 30 /\ date.days_in_month y 12 = 31)
  /\ (date.days_before_month y 1 = 0 /\ date.days_before_month y 2 = 31
      /\ date.days_before_month y 3 = 59 + l
      /\ date.days_before_month y 4 = 90 + l
      /\ date.days_before_month y 5 = 120 + l
      /\ date.days_before_month y 6 = 151 + l
      /\ date.days_before_month y 7 = 181 + l
      /\ date.days_before_month y 8 = 212 + l
      /\ date.days_before_month y 9 = 243 + l
      /\ date.days_before_month y 10 = 273 + l
      /\ date.days_before_month y 11 = 304 + l
      /\ date.days_before_month y 12 = 334 + l).
Proof.
  cbv zeta. unfold date.days_before_month. simpl.
  unfold date.days_in_month. simpl.
  destruct (date.is_leap y); repeat split; reflexivity.
Qed.

Ltac month_arith y :=
  let T := fresh "T" in
  pose proof (month_table y) as T; cbv zeta in T;
  destruct (date.is_leap y); lia.

Lemma days_within_year (y m d : Z) :
  1 <= m <= 12 ->
  1 <= d <= date.days_in_month y m ->
  1 <= date.days_before_month y m + d
       <= 365 + (if date.is_leap y then 1 else 0).
Proof. intros Hm Hd. each_month Hm; month_arith y. Qed.

Lemma days_before_later_month (y m1 m2 d : Z) :
  1 <= m1 <= 12 -> 1 <= m2 <= 12 -> m1 < m2 ->
  1 <= d <= date.days_in_month y m1 ->
  date.days_before_month y m1 + d <= date.days_before_month y m2.
Proof.
  intros H1 H2 Hlt Hd.
  each_month H1; each_month H2; try lia; month_arith y.
Qed.

Lemma toordinal_increases (d1 d2 : date.t) :
  date_valid d1 -> date_valid d2 -> date_lt d1 d2 ->
  date.toordinal d1 < date.toordinal d2.
Proof.
  intros [Hy1 [Hm1 Hd1]] [Hy2 [Hm2 Hd2]] Hlt. unfold date.toordinal.
  destruct Hlt as [Hy|[Hy [Hm|[Hm Hd]]]].
  - pose proof (days_within_year _ _ _ Hm1 Hd1) as B1.
    pose proof (days_within_year _ _ _ Hm2 Hd2) as B2.
    pose proof (leap_days (date.year d1)) as L.
    pose proof (days_before_year_mono (date.year d1 + 1) (date.year d2)
                  ltac:(lia)) as M.
    lia.
  - rewrite Hy in *.
    pose proof (days_before_later_month _ _ _ _ Hm1 Hm2 Hm Hd1).
    lia.
  - rewrite Hy, Hm. lia.
Qed.

(** X26. For two dates that [date.fromisoformat] accepts, the nights that
    [create_booking] computes are positive exactly when the check-out
    date is later in the calendar than the check-in date; otherwise
    [create_booking] raises "Check-out must be after check-in" and leaves
    the database as it was. *)
Theorem nights_positive_iff_checkout_later
  (check_in check_out : string) (d1 d2 : date.t) :
  date.fromisoformat check_in = Ok d1 ->
  date.fromisoformat check_out = Ok d2 ->
  (0 < date.days_between d1 d2 <-> date_lt d1 d2)
  /\ (~ date_lt d1 d2 ->
      forall store_error db customer_name phone room_id now,
        BookingRepo.create_booking store_error db customer_name phone room_id
                                   check_in check_out now =
        (Raise (ValueError "Check-out must be after check-in"), db)).
Proof.
  intros H1 H2.
  pose proof (fromisoformat_valid _ _ H1) as V1.
  pose proof (fromisoformat_valid _ _ H2) as V2.
  assert (0 < date.days_between d1 d2 <-> date_lt d1 d2) as Hiff.
  { unfold date.days_between. split.
    - intros Hpos.
      destruct (Z.lt_trichotomy (date.year d1) (date.year d2))
        as [Hy|[Hy|Hy]]; [now left | | ].
      + destruct (Z.lt_trichotomy (date.month d1) (date.month d2))
          as [Hm|[Hm|Hm]]; [right; auto | | ].
        * destruct (Z.lt_trichotomy (date.day d1) (date.day d2))
            as [Hd|[Hd|Hd]]; [right; auto | | ].
          -- exfalso. unfold date.toordinal in Hpos. rewrite Hy, Hm, Hd in Hpos.
             lia.
          -- exfalso.
             assert (date_lt d2 d1) as Hl by (right; split; [lia|right; lia]).
             pose proof (toordinal_increases d2 d1 V2 V1 Hl). lia.
        * exfalso.
          assert (date_lt d2 d1) as Hl by (right; split; [lia|left; lia]).
          pose proof (toordinal_increases d2 d1 V2 V1 Hl). lia.
      + exfalso. assert (date_lt d2 d1) as Hl by (left; lia).
        pose proof (toordinal_increases d2 d1 V2 V1 Hl). lia.
    - intros Hl. pose proof (toordinal_increases d1 d2 V1 V2 Hl). lia. }
  split; [exact Hiff|].
  intros Hnot store_error db customer_name phone room_id now.
  unfold BookingRepo.create_booking. rewrite H1, H2.
  assert ((date.days_between d1 d2 <=? 0) = true) as E.
  { apply Z.leb_le. destruct (Z.lt_ge_cases 0 (date.days_between d1 d2)) as [H|H];
      [|lia]. apply Hiff in H. contradiction. }
  rewrite E. reflexivity.
Qed.

Lemma nights_positive_iff_checkout_later_witness :
  date.fromisoformat "2024-02-28" = Ok (date.mk 2024 2 28)
  /\ date.fromisoformat "2024-03-01" = Ok (date.mk 2024 3 1)
  /\ (0 < date.days_between (date.mk 2024 2 28) (date.mk 2024 3 1)
      <-> date_lt (date.mk 2024 2 28) (date.mk 2024 3 1)).
Proof.
  split; [reflexivity|]. split; [reflexivity|].
  exact (proj1 (nights_positive_iff_checkout_later
                  "2024-02-28" "2024-03-01" _ _ eq_refl eq_refl)).
Defined.

(** ** The console menu *)

Lemma menu_loop_total (entries : list string) :
  forall (last : string) (ignored : list string) (cart_total : Z)
         (out : list menu_script.line),
    Forall (fun x => menu_script.lower x <> "no") entries ->
    menu_script.lower last = "no" ->
    exists out',
      menu_script.loop (entries ++ last :: ignored) cart_total out =
      ((out' ++ [menu_script.thank_you;
                 menu_script.total_bill (cart_total + recognised_total entries)])
       %list, menu_script.completed).
Proof.
  induction entries as [|x entries IH]; intros last ignored total out Hno Hlast.
  - cbn [app menu_script.loop]. rewrite Hlast. cbn [String.eqb Ascii.eqb].
    exists out. unfold recognised_total. cbn. now rewrite Z.add_0_r.
  - inversion Hno as [|? ? Hx Hrest]; subst.
    cbn [app menu_script.loop].
    destruct (String.eqb (menu_script.lower x) "no") eqn:E.
    + apply String.eqb_eq in E. contradiction.
    + unfold recognised_total. cbn [map fold_right].
      destruct (dict.get String.eqb menu_script.Menu (menu_script.lower x))
        as [price|].
      * destruct (IH last ignored (total + price)
                     (out ++ [menu_script.added (menu_script.lower x)])%list
                     Hrest Hlast) as [out' H].
        exists out'. rewrite H. unfold recognised_total.
        now rewrite Z.add_assoc.
      * destruct (IH last ignored total
                     (out ++ [menu_script.not_in_menu])%list Hrest Hlast)
          as [out' H].
        exists out'. rewrite H. unfold recognised_total.
        now rewrite Z.add_0_l.
Qed.

Lemma recognised_total_permutation (l l' : list string) :
  Permutation l l' -> recognised_total l = recognised_total l'.
Proof.
  intros H. unfold recognised_total. apply sum_permutation.
  now apply Permutation_map.
Qed.

(** X27. The console menu bills the entries made before the first "no"
    (in any letter case): the bill is the sum of the prices of those that
    are on the menu, entries that are not on the menu cost nothing, what
    is typed after "no" is ignored, and the order of the entries does not
    change the bill. *)
Theorem menu_bill_is_order_independent
  (entries entries' : list string) (last last' : string)
  (ignored ignored' : list string) :
  Forall (fun x => menu_script.lower x <> "no") entries ->
  Permutation entries entries' ->
  menu_script.lower last = "no" ->
  menu_script.lower last' = "no" ->
  exists out out',
    menu_script.main (entries ++ last :: ignored) =
    ((out ++ [menu_script.thank_you;
              menu_script.total_bill (recognised_total entries)])%list,
     menu_script.completed)
    /\ menu_script.main (entries' ++ last' :: ignored') =
       ((out' ++ [menu_script.thank_you;
                  menu_script.total_bill (recognised_total entries)])%list,
        menu_script.completed).
Proof.
  intros Hno Hperm Hl Hl'.
  assert (Forall (fun x => menu_script.lower x <> "no") entries') as Hno'.
  { apply Forall_forall. intros x Hx. rewrite Forall_forall in Hno.
    apply Hno. eapply Permutation_in; [apply Permutation_sym|]; eauto. }
  destruct (menu_loop_total entries last ignored 0 [menu_script.welcome] Hno Hl)
    as [out H].
  destruct (menu_loop_total entries' last' ignored' 0 [menu_script.welcome]
              Hno' Hl') as [out' H'].
  exists out, out'. unfold menu_script.main. rewrite H, H'.
  rewrite (recognised_total_permutation entries entries' Hperm).
  now rewrite !Z.add_0_l.
Qed.

Lemma menu_bill_is_order_independent_witness :
  exists out out',
    menu_script.main (["Pizza"; "soup"; "water"] ++ "NO" :: ["pasta"]) =
    ((out ++ [menu_script.thank_you;
              menu_script.total_bill
                (recognised_total ["Pizza"; "soup"; "water"])])%list,
     menu_script.completed)
    /\ menu_script.main (["water"; "Pizza"; "soup"] ++ "no" :: []) =
       ((out' ++ [menu_script.thank_you;
                  menu_script.total_bill
                    (recognised_total ["Pizza"; "soup"; "water"])])%list,
        menu_script.completed).
Proof.
  apply (menu_bill_is_order_independent
           ["Pizza"; "soup"; "water"] ["water"; "Pizza"; "soup"]
           "NO" "no" ["pasta"] []).
  - repeat constructor; vm_compute; discriminate.
  - apply Permutation_sym.
    change ["water"; "Pizza"; "soup"] with (["water"] ++ ["Pizza"; "soup"])%list.
    eapply perm_trans; [apply Permutation_app_comm|]. apply Permutation_refl.
  - reflexivity.
  - reflexivity.
Defined.

(** The bill of that session. *)
Example menu_bill_sample :
  menu_script.main ["Pizza"; "soup"; "water"; "NO"; "pasta"] =
  ([ menu_script.welcome; menu_script.added "pizza"; menu_script.not_in_menu;
     menu_script.added "water"; menu_script.thank_you;
     menu_script.total_bill 600 ],
   menu_script.completed)
  /\ menu_script.main ["pizza"] =
     ([menu_script.welcome; menu_script.added "pizza"], menu_script.EOFError).
Proof. split; reflexivity. Qed.

Lemma menu_categories_are_not_empty_witness :
  exists rest,
    MenuRepo.categories seeded_db = "All" :: rest
    /\ NoDup rest
    /\ (forall c, In c rest <->
                  exists m, In m (rows (menu_items seeded_db))
                            /\ mi_is_active m = 1 /\ mi_category m = c)
    /\ (forall c, In c rest -> MenuRepo.list_items seeded_db (Some c) "" <> []).
Proof. exact (menu_categories_are_not_empty seeded_db). Defined.

(** ** The console booking and customer care script *)

Lemma sdict_get_absent {V : Type} (d : list (string * V)) (k : string) :
  ~ In k (map fst d) -> dict.get String.eqb d k = None.
Proof.
  induction d as [|[k' v] d IH]; cbn [dict.get map fst In]; intros H;
    [reflexivity|].
  destruct (String.eqb k' k) eqn:E.
  - apply String.eqb_eq in E. tauto.
  - apply IH. tauto.
Qed.

Lemma sdict_get_present {V : Type} (d : list (string * V)) (k : string) (v : V) :
  dict.get String.eqb d k = Some v -> In (k, v) d.
Proof.
  induction d as [|[k' v'] d IH]; cbn [dict.get In]; intros H; [discriminate|].
  destruct (String.eqb k' k) eqn:E.
  - apply String.eqb_eq in E. injection H as ->. left. now subst.
  - right. now apply IH.
Qed.

Lemma room_rates_get (room_type : string) (rate : Z) :
  In (room_type, rate) bookings_script.room_rates ->
  dict.get String.eqb bookings_script.room_rates room_type = Some rate.
Proof.
  unfold bookings_script.room_rates. cbn [In].
  intros [H|[H|[H|[H|[]]]]]; injection H as <- <-; reflexivity.
Qed.

(** X28. [new_booking] records whatever is typed once the two numbers
    parse: the dates are not checked, the id is one more than the number of
    bookings held, and the total is the number of rooms times the rate of
    the room type, read in any letter case; a room type that is not
    offered is booked all the same, at rate 0. *)
Theorem new_booking_prices_by_room_type
  (int_ : string -> result Z) (hotel_bookings : list bookings_script.Booking)
  (name phone check_in check_out guests rtype rooms : string)
  (rest : list string) (out : list bookings_script.line) (g n : Z) :
  int_ guests = Ok g ->
  int_ rooms = Ok n ->
  exists out' b,
    bookings_script.new_booking int_ hotel_bookings
      (name :: phone :: check_in :: check_out :: guests :: rtype :: rooms :: rest)
      out =
    (out', inl ((hotel_bookings ++ [b])%list, rest))
    /\ bookings_script.booking_id b = Z.of_nat (List.length hotel_bookings) + 1
    /\ (bookings_script.name b, bookings_script.phone b,
        bookings_script.check_in b, bookings_script.check_out b) =
       (name, phone, check_in, check_out)
    /\ bookings_script.num_guests b = g
    /\ bookings_script.num_rooms b = n
    /\ bookings_script.total_price b = n * bookings_script.price_per_room b
    /\ (forall rate,
          In (menu_script.lower rtype, rate) bookings_script.room_rates ->
          bookings_script.price_per_room b = rate)
    /\ (~ In (menu_script.lower rtype) (map fst bookings_script.room_rates) ->
        bookings_script.price_per_room b = 0).
Proof.
  intros Hg Hn. unfold bookings_script.new_booking. rewrite Hg, Hn.
  destruct (dict.get String.eqb bookings_script.room_rates
                     (menu_script.lower rtype)) as [rate|] eqn:E.
  - eexists. eexists. split; [reflexivity|].
    cbn [bookings_script.booking_id bookings_script.name bookings_script.phone
         bookings_script.check_in bookings_script.check_out
         bookings_script.num_guests bookings_script.num_rooms
         bookings_script.total_price bookings_script.price_per_room].
    repeat split.
    + intros rate' Hin. apply room_rates_get in Hin. congruence.
    + intros Hno. apply sdict_get_absent in Hno. congruence.
  - eexists. eexists. split; [reflexivity|].
    cbn [bookings_script.booking_id bookings_script.name bookings_script.phone
         bookings_script.check_in bookings_script.check_out
         bookings_script.num_guests bookings_script.num_rooms
         bookings_script.total_price bookings_script.price_per_room].
    repeat split.
    + lia.
    + intros rate' Hin. apply room_rates_get in Hin. congruence.
Qed.

Lemma new_booking_prices_by_room_type_witness :
  (sample_int "2" = Ok 2 /\ sample_int "-1" = Ok (-1))
  /\ exists out' b,
       bookings_script.new_booking sample_int []
         ["Ann"; "0300"; "2025-01-13"; "never"; "2"; "SUITE"; "-1";
          "no"] [] =
       (out', inl (([] ++ [b])%list, ["no"]))
       /\ bookings_script.booking_id b =
          Z.of_nat (List.length (@nil bookings_script.Booking)) + 1
       /\ (bookings_script.name b, bookings_script.phone b,
           bookings_script.check_in b, bookings_script.check_out b) =
          ("Ann", "0300", "2025-01-13", "never")
       /\ bookings_script.num_guests b = 2
       /\ bookings_script.num_rooms b = -1
       /\ bookings_script.total_price b = -1 * bookings_script.price_per_room b
       /\ (forall rate,
             In (menu_script.lower "SUITE", rate) bookings_script.room_rates ->
             bookings_script.price_per_room b = rate)
       /\ (~ In (menu_script.lower "SUITE")
               (map fst bookings_script.room_rates) ->
           bookings_script.price_per_room b = 0).
Proof.
  split; [split; reflexivity|].
  exact (new_booking_prices_by_room_type
           sample_int [] "Ann" "0300" "2025-01-13" "never" "2" "SUITE" "-1"
           ["no"] [] 2 (-1) eq_refl eq_refl).
Defined.

(** That session as the script runs it: the booking of minus one suite is
    recorded at a negative total, and the customer care part ends at once. *)
Example bookings_script_sample :
  bookings_script.main sample_int
    ["Ann"; "0300"; "2025-01-13"; "never"; "2"; "SUITE"; "-1"; "no"] =
  (([ bookings_script.available_rooms;
      bookings_script.room_rate "single" 3000;
      bookings_script.room_rate "double" 5000;
      bookings_script.room_rate "suite" 8000;
      bookings_script.room_rate "deluxe" 12000;
      bookings_script.booking_successful;
      bookings_script.booking_id_is 1;
      bookings_script.room_type_is "suite";
      bookings_script.rooms_and_guests (-1) 2;
      bookings_script.total_price_is (-8000);
      bookings_script.welcome ]
    ++ bookings_script.service_options
    ++ [bookings_script.thank_you; bookings_script.all_tickets])%list,
   [bookings_script.mk_booking 1 "Ann" "0300" "2025-01-13" "never" 2 "suite"
                               (-1) 8000 (-8000) "pending"],
   [], bookings_script.completed)
  /\ snd (bookings_script.main sample_int
            ["Ann"; "0300"; "2025-01-13"; "2025-01-14"; "two"; "suite"; "1"]) =
     bookings_script.raised
       (ValueError "invalid literal for int() with base 10: 'two'").
Proof. split; reflexivity. Qed.

Lemma services_get (chosen : string * string) :
  In chosen bookings_script.services ->
  String.eqb (menu_script.lower (fst chosen)) "no" = false
  /\ dict.get String.eqb bookings_script.services (fst chosen) =
     Some (snd chosen).
Proof.
  unfold bookings_script.services. cbn [In].
  intros [H|[H|[H|[H|[H|[H|[]]]]]]]; subst chosen; split; reflexivity.
Qed.

Lemma care_loop_records (entries : list care_entry) :
  forall (last : string) (ignored : list string)
         (tickets : list bookings_script.Ticket)
         (out : list bookings_script.line),
    Forall care_entry_ok entries ->
    menu_script.lower last = "no" ->
    exists out',
      bookings_script.care_loop
        (flat_map care_entry_lines entries ++ last :: ignored) tickets out =
      ((out' ++ [bookings_script.thank_you])%list,
       (tickets ++ flat_map care_entry_tickets entries)%list,
       bookings_script.completed).
Proof.
  induction entries as [|e entries IH];
    intros last ignored tickets out Hok Hlast.
  - cbn [flat_map app bookings_script.care_loop]. rewrite Hlast.
    cbn [String.eqb Ascii.eqb]. rewrite app_nil_r.
    exists (out ++ bookings_script.service_options)%list.
    now rewrite <- app_assoc.
  - inversion Hok as [|? ? He Hrest]; subst.
    destruct e as [chosen name room message|text].
    + cbn [care_entry_ok] in He. destruct (services_get chosen He) as [Hno Hget].
      cbn [flat_map care_entry_lines care_entry_tickets app
           bookings_script.care_loop].
      rewrite Hno, Hget.
      destruct (IH last ignored
                  (tickets ++ [bookings_script.mk_ticket name room (snd chosen)
                                                         message])%list
                  (out ++ bookings_script.service_options
                       ++ [bookings_script.request_recorded])%list
                  Hrest Hlast) as [out' H].
      exists out'. rewrite H. now rewrite <- app_assoc.
    + cbn [care_entry_ok] in He. destruct He as [Hno Hkey].
      cbn [flat_map care_entry_lines care_entry_tickets app
           bookings_script.care_loop].
      destruct (String.eqb (menu_script.lower text) "no") eqn:E.
      * apply String.eqb_eq in E. contradiction.
      * rewrite (sdict_get_absent _ _ Hkey).
        destruct (IH last ignored tickets
                    (out ++ bookings_script.service_options
                         ++ [bookings_script.invalid_option])%list
                    Hrest Hlast) as [out' H].
        exists out'. exact H.
Qed.

(** X29. The customer care loop records one ticket for every request
    made before the first "no" typed as a choice: the number of a service
    is followed by three lines that are taken as name, room and message
    whatever they say ("no" included); a choice that is no service number
    records nothing; after "no" the script lists exactly these tickets, in
    their order, and reads no further. *)
Theorem care_records_every_request
  (entries : list care_entry) (last : string) (ignored : list string)
  (out : list bookings_script.line) :
  Forall care_entry_ok entries ->
  menu_script.lower last = "no" ->
  exists out',
    bookings_script.customer_care
      (flat_map care_entry_lines entries ++ last :: ignored) out =
    ((out' ++ bookings_script.thank_you
           :: bookings_script.all_tickets
           :: map ticket_printed (flat_map care_entry_tickets entries))%list,
     flat_map care_entry_tickets entries,
     bookings_script.completed).
Proof.
  intros Hok Hlast. unfold bookings_script.customer_care.
  destruct (care_loop_records entries last ignored []
              (out ++ [bookings_script.welcome])%list Hok Hlast) as [out' H].
  rewrite H. cbn [app]. exists out'.
  rewrite <- app_assoc. reflexivity.
Qed.

Lemma care_records_every_request_witness :
  (Forall care_entry_ok
     [ care_request ("3", "Taxi Service") "no" "12" "to the airport";
       care_mistake "7";
       care_request ("5", "Complaint") "Ann" "14" "no" ]
   /\ menu_script.lower "No" = "no")
  /\ exists out',
       bookings_script.customer_care
         (flat_map care_entry_lines
            [ care_request ("3", "Taxi Service") "no" "12" "to the airport";
              care_mistake "7";
              care_request ("5", "Complaint") "Ann" "14" "no" ]
          ++ "No" :: ["1"; "Bob"]) [] =
       ((out' ++ bookings_script.thank_you
              :: bookings_script.all_tickets
              :: map ticket_printed
                   (flat_map care_entry_tickets
                      [ care_request ("3", "Taxi Service") "no" "12"
                                     "to the airport";
                        care_mistake "7";
                        care_request ("5", "Complaint") "Ann" "14" "no" ]))%list,
        flat_map care_entry_tickets
          [ care_request ("3", "Taxi Service") "no" "12" "to the airport";
            care_mistake "7";
            care_request ("5", "Complaint") "Ann" "14" "no" ],
        bookings_script.completed).
Proof.
  assert (Forall care_entry_ok
            [ care_request ("3", "Taxi Service") "no" "12" "to the airport";
              care_mistake "7";
              care_request ("5", "Complaint") "Ann" "14" "no" ]) as Hok.
  { constructor; [do 2 right; left; reflexivity|].
    constructor;
      [|constructor; [do 4 right; left; reflexivity | constructor]].
    split; [discriminate|]. cbn.
    intros H. repeat destruct H as [H|H]; try discriminate H; exact H. }
  split; [split; [exact Hok | reflexivity]|].
  exact (care_records_every_request _ "No" ["1"; "Bob"] [] Hok eq_refl).
Defined.

(** ** Start-up *)

Lemma backfill_row_name (e : string * string) (m : MenuItemRow) :
  mi_name (backfill_row e m) = mi_name m.
Proof. unfold backfill_row. now destruct (_ && _). Qed.

Lemma backfill_row_fills (e : string * string) (m : MenuItemRow) :
  nonempty (snd e) = true ->
  mi_name m = fst e ->
  image_missing (backfill_row e m) = false.
Proof.
  intros He Hn. unfold backfill_row. rewrite Hn, String.eqb_refl.
  cbn [andb]. destruct (image_missing m) eqn:E; [|exact E].
  unfold image_missing. cbn [mi_image_path]. now rewrite He.
Qed.

Lemma backfill_rows_fills (entries : list (string * string)) :
  Forall (fun e => nonempty (snd e) = true) entries ->
  forall m, In (mi_name m) (map fst entries) ->
            image_missing (backfill_rows entries m) = false.
Proof.
  induction 1 as [|e entries He Hes IH]; intros m Hin; [contradiction|].
  rewrite backfill_rows_cons.
  destruct (image_missing (backfill_row e m)) eqn:E.
  - apply IH. rewrite backfill_row_name.
    cbn [map In] in Hin. destruct Hin as [Hin|Hin]; [|exact Hin].
    rewrite backfill_row_fills in E by (auto using eq_sym). discriminate.
  - rewrite backfill_rows_with_image by exact E. exact E.
Qed.

Lemma seed_dishes_mapped (name : string) :
  In name seed_dish_names -> In name (map fst image_mapping).
Proof.
  unfold seed_dish_names. intros H. exact H.
Qed.

(** X30. After the start-up of [main] ([init_db(seed=True)], then
    [ensure_menu_images()]) every dish of [MENU_SEED] is on the menu, and
    no menu row that carries the name of one of them is without an image
    path, whatever the database held before. *)
Theorem startup_gives_seed_dishes_an_image
  (db : Database) (cats : Table CategoryRow) (name : string) :
  In name seed_dish_names ->
  (exists m, In m (rows (menu_items (fst (main_store (db, cats)))))
             /\ mi_name m = name)
  /\ (forall m, In m (rows (menu_items (fst (main_store (db, cats))))) ->
                mi_name m = name -> image_missing m = false).
Proof.
  intros Hname.
  assert (rows (menu_items (fst (main_store (db, cats)))) =
          map (backfill_rows image_mapping)
              (rows (fold_left seed_menu_item MENU_SEED (menu_items db)))) as E.
  { unfold main_store, init_db, ensure_menu_images.
    cbn [fst snd set_menu_items set_rooms menu_items].
    rewrite backfill_fold_rows. reflexivity. }
  rewrite E. split.
  - destruct (seed_menu_present MENU_SEED (menu_items db) menu_seed_prices)
      as [Hp _].
    unfold seed_dish_names in Hname. apply in_map_iff in Hname.
    destruct Hname as [x [Hx Hin]]. specialize (Hp x Hin). rewrite Hx in Hp.
    unfold menu_name_present in Hp. apply existsb_exists in Hp.
    destruct Hp as [m0 [Hm0 Hn0]]. apply String.eqb_eq in Hn0.
    exists (backfill_rows image_mapping m0). split.
    + apply in_map. exact Hm0.
    + destruct (backfill_rows_settle image_mapping image_mapping_nonempty m0)
        as [Hsame _].
      unfold menu_row_but_image in Hsame. congruence.
  - intros m Hin Hn. apply in_map_iff in Hin. destruct Hin as [m0 [<- Hm0]].
    apply backfill_rows_fills; [exact image_mapping_nonempty|].
    destruct (backfill_rows_settle image_mapping image_mapping_nonempty m0)
      as [Hsame _].
    unfold menu_row_but_image in Hsame.
    assert (mi_name m0 = name) as Hm by congruence.
    rewrite Hm. apply seed_dishes_mapped. exact Hname.
Qed.

Lemma startup_gives_seed_dishes_an_image_witness :
  In "Soft Drink" seed_dish_names
  /\ (exists m,
        In m (rows (menu_items (fst (main_store (seeded_db_without_soda,
                                                 mkTable [] 0)))))
        /\ mi_name m = "Soft Drink")
  /\ (forall m,
        In m (rows (menu_items (fst (main_store (seeded_db_without_soda,
                                                 mkTable [] 0))))) ->
        mi_name m = "Soft Drink" -> image_missing m = false).
Proof.
  assert (In "Soft Drink" seed_dish_names) as H
    by (do 5 right; left; reflexivity).
  split; [exact H|].
  exact (startup_gives_seed_dishes_an_image
           seeded_db_without_soda (mkTable [] 0) "Soft Drink" H).
Defined.
